(** * fct-miner: the economic calculator, the rule engine, the size
    optimizer, the retry loop and the payload of the mining engine, the
    session store and the control loop of the auto-miner, embedded from the
    TypeScript sources.

    Conventions of the embedding.
    - A [bigint] is a [Z]; bigint division truncates towards zero ([Z.quot])
      and throws a RangeError on a zero divisor.
    - A [number] that holds a byte count, a size in kilobytes, a session
      identifier, a retry count or a delay is an integer well inside the
      exact range of a double and is a [Z].  The calculator is also given
      on an arbitrary [number] for the size ([FctCalculator.AnySize]), with
      the proof that the two agree on integer byte counts.
    - A [number] that holds an amount of ETH, a percentage or a price is an
      IEEE-754 binary64 value: a rational that the format represents, or an
      infinity, or NaN.  Every operation rounds its exact result to the
      nearest representable value, ties to even.  The sign of zero is not
      modelled (it never influences a comparison).
    - A thrown exception is the [Throw] case of [result]. *)

From stdpp Require Import gmap strings pretty list.
From Stdlib Require Import Ascii Strings.Byte ZArith QArith Qround Qpower Lia Lqa
  Sorted.

Open Scope Z_scope.

(** ** JavaScript values *)

Module Js.

Inductive JsError : Type :=
  | RangeError (msg : string)
  | SyntaxError (msg : string)
  | Error (msg : string).

Inductive result (A : Type) : Type :=
  | Ok (a : A)
  | Throw (e : JsError).
Arguments Ok {A} a.
Arguments Throw {A} e.

#[global] Instance result_ret : MRet result := fun _ a => Ok a.
#[global] Instance result_bind : MBind result := fun _ _ k m =>
  match m with
  | Ok a => k a
  | Throw e => Throw e
  end.

(** [a / b] on bigints. *)
Definition bigint_div (a b : Z) : result Z :=
  if b =? 0 then Throw (RangeError "Division by zero") else Ok (a ÷ b).

(** *** binary64 *)

Inductive number : Type :=
  | Fin (q : Q)
  | PInf
  | NInf
  | NaN.

(** floor (log2 x) of a positive rational. *)
Definition ilog2 (x : Q) : Z :=
  let e0 := Z.log2 (Qnum x) - Z.log2 (Zpos (Qden x)) in
  if Qle_bool (2 ^ e0) x then e0 else e0 - 1.

(** Exponent of the unit in the last place of the binade of [x]: 53 bits of
    precision, subnormals below 2^-1022. *)
Definition ulp_exp (x : Q) : Z := Z.max (ilog2 x - 52) (-1074).

(** Nearest integer, ties to even. *)
Definition rne (y : Q) : Z :=
  let f := Qfloor y in
  match (y - inject_Z f ?= 1 # 2)%Q with
  | Lt => f
  | Gt => f + 1
  | Eq => if Z.even f then f else f + 1
  end.

(** Rounding of a positive rational with an unbounded exponent. *)
Definition round_pos (x : Q) : Q :=
  let e := ulp_exp x in
  (inject_Z (rne (x / 2 ^ e)) * 2 ^ e)%Q.

(** The binary64 value of the exact rational [x]. *)
Definition to_double (x : Q) : number :=
  match (0 ?= x)%Q with
  | Eq => Fin 0
  | Lt => let r := round_pos x in
          if Qle_bool (2 ^ 1024) r then PInf else Fin (Qred r)
  | Gt => let r := round_pos (- x) in
          if Qle_bool (2 ^ 1024) r then NInf else Fin (Qred (- r))
  end.

(** [Number(b)] for a bigint [b]. *)
Definition Number_of_bigint (b : Z) : number := to_double (inject_Z b).

(** [Number(formatEther(wei))]: [formatEther] prints wei / 10^18 exactly as a
    decimal string and [Number] reads a decimal string as the nearest
    double. *)
Definition Number_formatEther (wei : Z) : number :=
  to_double (inject_Z wei / inject_Z (10 ^ 18)).

Definition number_div (a b : number) : number :=
  match a, b with
  | NaN, _ | _, NaN => NaN
  | (PInf | NInf), (PInf | NInf) => NaN
  | PInf, Fin y => if Qle_bool 0 y then PInf else NInf
  | NInf, Fin y => if Qle_bool 0 y then NInf else PInf
  | Fin _, (PInf | NInf) => Fin 0
  | Fin x, Fin y =>
      if Qeq_bool y 0 then
        match (0 ?= x)%Q with Eq => NaN | Lt => PInf | Gt => NInf end
      else to_double (x / y)
  end.

Definition number_mul (a b : number) : number :=
  match a, b with
  | NaN, _ | _, NaN => NaN
  | PInf, PInf | NInf, NInf => PInf
  | PInf, NInf | NInf, PInf => NInf
  | PInf, Fin y | Fin y, PInf =>
      match (0 ?= y)%Q with Eq => NaN | Lt => PInf | Gt => NInf end
  | NInf, Fin y | Fin y, NInf =>
      match (0 ?= y)%Q with Eq => NaN | Lt => NInf | Gt => PInf end
  | Fin x, Fin y => to_double (x * y)
  end.

Definition number_add (a b : number) : number :=
  match a, b with
  | NaN, _ | _, NaN => NaN
  | PInf, NInf | NInf, PInf => NaN
  | PInf, _ | _, PInf => PInf
  | NInf, _ | _, NInf => NInf
  | Fin x, Fin y => to_double (x + y)
  end.

Definition number_sub (a b : number) : number :=
  match a, b with
  | NaN, _ | _, NaN => NaN
  | PInf, PInf | NInf, NInf => NaN
  | PInf, _ | _, NInf => PInf
  | NInf, _ | _, PInf => NInf
  | Fin x, Fin y => to_double (x - y)
  end.

(** [a < b] on numbers: false as soon as one side is NaN. *)
Definition number_lt (a b : number) : bool :=
  match a, b with
  | NaN, _ | _, NaN => false
  | _, NInf => false
  | PInf, _ => false
  | NInf, _ => true
  | Fin _, PInf => true
  | Fin x, Fin y => match (x ?= y)%Q with Lt => true | _ => false end
  end.

Definition number_le (a b : number) : bool :=
  match a, b with
  | NaN, _ | _, NaN => false
  | NInf, _ => true
  | _, PInf => true
  | _, NInf => false
  | PInf, _ => false
  | Fin x, Fin y => Qle_bool x y
  end.

(** [Math.max(a, b)]: NaN as soon as one side is NaN. *)
Definition Math_max (a b : number) : number :=
  match a, b with
  | NaN, _ | _, NaN => NaN
  | PInf, _ | _, PInf => PInf
  | NInf, n | n, NInf => n
  | Fin x, Fin y => if Qle_bool x y then Fin y else Fin x
  end.

(** The finite doubles: k * 2^e with |k| < 2^53 and -1074 <= e <= 971. *)
Definition is_double (q : Q) : Prop :=
  exists k e : Z,
    Z.abs k < 2 ^ 53 /\ -1074 <= e <= 971 /\ (q == inject_Z k * 2 ^ e)%Q.

(** [lo] is the largest double below [m]. *)
Definition double_below (lo m : Q) : Prop :=
  is_double lo /\ (lo < m)%Q /\
  forall d : Q, is_double d -> (d < m)%Q -> (d <= lo)%Q.

(** Truthiness of a [number]: 0 and NaN are falsy. *)
Definition truthy_number (n : number) : bool :=
  match n with
  | Fin q => negb (Qeq_bool q 0)
  | PInf | NInf => true
  | NaN => false
  end.

Definition Math_floor (n : number) : number :=
  match n with
  | Fin q => Fin (inject_Z (Qfloor q))
  | PInf => PInf
  | NInf => NInf
  | NaN => NaN
  end.

(** [BigInt(n)] for a number: a RangeError unless [n] is an integer. *)
Definition BigInt_of_number (n : number) : result Z :=
  match n with
  | Fin q =>
      if Qeq_bool q (inject_Z (Qfloor q)) then Ok (Qfloor q)
      else Throw (RangeError "The number cannot be converted to a BigInt")
  | PInf | NInf | NaN =>
      Throw (RangeError "The number cannot be converted to a BigInt")
  end.

(** [array.slice(start)]: a negative [start] counts from the end. *)
Definition slice_from {A : Type} (start : Z) (array : list A) : list A :=
  let len := Z.of_nat (length array) in
  let k := if start <? 0 then Z.max (len + start) 0 else Z.min start len in
  drop (Z.to_nat k) array.

(** *** Strings *)

(** [b.toString()] for a bigint, and [`${n}`] for an integer number. *)
Definition toString (b : Z) : string := pretty b.

Definition digit_of_ascii (c : Ascii.ascii) : option Z :=
  let n := Z.of_N (Ascii.N_of_ascii c) in
  if (48 <=? n) && (n <=? 57) then Some (n - 48) else None.

Fixpoint parse_digits (s : string) (acc : Z) : option Z :=
  match s with
  | EmptyString => Some acc
  | String c s' =>
      match digit_of_ascii c with
      | Some d => parse_digits s' (acc * 10 + d)
      | None => None
      end
  end.

(** [BigInt(s)] on the strings that [toString] writes: an optional sign and
    decimal digits; the empty string is 0n.  (JavaScript also accepts
    surrounding white space and the 0x, 0o and 0b prefixes, which no value
    written by this program has.) *)
Definition BigInt_of_string (s : string) : result Z :=
  let bad := Throw (SyntaxError "Cannot convert to a BigInt") in
  match s with
  | EmptyString => Ok 0
  | String c s' =>
      if Ascii.eqb c "-"%char then
        match s' with
        | EmptyString => bad
        | _ => match parse_digits s' 0 with Some v => Ok (- v) | None => bad end
        end
      else if Ascii.eqb c "+"%char then
        match s' with
        | EmptyString => bad
        | _ => match parse_digits s' 0 with Some v => Ok v | None => bad end
        end
      else match parse_digits s 0 with Some v => Ok v | None => bad end
  end.

(** Truthiness of a [string | null]: null and the empty string are falsy. *)
Definition truthy_string (v : option string) : bool :=
  match v with
  | Some EmptyString | None => false
  | Some _ => true
  end.

End Js.

Import Js.

(** ** fct-calculator.ts *)

Module FctCalculator.

Record Params : Type := mkParams {
  dataSize : Z;
  baseFee : Z;
  mintRate : Z;
  calldataGasOverride : option Z;
  gasPrice : option Z
}.

Record Output : Type := mkOutput {
  calldataGas : Z;
  fctMinted : Z;
  efficiency : number;
  totalGas : Z;
  ethBurned : Z;
  costPerFct : Z
}.

Definition baseExecutionGas : Z := 21000.
Definition overheadBytes : Z := 160.

Definition calculateFctOutput (params : Params) : result Output :=
  let mineBoostSize := Z.max (dataSize params - overheadBytes) 0 in
  let calldataGas :=
    match calldataGasOverride params with
    | Some g => g
    | None => mineBoostSize * 40
    end in
  let totalGas := calldataGas + baseExecutionGas in
  let fctMinted := calldataGas * baseFee params * mintRate params in
  let efficiency :=
    number_mul
      (number_div (Number_of_bigint calldataGas) (Number_of_bigint totalGas))
      (Fin 100) in
  let effectiveGasPrice :=
    match gasPrice params with
    | Some g => g
    | None => baseFee params
    end in
  let ethBurned := totalGas * effectiveGasPrice in
  costPerFct ← (if fctMinted >? 0
                 then bigint_div (ethBurned * 10 ^ 18) fctMinted
                 else Ok 0);
  Ok {| calldataGas := calldataGas;
        fctMinted := fctMinted;
        efficiency := efficiency;
        totalGas := totalGas;
        ethBurned := ethBurned;
        costPerFct := costPerFct |}.

(** [calculateFctOutput] as the source types it: [dataSize] is a [number],
    so that it may be a fraction, an infinity or NaN, the payload size is
    computed in binary64 and [BigInt] throws a RangeError on a product that
    is not an integer.  The definition above is this one on integer byte
    counts, which is what every caller passes. *)
Module AnySize.

Record Params : Type := mkParams {
  dataSize : number;
  baseFee : Z;
  mintRate : Z;
  calldataGasOverride : option Z;
  gasPrice : option Z
}.

Definition calculateFctOutput (params : Params) : result Output :=
  let mineBoostSize :=
    Math_max (number_sub (dataSize params) (Fin (inject_Z overheadBytes)))
      (Fin 0) in
  calldataGas ←
    match calldataGasOverride params with
    | Some g => Ok g
    | None => BigInt_of_number (number_mul mineBoostSize (Fin 40))
    end;
  let totalGas := calldataGas + baseExecutionGas in
  let fctMinted := calldataGas * baseFee params * mintRate params in
  let efficiency :=
    number_mul
      (number_div (Number_of_bigint calldataGas) (Number_of_bigint totalGas))
      (Fin 100) in
  let effectiveGasPrice :=
    match gasPrice params with
    | Some g => g
    | None => baseFee params
    end in
  let ethBurned := totalGas * effectiveGasPrice in
  costPerFct ← (if fctMinted >? 0
                 then bigint_div (ethBurned * 10 ^ 18) fctMinted
                 else Ok 0);
  Ok {| FctCalculator.calldataGas := calldataGas;
        FctCalculator.fctMinted := fctMinted;
        FctCalculator.efficiency := efficiency;
        FctCalculator.totalGas := totalGas;
        FctCalculator.ethBurned := ethBurned;
        FctCalculator.costPerFct := costPerFct |}.

End AnySize.

(** The result of [calculateRequiredDataSize]; its [dataSize] field is named
    after the variable that fills it. *)
Record RequiredDataSize : Type := mkRequired {
  actualDataSize : number;
  feasible : bool;
  estimatedGas : Z;
  estimatedEth : Z
}.

Definition calculateRequiredDataSize
    (targetFct baseFee mintRate : Z) (maxDataSize : option number)
  : result RequiredDataSize :=
  let maxSize := default (Fin 102400) maxDataSize in
  requiredCalldataGas ← bigint_div targetFct (baseFee * mintRate);
  perByte ← bigint_div requiredCalldataGas 40;
  let estimatedBytes := Number_of_bigint perByte in
  let dataSize := number_add estimatedBytes (Fin (inject_Z overheadBytes)) in
  let feasible := number_le dataSize maxSize in
  let actualDataSize := if feasible then dataSize else maxSize in
  result ← AnySize.calculateFctOutput
              {| AnySize.dataSize := actualDataSize;
                 AnySize.baseFee := baseFee;
                 AnySize.mintRate := mintRate;
                 AnySize.calldataGasOverride := None;
                 AnySize.gasPrice := None |};
  Ok {| actualDataSize := actualDataSize;
        feasible := feasible;
        estimatedGas := totalGas result;
        estimatedEth := ethBurned result |}.

Definition calculateFctFromActualGas (gasUsed baseFee mintRate : Z) : Z :=
  let calldataGas := gasUsed - baseExecutionGas in
  calldataGas * baseFee * mintRate.

Record Arbitrage : Type := mkArbitrage {
  profitable : bool;
  savingsPercent : number;
  savingsPerFct : Z
}.

Definition calculateArbitrage (miningCostPerFct dexPricePerFct : Z)
  : result Arbitrage :=
  let profitable := miningCostPerFct <? dexPricePerFct in
  let savingsPerFct :=
    if profitable then dexPricePerFct - miningCostPerFct else 0 in
  savingsPercent ←
    (if dexPricePerFct >? 0 then
       basisPoints ← bigint_div (savingsPerFct * 10000) dexPricePerFct;
       Ok (number_div (Number_of_bigint basisPoints) (Fin 100))
     else Ok (Fin 0));
  Ok {| profitable := profitable;
        savingsPercent := savingsPercent;
        savingsPerFct := savingsPerFct |}.

End FctCalculator.

Import FctCalculator.

(** ** mining-rules.ts (the same definitions are repeated, word for word, at
    the head of auto-miner.ts) *)

Module MiningRules.

Record RuntimeContext : Type := mkContext {
  currentGasPrice : Z;
  currentBaseFee : Z;
  currentMintRate : Z;
  dexSpotPrice : option Z;          (* bigint | null *)
  sessionSpent : Z;
  sessionMined : Z;
  timestampHours : Z;               (* what timestamp.getHours() returns *)
  ethPriceUsd : number
}.

(** A rule is an async predicate: it resolves to a boolean or rejects. *)
Definition Rule : Type := RuntimeContext -> result bool.

(** The enum has two members; the [default:] case of the switch in
    [getOptimalDataSize] is not reachable with a value of this type. *)
Inductive MiningStrategy : Type := AUTO | ARBITRAGE.

Record MiningConfig : Type := mkConfig {
  strategy : MiningStrategy;
  maxCostPerFct : option number;
  minEfficiency : option number;
  scheduleHours : option (list Z);
  dailyBudgetEth : option number;
  targetFctAmount : option number;
  checkIntervalMs : option Z;
  maxDataSizeKb : option Z
}.

(** Truthiness of a [bigint | null]: null and 0n are falsy. *)
Definition truthy_bigint (v : option Z) : bool :=
  match v with
  | Some x => negb (x =? 0)
  | None => false
  end.

Definition calculateCostPerFct (ctx : RuntimeContext) : result Z :=
  let dataSize := 50 * 1024 in
  calc ← calculateFctOutput
            {| dataSize := dataSize;
               baseFee := currentBaseFee ctx;
               mintRate := currentMintRate ctx;
               calldataGasOverride := None;
               gasPrice := Some (currentGasPrice ctx) |};
  Ok (costPerFct calc).

Definition calculateEfficiency (ctx : RuntimeContext) : result number :=
  let dataSize := 50 * 1024 in
  calc ← calculateFctOutput
            {| dataSize := dataSize;
               baseFee := currentBaseFee ctx;
               mintRate := currentMintRate ctx;
               calldataGasOverride := None;
               gasPrice := None |};
  Ok (efficiency calc).

Definition costRule (maxCostUsd : number) : Rule := fun ctx =>
  costPerFct ← calculateCostPerFct ctx;
  let costUsd := number_mul (Number_formatEther costPerFct) (ethPriceUsd ctx) in
  Ok (number_le costUsd maxCostUsd).

Definition efficiencyRule (minEfficiency : number) : Rule := fun ctx =>
  efficiency ← calculateEfficiency ctx;
  Ok (number_le minEfficiency efficiency).

Definition scheduleRule (hours : list Z) : Rule := fun ctx =>
  let currentHour := timestampHours ctx in
  let inSchedule := existsb (Z.eqb currentHour) hours in
  Ok inSchedule.

Definition budgetRule (maxEth : number) : Rule := fun ctx =>
  let spentEth := Number_formatEther (sessionSpent ctx) in
  let underBudget := number_lt spentEth maxEth in
  Ok underBudget.

Definition targetRule (targetFct : number) : Rule := fun ctx =>
  let minedFct := Number_formatEther (sessionMined ctx) in
  let needMore := number_lt minedFct targetFct in
  Ok needMore.

(** [isMainnet] comes from config.ts, which is not part of the sources at
    hand: the rule takes its value as a parameter. *)
Definition arbitrageRule (isMainnet : bool) : Rule := fun ctx =>
  if negb (truthy_bigint (dexSpotPrice ctx)) || negb isMainnet then Ok false
  else
    miningCost ← calculateCostPerFct ctx;
    match dexSpotPrice ctx with
    | Some spot =>
        let profitable := miningCost <? spot in
        if negb profitable then Ok false
        else
          (* the savings percentage is only logged *)
          _ ← bigint_div ((spot - miningCost) * 10000) spot;
          Ok true
    | None => Ok false
    end.

Definition buildRulesFromConfig (isMainnet : bool) (config : MiningConfig)
  : list Rule :=
  (match maxCostPerFct config with Some m => [costRule m] | None => [] end)
  ++ (match minEfficiency config with Some m => [efficiencyRule m] | None => [] end)
  ++ (match scheduleHours config with
      | Some hs => if (0 <? Z.of_nat (length hs)) then [scheduleRule hs] else []
      | None => []
      end)
  ++ (match dailyBudgetEth config with Some b => [budgetRule b] | None => [] end)
  ++ (match targetFctAmount config with Some t => [targetRule t] | None => [] end)
  ++ (match strategy config with
      | ARBITRAGE => [arbitrageRule isMainnet]
      | AUTO => []
      end).

(** [Promise.all]: the list of the values when every promise fulfils, a
    rejection otherwise (here the leftmost one; which rejection wins is a
    matter of timing in the source). *)
Fixpoint promise_all {A : Type} (ps : list (result A)) : result (list A) :=
  match ps with
  | [] => Ok []
  | p :: ps' =>
      a ← p;
      rest ← promise_all ps';
      Ok (a :: rest)
  end.

Definition evaluateRules (rules : list Rule) (ctx : RuntimeContext)
  : result bool :=
  if (Z.of_nat (length rules) =? 0) then Ok true
  else
    results ← promise_all (map (fun rule => rule ctx) rules);
    Ok (forallb (fun r => Bool.eqb r true) results).

(** The [while (low <= high)] loop of the size optimizer.  The first
    argument bounds the number of iterations; [high - low + 1] of them are
    always enough ([budget_search_unfold] below). *)
Fixpoint budget_search_loop (n : nat) (ctx : RuntimeContext)
    (remainingBudget low high optimal : Z) : result Z :=
  match n with
  | O => Ok optimal
  | S n' =>
      if low <=? high then
        let mid := (low + high) / 2 in
        calc ← calculateFctOutput
                  {| dataSize := mid;
                     baseFee := currentBaseFee ctx;
                     mintRate := currentMintRate ctx;
                     calldataGasOverride := None;
                     gasPrice := Some (currentGasPrice ctx) |};
        if ethBurned calc <=? remainingBudget
        then budget_search_loop n' ctx remainingBudget (mid + 1) high mid
        else budget_search_loop n' ctx remainingBudget low (mid - 1) optimal
      else Ok optimal
  end.

Definition budget_search (ctx : RuntimeContext)
    (remainingBudget low high optimal : Z) : result Z :=
  budget_search_loop (Z.to_nat (high - low + 1)) ctx
    remainingBudget low high optimal.

Definition getOptimalDataSize (strategy : MiningStrategy)
    (ctx : RuntimeContext) (maxKb : Z) (remainingBudget : option Z)
  : result Z :=
  let KB := 1024 in
  let maxSize := maxKb * KB in
  (* [Some size] when the budget branch returns, [None] when control falls
     through to the strategy switch *)
  early ←
    match remainingBudget with
    | Some budget =>
        if truthy_bigint (Some budget) && (budget >? 0) then
          testCalc ← calculateFctOutput
                        {| dataSize := maxSize;
                           baseFee := currentBaseFee ctx;
                           mintRate := currentMintRate ctx;
                           calldataGasOverride := None;
                           gasPrice := Some (currentGasPrice ctx) |};
          if ethBurned testCalc >? budget then
            let low := 1 * KB in
            let high := maxSize in
            let optimal := low in
            optimal ← budget_search ctx budget low high optimal;
            Ok (Some optimal)
          else Ok None
        else Ok None
    | None => Ok None
    end;
  match early with
  | Some size => Ok size
  | None =>
      match strategy with
      | AUTO => Ok maxSize
      | ARBITRAGE =>
          if negb (truthy_bigint (dexSpotPrice ctx)) then Ok 0
          else
            miningCost ← calculateCostPerFct ctx;
            match dexSpotPrice ctx with
            | Some spot => Ok (if miningCost <? spot then maxSize else 0)
            | None => Ok 0
            end
      end
  end.

(** [collectRuntimeContext].  [getSwapQuote] (facet-swapper.ts, not part of
    the sources at hand) is called on mainnet only; its outcome is given: a
    rejection, no quote, or the spot price of the quote.  [timestampHours]
    stands for [new Date()]. *)
Definition collectRuntimeContext (isMainnet : bool)
    (getSwapQuote : result (option Z))
    (sessionSpent sessionMined : Z)
    (currentGasPrice currentBaseFee currentMintRate : Z)
    (ethPriceUsd : number) (timestampHours : Z) : result RuntimeContext :=
  dexSpotPrice ←
    (if isMainnet then
       quote ← getSwapQuote;
       Ok (match quote with Some spotPrice => Some spotPrice | None => None end)
     else Ok None);
  Ok {| currentGasPrice := currentGasPrice;
        currentBaseFee := currentBaseFee;
        currentMintRate := currentMintRate;
        dexSpotPrice := dexSpotPrice;
        sessionSpent := sessionSpent;
        sessionMined := sessionMined;
        timestampHours := timestampHours;
        ethPriceUsd := ethPriceUsd |}.

End MiningRules.

Import MiningRules.

(** ** mining-engine.ts: the retry loop *)

Module MiningEngine.

Record MiningConfig : Type := mkConfig {
  dataSize : Z;
  gasMultiplier : option number;
  maxRetries : option Z;
  escalateGas : option bool
}.

Record MiningResult : Type := mkResult {
  l1Hash : string;
  facetHash : string;
  ethBurned : Z;
  fctMinted : Z;
  efficiency : number;
  costPerFct : Z;
  gasUsed : Z;
  effectiveGasPrice : Z;
  baseFeePerGas : Z
}.

(** What [getNetworkConditions] returns; [timestampHours] stands for the
    [Date] of the block, of which the rules read the hour. *)
Record NetworkConditions : Type := mkConditions {
  baseFee : Z;
  gasPrice : Z;
  mintRate : Z;
  blockNumber : Z;
  timestampHours : Z
}.

(** What an execution of [mine] does, in order. *)
Inductive Event : Type :=
  | AttemptMining (attempt : Z)
  | Sleep (ms : Z).

Section Mine.

(** One submission attempt talks to the network: its outcome is given by the
    environment, attempt by attempt. *)
Variable attemptMining : MiningConfig -> Z -> result MiningResult.

(** The [for (attempt = 0; attempt < maxRetries; attempt++)] loop followed by
    the final [throw].  The first argument bounds the number of iterations. *)
Fixpoint mine_loop (n : nat) (config : MiningConfig) (maxRetries attempt : Z)
    (lastError : option JsError) : list Event * result MiningResult :=
  let exhausted := ([], Throw (default (Error "Mining failed") lastError)) in
  match n with
  | O => exhausted
  | S n' =>
      if attempt <? maxRetries then
        match attemptMining config attempt with
        | Ok r => ([AttemptMining attempt], Ok r)
        | Throw error =>
            let lastError := Some error in
            if attempt <? maxRetries - 1 then
              let delay := Z.min (1000 * 2 ^ attempt) 30000 in
              let '(events, r) :=
                mine_loop n' config maxRetries (attempt + 1) lastError in
              (AttemptMining attempt :: Sleep delay :: events, r)
            else
              let '(events, r) :=
                mine_loop n' config maxRetries (attempt + 1) lastError in
              (AttemptMining attempt :: events, r)
        end
      else exhausted
  end.

Definition mine (config : MiningConfig) : list Event * result MiningResult :=
  let maxRetries := default 3 (maxRetries config) in
  mine_loop (Z.to_nat maxRetries) config maxRetries 0 None.

End Mine.

(** [new TextEncoder().encode("FACETMINE")] *)
Definition pattern : list Byte.byte := String.list_byte_of_string "FACETMINE".

(** A [Uint8Array] of [size] bytes in which byte [i] is
    [pattern[i % pattern.length]]. *)
Definition fill_pattern (size : nat) : list Byte.byte :=
  map (fun i => nth (i mod length pattern) pattern Byte.x00) (seq 0 size).

(** [new Uint8Array(length)], as the number of bytes allocated: a RangeError
    on a negative length and on a length that the engine does not allocate.
    [maxByteLength] is the largest length it allocates (2^53 - 1 at most, by
    the language; less in every engine). *)
Definition new_Uint8Array (maxByteLength length : Z) : result nat :=
  if (length <? 0) || (maxByteLength <? length)
  then Throw (RangeError "Invalid typed array length")
  else Ok (Z.to_nat length).

(** [MiningEngine.buildMineBoost] *)
Definition buildMineBoost (maxByteLength dataSize : Z)
  : result (list Byte.byte) :=
  let overheadBytes := 160 in
  let size := Z.max (dataSize - overheadBytes) 0 in
  buffer ← new_Uint8Array maxByteLength size;
  Ok (fill_pattern buffer).

(** [createMineBoostData] of the command line miner. *)
Definition createMineBoostData (maxByteLength sizeInBytes : Z)
  : result (list Byte.byte) :=
  data ← new_Uint8Array maxByteLength sizeInBytes;
  Ok (fill_pattern data).

(** [calculateDataGas]: the loop over the bytes, with its two counters. *)
Fixpoint countBytes (data : list Byte.byte) (zeroBytes nonZeroBytes : Z)
  : Z * Z :=
  match data with
  | [] => (zeroBytes, nonZeroBytes)
  | byte :: data' =>
      if Byte.eqb byte Byte.x00
      then countBytes data' (zeroBytes + 1) nonZeroBytes
      else countBytes data' zeroBytes (nonZeroBytes + 1)
  end.

Definition calculateDataGas (data : list Byte.byte) : Z :=
  let '(zeroBytes, nonZeroBytes) := countBytes data 0 0 in
  zeroBytes * 10 + nonZeroBytes * 40.

End MiningEngine.

(** ** mining-database-json.ts *)

Module MiningDatabase.

Record SessionRow : Type := mkSession {
  id : Z;
  startedAt : Z;
  endedAt : option Z;
  totalEthSpentWei : string;
  totalEthSpentEth : number;
  totalFctMinedWei : string;
  totalFctMinedFct : number;
  strategy : string;
  status : string
}.

Record TransactionRecord : Type := mkTransaction {
  tx_id : Z;
  sessionId : Z;
  l1Hash : string;
  facetHash : string;
  ethBurnedWei : string;
  ethBurnedEth : number;
  fctMintedWei : string;
  fctMintedFct : number;
  efficiency : number;
  costPerFct : string;
  gasUsed : string;
  effectiveGasPrice : string;
  baseFeePerGas : string;
  timestamp : Z
}.

(** The content of mining.json.  [save] writes the whole value to the file
    after every change, so the value is the store. *)
Record DatabaseData : Type := mkData {
  sessions : list SessionRow;
  transactions : list TransactionRecord;
  runtimeState : gmap string (string * Z);   (* key -> value, updatedAt *)
  nextSessionId : Z;
  nextTransactionId : Z
}.

Definition initializeEmpty : DatabaseData :=
  {| sessions := [];
     transactions := [];
     runtimeState := ∅;
     nextSessionId := 1;
     nextTransactionId := 1 |}.

(** [now] is the value of [Date.now()]. *)
Definition createSession (strategy : string) (now : Z) (data : DatabaseData)
  : Z * DatabaseData :=
  let sessionId := nextSessionId data in
  (sessionId,
   {| sessions := sessions data ++
        [ {| id := sessionId;
             startedAt := now;
             endedAt := None;
             totalEthSpentWei := "0";
             totalEthSpentEth := Fin 0;
             totalFctMinedWei := "0";
             totalFctMinedFct := Fin 0;
             strategy := strategy;
             status := "active" |} ];
      transactions := transactions data;
      runtimeState := runtimeState data;
      nextSessionId := nextSessionId data + 1;
      nextTransactionId := nextTransactionId data |}).

(** Apply [f] to the first element that satisfies [p] (the object that
    [Array.prototype.find] returns is mutated in place). *)
Fixpoint update_first {A : Type} (p : A -> bool) (f : A -> A) (l : list A)
  : list A :=
  match l with
  | [] => []
  | x :: l' => if p x then f x :: l' else x :: update_first p f l'
  end.

Definition endSession (sessionId : Z) (now : Z) (data : DatabaseData)
  : DatabaseData :=
  {| sessions :=
       update_first (fun s => id s =? sessionId)
         (fun s => {| id := id s;
                      startedAt := startedAt s;
                      endedAt := Some now;
                      totalEthSpentWei := totalEthSpentWei s;
                      totalEthSpentEth := totalEthSpentEth s;
                      totalFctMinedWei := totalFctMinedWei s;
                      totalFctMinedFct := totalFctMinedFct s;
                      strategy := strategy s;
                      status := "completed" |})
         (sessions data);
     transactions := transactions data;
     runtimeState := runtimeState data;
     nextSessionId := nextSessionId data;
     nextTransactionId := nextTransactionId data |}.

(** [txs.reduce((sum, tx) => sum + BigInt(field(tx)), 0n)] *)
Fixpoint sum_bigint (field : TransactionRecord -> string)
    (txs : list TransactionRecord) (sum : Z) : result Z :=
  match txs with
  | [] => Ok sum
  | tx :: txs' =>
      v ← BigInt_of_string (field tx);
      sum_bigint field txs' (sum + v)
  end.

(** [txs.reduce((sum, tx) => sum + field(tx), 0)] *)
Definition sum_number (field : TransactionRecord -> number)
    (txs : list TransactionRecord) : number :=
  fold_left (fun sum tx => number_add sum (field tx)) txs (Fin 0).

Definition updateSessionTotals (sessionId0 : Z) (data : DatabaseData)
  : result DatabaseData :=
  if existsb (fun s => id s =? sessionId0) (sessions data) then
    let sessionTxs :=
      filter (fun tx => sessionId tx = sessionId0) (transactions data) in
    ethTotal ← sum_bigint ethBurnedWei sessionTxs 0;
    fctTotal ← sum_bigint fctMintedWei sessionTxs 0;
    let ethTotalEth := sum_number ethBurnedEth sessionTxs in
    let fctTotalFct := sum_number fctMintedFct sessionTxs in
    Ok {| sessions :=
            update_first (fun s => id s =? sessionId0)
              (fun s => {| id := id s;
                           startedAt := startedAt s;
                           endedAt := endedAt s;
                           totalEthSpentWei := toString ethTotal;
                           totalEthSpentEth := ethTotalEth;
                           totalFctMinedWei := toString fctTotal;
                           totalFctMinedFct := fctTotalFct;
                           strategy := strategy s;
                           status := status s |})
              (sessions data);
          transactions := transactions data;
          runtimeState := runtimeState data;
          nextSessionId := nextSessionId data;
          nextTransactionId := nextTransactionId data |}
  else Ok data.

Definition saveTransaction (tx : MiningEngine.MiningResult) (sessionId0 : Z)
    (now : Z) (data : DatabaseData) : result DatabaseData :=
  let ethEth :=
    number_div (Number_of_bigint (MiningEngine.ethBurned tx))
      (Fin (inject_Z (10 ^ 18))) in
  let fctFct :=
    number_div (Number_of_bigint (MiningEngine.fctMinted tx))
      (Fin (inject_Z (10 ^ 18))) in
  let transaction :=
    {| tx_id := nextTransactionId data;
       sessionId := sessionId0;
       l1Hash := MiningEngine.l1Hash tx;
       facetHash := MiningEngine.facetHash tx;
       ethBurnedWei := toString (MiningEngine.ethBurned tx);
       ethBurnedEth := ethEth;
       fctMintedWei := toString (MiningEngine.fctMinted tx);
       fctMintedFct := fctFct;
       efficiency := MiningEngine.efficiency tx;
       costPerFct := toString (MiningEngine.costPerFct tx);
       gasUsed := toString (MiningEngine.gasUsed tx);
       effectiveGasPrice := toString (MiningEngine.effectiveGasPrice tx);
       baseFeePerGas := toString (MiningEngine.baseFeePerGas tx);
       timestamp := now |} in
  updateSessionTotals sessionId0
    {| sessions := sessions data;
       transactions := transactions data ++ [transaction];
       runtimeState := runtimeState data;
       nextSessionId := nextSessionId data;
       nextTransactionId := nextTransactionId data + 1 |}.

Definition saveRuntimeState (key value : string) (now : Z)
    (data : DatabaseData) : DatabaseData :=
  {| sessions := sessions data;
     transactions := transactions data;
     runtimeState := <[ key := (value, now) ]> (runtimeState data);
     nextSessionId := nextSessionId data;
     nextTransactionId := nextTransactionId data |}.

Definition getRuntimeState (key : string) (data : DatabaseData)
  : option string :=
  match runtimeState data !! key with
  | Some state => Some (fst state)
  | None => None
  end.

Module Stats.
Record SessionStats : Type := mkStats {
  sessionId : Z;
  txCount : Z;
  totalEthWei : string;
  totalFctWei : string;
  totalEthEth : number;
  totalFctFct : number;
  avgEfficiency : number;
  avgCostPerFct : number;
  startedAt : Z;
  endedAt : option Z
}.
End Stats.

(** [null] when no session has the identifier. *)
Definition getSessionStats (sessionId0 : Z) (data : DatabaseData)
  : option Stats.SessionStats :=
  match List.find (fun s => id s =? sessionId0) (sessions data) with
  | None => None
  | Some session =>
      let sessionTxs :=
        filter (fun tx => sessionId tx = sessionId0) (transactions data) in
      let count := Z.of_nat (length sessionTxs) in
      let avgEfficiency :=
        if 0 <? count
        then number_div (sum_number efficiency sessionTxs)
               (Fin (inject_Z count))
        else Fin 0 in
      let avgCostPerFct :=
        if number_lt (Fin 0) (totalFctMinedFct session)
        then number_div (totalEthSpentEth session) (totalFctMinedFct session)
        else Fin 0 in
      Some {| Stats.sessionId := id session;
              Stats.txCount := count;
              Stats.totalEthWei := totalEthSpentWei session;
              Stats.totalFctWei := totalFctMinedWei session;
              Stats.totalEthEth := totalEthSpentEth session;
              Stats.totalFctFct := totalFctMinedFct session;
              Stats.avgEfficiency := avgEfficiency;
              Stats.avgCostPerFct := avgCostPerFct;
              Stats.startedAt := startedAt session;
              Stats.endedAt :=
                match endedAt session with
                | Some t => if t =? 0 then None else Some t
                | None => None
                end |}
  end.

(** [transactions.slice(-limit).reverse()], with the default limit of 10. *)
Definition getRecentTransactions (limit : option Z) (data : DatabaseData)
  : list TransactionRecord :=
  rev (slice_from (- default 10 limit) (transactions data)).

(** [Array.prototype.sort] with the comparator
    [(a, b) => b.timestamp - a.timestamp]: a stable sort, newest first. *)
Fixpoint insert_by_timestamp (tx : TransactionRecord)
    (sorted : list TransactionRecord) : list TransactionRecord :=
  match sorted with
  | [] => [tx]
  | y :: sorted' =>
      if timestamp y <? timestamp tx then tx :: y :: sorted'
      else y :: insert_by_timestamp tx sorted'
  end.

Definition sort_newest_first (txs : list TransactionRecord)
  : list TransactionRecord :=
  fold_left (fun sorted tx => insert_by_timestamp tx sorted) txs [].

Record AnalysisOptions : Type := mkOptions {
  opt_sessionId : option Z;
  opt_days : option Z
}.

(** [getTransactionsForAnalysis].  A filter builds a new array; without a
    filter the array that is sorted in place is the stored one, so the store
    changes too. *)
Definition getTransactionsForAnalysis (opts : option AnalysisOptions)
    (now : Z) (data : DatabaseData)
  : list TransactionRecord * DatabaseData :=
  let bySession :=
    match opts with
    | Some o => match opt_sessionId o with
                | Some sid => if sid =? 0 then None else Some sid
                | None => None
                end
    | None => None
    end in
  let byDays :=
    match opts with
    | Some o => match opt_days o with
                | Some days => if days =? 0 then None else Some days
                | None => None
                end
    | None => None
    end in
  match bySession, byDays with
  | Some sid, _ =>
      (sort_newest_first
         (filter (fun tx => sessionId tx = sid) (transactions data)),
       data)
  | None, Some days =>
      let cutoff := now - days * 86400000 in
      (sort_newest_first
         (filter (fun tx => cutoff < timestamp tx) (transactions data)),
       data)
  | None, None =>
      let sorted := sort_newest_first (transactions data) in
      (sorted,
       {| sessions := sessions data;
          transactions := sorted;
          runtimeState := runtimeState data;
          nextSessionId := nextSessionId data;
          nextTransactionId := nextTransactionId data |})
  end.

End MiningDatabase.

(** ** auto-miner.ts: the session counters of the control loop *)

Module AutoMiner.

Record AutoMiner : Type := mkMiner {
  config : MiningConfig;
  running : bool;
  sessionId : Z;
  sessionSpent : Z;
  sessionMined : Z;
  db : MiningDatabase.DatabaseData
}.

Definition strategy_string (s : MiningStrategy) : string :=
  match s with
  | AUTO => "auto"
  | ARBITRAGE => "arbitrage"
  end.

(** The field initialisers of the class: a fresh object counts from zero. *)
Definition constructor (db : MiningDatabase.DatabaseData)
    (config : MiningConfig) : AutoMiner :=
  {| config := config;
     running := false;
     sessionId := 0;
     sessionSpent := 0;
     sessionMined := 0;
     db := db |}.

Definition spentKey (sessionId : Z) : string :=
  "session_" +:+ toString sessionId +:+ "_spent".
Definition minedKey (sessionId : Z) : string :=
  "session_" +:+ toString sessionId +:+ "_mined".

(** [start], up to the point where it enters the loop. *)
Definition start (now : Z) (this : AutoMiner) : result AutoMiner :=
  let '(sessionId, db) :=
    MiningDatabase.createSession
      (strategy_string (strategy (config this))) now (db this) in
  let savedSpent := MiningDatabase.getRuntimeState (spentKey sessionId) db in
  let savedMined := MiningDatabase.getRuntimeState (minedKey sessionId) db in
  sessionSpent ←
    (if truthy_string savedSpent
     then BigInt_of_string (default "" savedSpent)
     else Ok (sessionSpent this));
  sessionMined ←
    (if truthy_string savedMined
     then BigInt_of_string (default "" savedMined)
     else Ok (sessionMined this));
  Ok {| config := config this;
        running := true;
        sessionId := sessionId;
        sessionSpent := sessionSpent;
        sessionMined := sessionMined;
        db := db |}.

(** What [miningCycle] does with the result of a successful [mine]: update the
    counters, save the transaction, save the recovery state. *)
Definition recordResult (result : MiningEngine.MiningResult) (now : Z)
    (this : AutoMiner) : Js.result AutoMiner :=
  let sessionSpent := sessionSpent this + MiningEngine.ethBurned result in
  let sessionMined := sessionMined this + MiningEngine.fctMinted result in
  db ← MiningDatabase.saveTransaction result (sessionId this) now (db this);
  let db :=
    MiningDatabase.saveRuntimeState (spentKey (sessionId this))
      (toString sessionSpent) now db in
  let db :=
    MiningDatabase.saveRuntimeState (minedKey (sessionId this))
      (toString sessionMined) now db in
  Ok {| config := config this;
        running := running this;
        sessionId := sessionId this;
        sessionSpent := sessionSpent;
        sessionMined := sessionMined;
        db := db |}.

(** [setupRules], called by the constructor: the same list as
    [buildRulesFromConfig]. *)
Definition setupRules (isMainnet : bool) (config : MiningConfig) : list Rule :=
  buildRulesFromConfig isMainnet config.

(** What one cycle is given from outside: the answers of the network
    ([engine.getNetworkConditions], which may reject), of the price feed
    ([getEthPriceUsd], which falls back to 3500 and never rejects), of
    config.ts ([isMainnet]) and of the exchange ([getSwapQuote]: a rejection,
    no quote, or the spot price of the quote), the outcome of every
    submission attempt, and the clock. *)
Record Environment : Type := mkEnvironment {
  getNetworkConditions : result MiningEngine.NetworkConditions;
  getEthPriceUsd : number;
  isMainnet : bool;
  getSwapQuote : result (option Z);
  attemptMining :
    MiningEngine.MiningConfig -> Z -> result MiningEngine.MiningResult;
  now : Z
}.

Definition collectContext (env : Environment) (this : AutoMiner)
  : result RuntimeContext :=
  conditions ← getNetworkConditions env;
  let ethPriceUsd := getEthPriceUsd env in
  dexSpotPrice ←
    (if isMainnet env then
       quote ← getSwapQuote env;
       Ok (match quote with Some spotPrice => Some spotPrice | None => None end)
     else Ok None);
  Ok {| currentGasPrice := MiningEngine.gasPrice conditions;
        currentBaseFee := MiningEngine.baseFee conditions;
        currentMintRate := MiningEngine.mintRate conditions;
        dexSpotPrice := dexSpotPrice;
        MiningRules.sessionSpent := sessionSpent this;
        MiningRules.sessionMined := sessionMined this;
        timestampHours := MiningEngine.timestampHours conditions;
        ethPriceUsd := ethPriceUsd |}.

(** [stop]: nothing when the miner is not running; otherwise the session is
    ended in the store (the statistics that follow are only printed) and
    [process.exit(0)] ends the process, which the flag tells. *)
Definition stop (now : Z) (this : AutoMiner) : AutoMiner * bool :=
  if negb (running this) then (this, false)
  else
    ({| config := config this;
        running := false;
        sessionId := sessionId this;
        sessionSpent := sessionSpent this;
        sessionMined := sessionMined this;
        db := if sessionId this =? 0 then db this
              else MiningDatabase.endSession (sessionId this) now (db this) |},
     true).

(** The remaining budget of a cycle:
    [BigInt(Math.floor(dailyBudgetEth * 1e18)) - sessionSpent] when a budget
    is configured and is not 0 or NaN. *)
Definition remainingBudget (this : AutoMiner) : result (option Z) :=
  match dailyBudgetEth (config this) with
  | Some budget =>
      if truthy_number budget then
        budgetWei ←
          BigInt_of_number
            (Math_floor (number_mul budget (Fin (inject_Z (10 ^ 18)))));
        Ok (Some (budgetWei - sessionSpent this))
      else Ok None
  | None => Ok None
  end.

(** [config.maxDataSizeKb || 100] *)
Definition maxDataSizeKb_or_default (config : MiningConfig) : Z :=
  match maxDataSizeKb config with
  | Some kb => if kb =? 0 then 100 else kb
  | None => 100
  end.

(** [dailyBudgetEth && Number(formatEther(sessionSpent)) >= dailyBudgetEth]
    and the same test on the target. *)
Definition reached (limit : option number) (total : Z) : bool :=
  match limit with
  | Some l => truthy_number l && number_le l (Number_formatEther total)
  | None => false
  end.

(** One [miningCycle]: the events of the engine, and either an exception or
    the miner after the cycle together with a flag that tells whether the
    cycle ended the process.  (What a cycle that throws leaves behind is not
    part of the result.) *)
Definition miningCycle (env : Environment) (this : AutoMiner)
  : list MiningEngine.Event * result (AutoMiner * bool) :=
  let decision :=
    ctx ← collectContext env this;
    shouldMine ← evaluateRules (setupRules (isMainnet env) (config this)) ctx;
    if negb shouldMine then Ok None
    else
      budget ← remainingBudget this;
      dataSize ← getOptimalDataSize (strategy (config this)) ctx
                    (maxDataSizeKb_or_default (config this)) budget;
      (* Guard against zero-byte transactions *)
      if dataSize =? 0 then Ok None else Ok (Some dataSize) in
  match decision with
  | Throw e => ([], Throw e)
  | Ok None => ([], Ok (this, false))
  | Ok (Some dataSize) =>
      let '(events, mined) :=
        MiningEngine.mine (attemptMining env)
          {| MiningEngine.dataSize := dataSize;
             MiningEngine.gasMultiplier := Some (Fin (3 # 2));
             MiningEngine.maxRetries := Some 3;
             MiningEngine.escalateGas := Some true |} in
      (events,
       result ← mined;
       this ← recordResult result (now env) this;
       (* Check if targets reached *)
       let '(this, exited) :=
         if reached (dailyBudgetEth (config this)) (sessionSpent this)
         then stop (now env) this else (this, false) in
       if exited then Ok (this, true)
       else if reached (targetFctAmount (config this)) (sessionMined this)
       then Ok (stop (now env) this)
       else Ok (this, false))
  end.

End AutoMiner.

(** ** Vocabulary of the statements *)

(** The projected cost of a transaction of [size] bytes at the gas price of
    the context: what [calculateFctOutput] returns as [ethBurned] when it is
    given that gas price. *)
Definition projectedCost (ctx : RuntimeContext) (size : Z) : Z :=
  (Z.max (size - 160) 0 * 40 + 21000) * currentGasPrice ctx.

(** The budget branch of the size optimizer is taken: a remaining budget is
    supplied, it is positive, and the cost at the maximal size exceeds it. *)
Definition budgetBinds (ctx : RuntimeContext) (maxKb : Z)
    (remainingBudget : option Z) : bool :=
  match remainingBudget with
  | Some budget =>
      (0 <? budget) && (budget <? projectedCost ctx (maxKb * 1024))
  | None => false
  end.

Definition isAttempt (e : MiningEngine.Event) : bool :=
  match e with
  | MiningEngine.AttemptMining _ => true
  | MiningEngine.Sleep _ => false
  end.

(** No recovery state is stored under the identifier of a session that does
    not exist yet. *)
Definition recoveryStateFresh (data : MiningDatabase.DatabaseData) : Prop :=
  forall n : Z,
    MiningDatabase.nextSessionId data <= n ->
    MiningDatabase.getRuntimeState (AutoMiner.spentKey n) data = None /\
    MiningDatabase.getRuntimeState (AutoMiner.minedKey n) data = None.

Definition minerInv (this : AutoMiner.AutoMiner) : Prop :=
  AutoMiner.sessionId this < MiningDatabase.nextSessionId (AutoMiner.db this) /\
  recoveryStateFresh (AutoMiner.db this).

(** The states of the control loop over the lifetime of one store: a first
    process starts on the empty store; a running process records the results
    of its cycles; after a crash or a stop, a new process starts on the store
    that the previous one left. *)
Inductive reachable : AutoMiner.AutoMiner -> Prop :=
  | reach_first (config : MiningConfig) (now : Z) (m : AutoMiner.AutoMiner) :
      AutoMiner.start now
        (AutoMiner.constructor MiningDatabase.initializeEmpty config) = Ok m ->
      reachable m
  | reach_record (m m' : AutoMiner.AutoMiner)
        (r : MiningEngine.MiningResult) (now : Z) :
      reachable m ->
      AutoMiner.recordResult r now m = Ok m' ->
      reachable m'
  | reach_restart (m m' : AutoMiner.AutoMiner) (config : MiningConfig)
        (now : Z) :
      reachable m ->
      AutoMiner.start now (AutoMiner.constructor (AutoMiner.db m) config)
      = Ok m' ->
      reachable m'.






(** A string that [toString] writes for some bigint. *)
Definition decimal (s : string) : Prop := exists z : Z, s = toString z.

(** The bigint that a stored string stands for (0 when it is not one). *)
Definition weiOf (s : string) : Z :=
  match BigInt_of_string s with
  | Ok z => z
  | Throw _ => 0
  end.

(** The sum of a wei field over the transactions of a session. *)
Definition sessionTotal (field : MiningDatabase.TransactionRecord -> string)
    (sessionId : Z) (data : MiningDatabase.DatabaseData) : Z :=
  fold_right (fun tx sum => weiOf (field tx) + sum) 0
    (filter (fun tx => MiningDatabase.sessionId tx = sessionId)
       (MiningDatabase.transactions data)).

(** The store is well formed: the identifiers of the sessions and of the
    transactions are distinct and below the next identifier to hand out, and
    the wei fields of the transactions are decimal strings. *)
Definition dbInv (data : MiningDatabase.DatabaseData) : Prop :=
  Forall (fun s => MiningDatabase.id s < MiningDatabase.nextSessionId data)
    (MiningDatabase.sessions data) /\
  NoDup (map MiningDatabase.id (MiningDatabase.sessions data)) /\
  Forall (fun tx =>
            MiningDatabase.tx_id tx < MiningDatabase.nextTransactionId data /\
            decimal (MiningDatabase.ethBurnedWei tx) /\
            decimal (MiningDatabase.fctMintedWei tx))
    (MiningDatabase.transactions data) /\
  NoDup (map MiningDatabase.tx_id (MiningDatabase.transactions data)).

(** A session marked as completed at [now]. *)
Definition completed (now : Z) (s : MiningDatabase.SessionRow)
  : MiningDatabase.SessionRow :=
  {| MiningDatabase.id := MiningDatabase.id s;
     MiningDatabase.startedAt := MiningDatabase.startedAt s;
     MiningDatabase.endedAt := Some now;
     MiningDatabase.totalEthSpentWei := MiningDatabase.totalEthSpentWei s;
     MiningDatabase.totalEthSpentEth := MiningDatabase.totalEthSpentEth s;
     MiningDatabase.totalFctMinedWei := MiningDatabase.totalFctMinedWei s;
     MiningDatabase.totalFctMinedFct := MiningDatabase.totalFctMinedFct s;
     MiningDatabase.strategy := MiningDatabase.strategy s;
     MiningDatabase.status := "completed" |}.

(** The session of an identifier, as every reader of the store finds it. *)
Definition findSession (sessionId : Z) (data : MiningDatabase.DatabaseData)
  : option MiningDatabase.SessionRow :=
  List.find (fun s => MiningDatabase.id s =? sessionId)
    (MiningDatabase.sessions data).

(** Newest first. *)
Definition newerFirst (a b : MiningDatabase.TransactionRecord) : Prop :=
  MiningDatabase.timestamp b <= MiningDatabase.timestamp a.


(** ** Rounding to binary64 *)

Section Binary64.

Local Open Scope Q_scope.

Lemma pow2_pos (e : Z) : 0 < 2 ^ e.
Proof. apply Qpower_0_lt. reflexivity. Qed.

Lemma pow2_add (a b : Z) : 2 ^ (a + b) == 2 ^ a * 2 ^ b.
Proof. apply Qpower_plus. discriminate. Qed.

Lemma pow2_le (a b : Z) : (a <= b)%Z -> 2 ^ a <= 2 ^ b.
Proof. intros H. apply Qpower_le_compat_l; [exact H | discriminate]. Qed.

Lemma pow2_inject (a : Z) : (0 <= a)%Z -> inject_Z (2 ^ a) == 2 ^ a.
Proof. intros H. rewrite Zpower_Qpower by exact H. reflexivity. Qed.

(** [ilog2] does not overshoot. *)
Lemma ilog2_lower (x : Q) : 0 < x -> 2 ^ ilog2 x <= x.
Proof.
  intros Hx. unfold ilog2.
  set (a := Z.log2 (Qnum x)). set (b := Z.log2 (Z.pos (Qden x))).
  destruct (Qle_bool (2 ^ (a - b)) x) eqn:Hle.
  - apply Qle_bool_iff. exact Hle.
  - assert (Hn : (0 < Qnum x)%Z).
    { destruct x as [n d]. unfold Qlt in Hx. cbn in *. lia. }
    destruct (Z.log2_spec (Qnum x) Hn) as [Ha _]. fold a in Ha.
    destruct (Z.log2_spec (Z.pos (Qden x)) eq_refl) as [_ Hb]. fold b in Hb.
    assert (Ha0 : (0 <= a)%Z) by apply Z.log2_nonneg.
    assert (Hb0 : (0 <= b)%Z) by apply Z.log2_nonneg.
    (* 2^(a-b-1) * den <= 2^(a-b-1) * 2^(b+1) = 2^a <= num *)
    assert (Hden : inject_Z (Z.pos (Qden x)) <= 2 ^ (b + 1)).
    { rewrite <- pow2_inject by lia. rewrite <- Zle_Qle.
      change (Z.succ b) with (b + 1)%Z in Hb. lia. }
    assert (Hnum : 2 ^ a <= inject_Z (Qnum x)).
    { rewrite <- pow2_inject by lia. rewrite <- Zle_Qle. exact Ha. }
    assert (Hx' : x * inject_Z (Z.pos (Qden x)) == inject_Z (Qnum x)).
    { destruct x as [n d]. unfold Qeq, inject_Z. cbn. lia. }
    assert (Hsplit : 2 ^ a == 2 ^ (a - b - 1) * 2 ^ (b + 1)).
    { rewrite <- pow2_add. replace (a - b - 1 + (b + 1))%Z with a by lia.
      reflexivity. }
    assert (Hdpos : 0 < inject_Z (Z.pos (Qden x))) by reflexivity.
    apply (Qmult_le_r _ _ _ Hdpos). rewrite Hx'.
    apply Qle_trans with (2 ^ (a - b - 1) * 2 ^ (b + 1)).
    + apply Qmult_le_l; [apply pow2_pos | exact Hden].
    + rewrite <- Hsplit. exact Hnum.
Qed.

Lemma ulp_exp_cases (x : Q) :
  0 < x ->
  (-1074 <= ulp_exp x)%Z /\
  (ulp_exp x = (-1074)%Z \/ 2 ^ 52 * 2 ^ ulp_exp x <= x).
Proof.
  intros Hx. unfold ulp_exp. split; [lia |].
  destruct (Z.max_spec (ilog2 x - 52) (-1074)) as [[_ ->] | [_ ->]].
  - left. reflexivity.
  - right. rewrite <- pow2_add.
    replace (52 + (ilog2 x - 52))%Z with (ilog2 x) by lia.
    apply ilog2_lower. exact Hx.
Qed.

Lemma rne_bounds (y : Q) : (Qfloor y <= rne y <= Qfloor y + 1)%Z.
Proof.
  unfold rne. destruct (y - inject_Z (Qfloor y) ?= 1 # 2); [| lia | lia].
  destruct (Z.even (Qfloor y)); lia.
Qed.

Lemma rne_ge_integer (y : Q) (n : Z) : inject_Z n <= y -> (n <= rne y)%Z.
Proof.
  intros H. apply Qfloor_resp_le in H. rewrite Qfloor_Z in H.
  pose proof (rne_bounds y). lia.
Qed.

Lemma rne_le_integer (y : Q) (n : Z) : y <= inject_Z n -> (rne y <= n)%Z.
Proof.
  intros H. pose proof (rne_bounds y) as Hb.
  pose proof (Qfloor_resp_le _ _ H) as Hf. rewrite Qfloor_Z in Hf.
  destruct (Z.eq_dec (Qfloor y) n) as [Heq | Hne]; [| lia].
  (* the floor is n and y <= n: y is the integer n *)
  assert (Hy : y == inject_Z n).
  { apply Qle_antisym; [exact H |]. rewrite <- Heq. apply Qfloor_le. }
  unfold rne. rewrite Heq.
  destruct (Qcompare_spec (y - inject_Z n) (1 # 2)) as [Hc | Hc | Hc];
    [rewrite Hy in Hc; lra | lia | rewrite Hy in Hc; lra].
Qed.

(** A double whose exponent is at least [e] is a multiple of 2^e. *)
Lemma double_scaled (k j e : Z) :
  (e <= j)%Z -> inject_Z k * 2 ^ j == inject_Z (k * 2 ^ (j - e)) * 2 ^ e.
Proof.
  intros H. rewrite inject_Z_mult, pow2_inject by lia.
  rewrite <- Qmult_assoc, <- pow2_add.
  replace (j - e + e)%Z with j by lia. reflexivity.
Qed.

(** A double whose exponent is below [e] is below 2^52 * 2^e. *)
Lemma double_small (k j e : Z) :
  (Z.abs k < 2 ^ 53)%Z -> (j < e)%Z -> inject_Z k * 2 ^ j < 2 ^ 52 * 2 ^ e.
Proof.
  intros Hk Hj.
  apply Qlt_le_trans with (2 ^ 53 * 2 ^ j).
  - apply Qmult_lt_r; [apply pow2_pos |].
    rewrite <- (pow2_inject 53) by lia. rewrite <- Zlt_Qlt. lia.
  - rewrite <- !pow2_add. apply pow2_le. lia.
Qed.

Lemma round_pos_ge (x m : Q) :
  0 < x -> is_double m -> m <= x -> m <= round_pos x.
Proof.
  intros Hx (k & j & Hk & Hj & Hm) Hle. unfold round_pos.
  destruct (ulp_exp_cases x Hx) as [Hmin Hnorm].
  set (e := ulp_exp x) in *.
  assert (He : 0 < 2 ^ e) by apply pow2_pos.
  assert (Hy : x / 2 ^ e * 2 ^ e == x) by (field; lra).
  destruct (Z_le_gt_dec e j) as [Hej | Hje].
  - rewrite Hm, (double_scaled k j e Hej).
    apply Qmult_le_r; [exact He |]. rewrite <- Zle_Qle.
    apply rne_ge_integer. apply (Qmult_le_r _ _ _ He).
    rewrite Hy, <- (double_scaled k j e Hej), <- Hm. exact Hle.
  - destruct Hnorm as [Hsub | Hnorm]; [lia |].
    apply Qle_trans with (2 ^ 52 * 2 ^ e).
    + rewrite Hm. apply Qlt_le_weak. apply double_small; [exact Hk | lia].
    + apply Qmult_le_r; [exact He |].
      rewrite <- (pow2_inject 52) by lia. rewrite <- Zle_Qle.
      apply rne_ge_integer. rewrite pow2_inject by lia.
      apply (Qmult_le_r _ _ _ He). rewrite Hy. exact Hnorm.
Qed.

Lemma round_pos_le (x m : Q) :
  0 < x -> is_double m -> x <= m -> round_pos x <= m.
Proof.
  intros Hx (k & j & Hk & Hj & Hm) Hle. unfold round_pos.
  destruct (ulp_exp_cases x Hx) as [Hmin Hnorm].
  set (e := ulp_exp x) in *.
  assert (He : 0 < 2 ^ e) by apply pow2_pos.
  assert (Hy : x / 2 ^ e * 2 ^ e == x) by (field; lra).
  destruct (Z_le_gt_dec e j) as [Hej | Hje].
  - rewrite Hm, (double_scaled k j e Hej).
    apply Qmult_le_r; [exact He |]. rewrite <- Zle_Qle.
    apply rne_le_integer. apply (Qmult_le_r _ _ _ He).
    rewrite Hy, <- (double_scaled k j e Hej), <- Hm. exact Hle.
  - destruct Hnorm as [Hsub | Hnorm]; [lia |].
    exfalso. apply (Qlt_irrefl x).
    apply Qle_lt_trans with m; [exact Hle |].
    apply Qlt_le_trans with (2 ^ 52 * 2 ^ e); [| exact Hnorm].
    rewrite Hm. apply double_small; [exact Hk | lia].
Qed.

(** Rounding leaves a double as it is. *)
Lemma round_pos_double (m : Q) : 0 < m -> is_double m -> round_pos m == m.
Proof.
  intros Hpos Hm. apply Qle_antisym.
  - apply round_pos_le; [exact Hpos | exact Hm | apply Qle_refl].
  - apply round_pos_ge; [exact Hpos | exact Hm | apply Qle_refl].
Qed.

Lemma is_double_opp (m : Q) : is_double m -> is_double (- m).
Proof.
  intros (k & e & Hk & He & Hm). exists (- k)%Z, e.
  split; [lia |]. split; [exact He |].
  rewrite Hm, inject_Z_opp. ring.
Qed.

Lemma is_double_lt_overflow (m : Q) : is_double m -> m < 2 ^ 1024.
Proof.
  intros (k & e & Hk & He & Hm). rewrite Hm.
  apply Qlt_le_trans with (2 ^ 53 * 2 ^ e).
  - apply Qmult_lt_r; [apply pow2_pos |].
    rewrite <- (pow2_inject 53) by lia. rewrite <- Zlt_Qlt. lia.
  - rewrite <- pow2_add. apply pow2_le. lia.
Qed.

Lemma number_lt_Fin (a b : Q) : number_lt (Fin a) (Fin b) = true <-> a < b.
Proof.
  cbn. destruct (Qcompare_spec a b) as [H | H | H].
  - split; [discriminate | intros Hlt; rewrite H in Hlt; lra].
  - split; [intros _; exact H | reflexivity].
  - split; [discriminate | lra].
Qed.

(** A comparison with a double, after rounding, is sound for the exact
    value: rounding never crosses a double. *)
Lemma to_double_lt_sound (x m : Q) :
  is_double m -> number_lt (to_double x) (Fin m) = true -> x < m.
Proof.
  intros Hm. unfold to_double.
  destruct (Qcompare_spec 0 x) as [H0 | Hpos | Hneg].
  - intros H. apply number_lt_Fin in H. rewrite <- H0. exact H.
  - destruct (Qle_bool (2 ^ 1024) (round_pos x)); [discriminate |].
    intros H. apply number_lt_Fin in H. rewrite Qred_correct in H.
    apply Qnot_le_lt. intros Hle.
    pose proof (round_pos_ge x m Hpos Hm Hle). lra.
  - assert (Hpos : 0 < - x) by lra.
    destruct (Qle_bool (2 ^ 1024) (round_pos (- x))) eqn:Hover.
    + intros _. apply Qle_bool_iff in Hover.
      apply Qnot_le_lt. intros Hle.
      assert (Hle' : - x <= - m) by lra.
      pose proof (round_pos_le (- x) (- m) Hpos (is_double_opp m Hm) Hle').
      pose proof (is_double_lt_overflow (- m) (is_double_opp m Hm)). lra.
    + intros H. apply number_lt_Fin in H. rewrite Qred_correct in H.
      apply Qnot_le_lt. intros Hle.
      assert (Hle' : - x <= - m) by lra.
      pose proof (round_pos_le (- x) (- m) Hpos (is_double_opp m Hm) Hle').
      lra.
Qed.

(** Conversely the comparison holds as soon as a double separates the exact
    value from the bound. *)
Lemma to_double_lt_complete (x d m : Q) :
  is_double d -> x <= d -> d < m ->
  number_lt (to_double x) (Fin m) = true.
Proof.
  intros Hd Hxd Hdm. unfold to_double.
  destruct (Qcompare_spec 0 x) as [H0 | Hpos | Hneg].
  - apply number_lt_Fin. lra.
  - pose proof (round_pos_le x d Hpos Hd Hxd) as Hr.
    pose proof (is_double_lt_overflow d Hd) as Hfin.
    destruct (Qle_bool (2 ^ 1024) (round_pos x)) eqn:Hover.
    + apply Qle_bool_iff in Hover. lra.
    + apply number_lt_Fin. rewrite Qred_correct. lra.
  - assert (Hpos : 0 < - x) by lra.
    destruct (Qle_bool (2 ^ 1024) (round_pos (- x))); [reflexivity |].
    apply number_lt_Fin. rewrite Qred_correct.
    assert (Hle' : - d <= - x) by lra.
    pose proof (round_pos_ge (- x) (- d) Hpos (is_double_opp d Hd) Hle').
    lra.
Qed.


(** [ilog2] does not undershoot either. *)
Lemma ilog2_upper (x : Q) : 0 < x -> x < 2 ^ (ilog2 x + 1).
Proof.
  intros Hx. unfold ilog2.
  set (a := Z.log2 (Qnum x)). set (b := Z.log2 (Z.pos (Qden x))).
  destruct (Qle_bool (2 ^ (a - b)) x) eqn:Hle.
  - assert (Hn : (0 < Qnum x)%Z).
    { destruct x as [n d]. unfold Qlt in Hx. cbn in *. lia. }
    destruct (Z.log2_spec (Qnum x) Hn) as [_ Ha]. fold a in Ha.
    destruct (Z.log2_spec (Z.pos (Qden x)) eq_refl) as [Hb _]. fold b in Hb.
    assert (Ha0 : (0 <= a)%Z) by apply Z.log2_nonneg.
    assert (Hb0 : (0 <= b)%Z) by apply Z.log2_nonneg.
    assert (Hden : 2 ^ b <= inject_Z (Z.pos (Qden x))).
    { rewrite <- pow2_inject by lia. rewrite <- Zle_Qle. exact Hb. }
    assert (Hnum : inject_Z (Qnum x) < 2 ^ (a + 1)).
    { rewrite <- pow2_inject by lia. rewrite <- Zlt_Qlt.
      change (Z.succ a) with (a + 1)%Z in Ha. exact Ha. }
    assert (Hx' : x * inject_Z (Z.pos (Qden x)) == inject_Z (Qnum x)).
    { destruct x as [n d]. unfold Qeq, inject_Z. cbn. lia. }
    assert (Hsplit : 2 ^ (a + 1) == 2 ^ (a - b + 1) * 2 ^ b).
    { rewrite <- pow2_add. replace (a - b + 1 + b)%Z with (a + 1)%Z by lia.
      reflexivity. }
    assert (Hbpos : 0 < 2 ^ b) by apply pow2_pos.
    apply (Qmult_lt_r _ _ _ Hbpos). rewrite <- Hsplit.
    apply Qle_lt_trans with (inject_Z (Qnum x)); [| exact Hnum].
    rewrite <- Hx'. apply Qmult_le_l; [exact Hx | exact Hden].
  - replace (a - b - 1 + 1)%Z with (a - b)%Z by lia.
    apply Qnot_le_lt. intros H. apply Qle_bool_iff in H. congruence.
Qed.

(** Below 2^53 units in the last place. *)
Lemma ulp_exp_upper (x : Q) : 0 < x -> x < 2 ^ 53 * 2 ^ ulp_exp x.
Proof.
  intros Hx. apply Qlt_le_trans with (2 ^ (ilog2 x + 1)).
  - apply ilog2_upper. exact Hx.
  - rewrite <- pow2_add. apply pow2_le. unfold ulp_exp. lia.
Qed.

Lemma is_double_0 : is_double 0.
Proof. exists 0%Z, 0%Z. split; [lia |]. split; [lia | reflexivity]. Qed.

(** A count of at most 2^53 units in the last place is a double, as long as
    it stays below 2^1024. *)
Lemma is_double_units (n e : Z) :
  (0 <= n <= 2 ^ 53)%Z -> (-1074 <= e <= 971)%Z ->
  inject_Z n * 2 ^ e < 2 ^ 1024 ->
  is_double (inject_Z n * 2 ^ e).
Proof.
  intros Hn He Hfin.
  destruct (Z.eq_dec n 0) as [-> | Hn0].
  { exists 0%Z, 0%Z. split; [lia |]. split; [lia |]. ring. }
  assert (Hlt : (e + Z.log2 n < 1024)%Z).
  { apply Z.nle_gt. intros Hge.
    apply (Qlt_irrefl (2 ^ 1024)).
    apply Qle_lt_trans with (inject_Z n * 2 ^ e); [| exact Hfin].
    apply Qle_trans with (2 ^ Z.log2 n * 2 ^ e).
    - rewrite <- pow2_add. apply pow2_le. lia.
    - apply Qmult_le_r; [apply pow2_pos |].
      rewrite <- pow2_inject by apply Z.log2_nonneg. rewrite <- Zle_Qle.
      apply Z.log2_spec. lia. }
  destruct (Z.eq_dec n (2 ^ 53)) as [-> | Hmax].
  - exists (2 ^ 52)%Z, (e + 1)%Z. split; [lia |].
    change (Z.log2 (2 ^ 53)) with 53%Z in Hlt. split; [lia |].
    rewrite pow2_add, !pow2_inject by lia.
    change (2 ^ 53) with (2 ^ 52 * 2 ^ 1). ring.
  - exists n, e. split; [lia |]. split; [lia | reflexivity].
Qed.

(** Between a double and the next one, rounding goes to the nearer of the
    two, and at the midpoint to the one with the even significand. *)
Lemma to_double_between (x lo m : Q) :
  is_double m -> double_below lo m -> 0 <= x -> lo < x -> x < m ->
  (number_lt (to_double x) (Fin m) = true <->
   x < (lo + m) / 2 \/
   (x == (lo + m) / 2 /\ Z.even (Qfloor (lo / (m - lo))) = true)).
Proof.
  intros Hm (Hlo & Hlt & Hmax) H0 Hlox Hxm.
  assert (Hx : 0 < x).
  { destruct (Qlt_le_dec 0 x) as [H | H]; [exact H |].
    assert (Hx0 : x == 0) by lra.
    pose proof (Hmax 0 is_double_0 ltac:(lra)). lra. }
  pose proof (is_double_lt_overflow m Hm) as Hfin.
  destruct (ulp_exp_cases x Hx) as [Hmin Hnorm].
  pose proof (ulp_exp_upper x Hx) as Hup.
  assert (Hemax : (ulp_exp x <= 971)%Z).
  { unfold ulp_exp. apply Z.max_lub; [| lia].
    assert (ilog2 x < 1024)%Z; [| lia].
    apply Z.nle_gt. intros Hge.
    pose proof (ilog2_lower x Hx) as Hl.
    pose proof (pow2_le 1024 (ilog2 x) Hge). lra. }
  set (e := ulp_exp x) in *.
  assert (He : 0 < 2 ^ e) by apply pow2_pos.
  set (y := x / 2 ^ e).
  assert (Hy : y * 2 ^ e == x) by (unfold y; field; lra).
  set (f := Qfloor y).
  assert (Hfl : inject_Z f <= y) by apply Qfloor_le.
  assert (Hfu : y < inject_Z (f + 1)) by apply Qlt_floor.
  rewrite inject_Z_plus in Hfu. change (inject_Z 1) with 1 in Hfu.
  assert (Hypos : 0 < y).
  { apply (Qmult_lt_r _ _ _ He). rewrite Hy. lra. }
  assert (Hy53 : y < 2 ^ 53).
  { apply (Qmult_lt_r _ _ _ He). rewrite Hy. exact Hup. }
  assert (Hf0 : (0 <= f)%Z).
  { change 0%Z with (Qfloor 0). apply Qfloor_resp_le. lra. }
  assert (Hf53 : (f < 2 ^ 53)%Z).
  { rewrite Zlt_Qlt, pow2_inject by lia. lra. }
  (* the budget is a multiple of the unit in the last place of x *)
  assert (Hmul : forall d : Q,
             is_double d -> x <= d ->
             exists b : Z, d == inject_Z b * 2 ^ e).
  { intros d (k & j & Hk & Hj & Hd) Hxd.
    destruct (Z_le_gt_dec e j) as [Hej | Hje].
    - exists (k * 2 ^ (j - e))%Z. rewrite Hd. apply double_scaled. exact Hej.
    - exfalso. destruct Hnorm as [Hsub | Hnorm]; [lia |].
      pose proof (double_small k j e Hk ltac:(lia)) as Hs.
      rewrite <- Hd in Hs. lra. }
  destruct (Hmul m Hm ltac:(lra)) as (b & Hb).
  assert (Hfb : (f + 1 <= b)%Z).
  { assert (Hyb : y < inject_Z b).
    { apply (Qmult_lt_r _ _ _ He). rewrite Hy, <- Hb. exact Hxm. }
    assert (f < b)%Z; [| lia].
    rewrite Zlt_Qlt. lra. }
  assert (Hhi_le : inject_Z (f + 1) * 2 ^ e <= m).
  { rewrite Hb. apply Qmult_le_r; [exact He |]. rewrite <- Zle_Qle. exact Hfb. }
  assert (Hhi_d : is_double (inject_Z (f + 1) * 2 ^ e)).
  { apply is_double_units; [lia | lia | lra]. }
  assert (Hlo_d : is_double (inject_Z f * 2 ^ e)).
  { apply is_double_units; [lia | lia |].
    apply Qle_lt_trans with x; [| lra].
    rewrite <- Hy. apply Qmult_le_r; [exact He | exact Hfl]. }
  assert (Hhi_gt : x < inject_Z (f + 1) * 2 ^ e).
  { rewrite <- Hy. apply Qmult_lt_r; [exact He |].
    rewrite inject_Z_plus. exact Hfu. }
  assert (Hlo_le : inject_Z f * 2 ^ e <= x).
  { rewrite <- Hy. apply Qmult_le_r; [exact He | exact Hfl]. }
  assert (Hm_eq : m == inject_Z (f + 1) * 2 ^ e).
  { apply Qle_antisym; [| exact Hhi_le].
    apply Qnot_lt_le. intros Hc.
    pose proof (Hmax _ Hhi_d Hc). lra. }
  assert (Hlo_eq : lo == inject_Z f * 2 ^ e).
  { apply Qle_antisym.
    - destruct Hlo as (k & j & Hk & Hj & Hd).
      destruct (Z_le_gt_dec e j) as [Hej | Hje].
      + rewrite Hd, (double_scaled k j e Hej).
        apply Qmult_le_r; [exact He |]. rewrite <- Zle_Qle.
        assert (Hya : inject_Z (k * 2 ^ (j - e)) < y).
        { apply (Qmult_lt_r _ _ _ He).
          rewrite Hy, <- (double_scaled k j e Hej), <- Hd. exact Hlox. }
        assert (Hlt' : inject_Z (k * 2 ^ (j - e)) < inject_Z (f + 1)).
        { rewrite inject_Z_plus. change (inject_Z 1) with 1. lra. }
        rewrite <- Zlt_Qlt in Hlt'. lia.
      + destruct Hnorm as [Hsub | Hnorm]; [lia |].
        pose proof (double_small k j e Hk ltac:(lia)) as Hs.
        rewrite <- Hd in Hs.
        apply Qle_trans with (2 ^ 52 * 2 ^ e); [lra |].
        apply Qmult_le_r; [exact He |].
        rewrite <- (pow2_inject 52) by lia. rewrite <- Zle_Qle.
        change (2 ^ 52)%Z with (Qfloor (inject_Z (2 ^ 52))).
        apply Qfloor_resp_le. rewrite pow2_inject by lia.
        apply (Qmult_le_r _ _ _ He). rewrite Hy. exact Hnorm.
    - apply Hmax; [exact Hlo_d | lra]. }
  assert (Hgap : m - lo == 2 ^ e).
  { rewrite Hm_eq, Hlo_eq, inject_Z_plus. change (inject_Z 1) with 1. ring. }
  assert (Heven : Qfloor (lo / (m - lo)) = f).
  { rewrite <- (Qfloor_Z f). apply Qfloor_comp.
    rewrite Hgap, Hlo_eq. field. lra. }
  assert (Hmid : (lo + m) / 2 == (inject_Z f + (1 # 2)) * 2 ^ e).
  { rewrite Hm_eq, Hlo_eq, inject_Z_plus. change (inject_Z 1) with 1.
    field. }
  rewrite Heven.
  (* the comparison after rounding *)
  assert (Hround : number_lt (to_double x) (Fin m) = true <->
                   (rne y < f + 1)%Z).
  { unfold to_double.
    destruct (Qcompare_spec 0 x) as [Hc | _ | Hc]; [lra | | lra].
    pose proof (round_pos_le x m Hx Hm ltac:(lra)) as Hr.
    destruct (Qle_bool (2 ^ 1024) (round_pos x)) eqn:Hover.
    { apply Qle_bool_iff in Hover. lra. }
    rewrite number_lt_Fin, Qred_correct.
    unfold round_pos. fold e. fold y. rewrite Hm_eq.
    split; intros H.
    - rewrite Zlt_Qlt. apply (Qmult_lt_r _ _ _ He). exact H.
    - apply Qmult_lt_r; [exact He |]. rewrite <- Zlt_Qlt. exact H. }
  rewrite Hround, Hmid.
  assert (Hcmp : forall c : Q, x < c * 2 ^ e <-> y < c).
  { intros c. rewrite <- Hy. split; intros H.
    - apply (Qmult_lt_r _ _ _ He). exact H.
    - apply Qmult_lt_r; [exact He | exact H]. }
  assert (Hcmpeq : forall c : Q, x == c * 2 ^ e <-> y == c).
  { intros c. rewrite <- Hy. split; intros H.
    - apply (Qmult_inj_r _ _ (2 ^ e)); [lra | exact H].
    - rewrite H. reflexivity. }
  rewrite Hcmp, Hcmpeq.
  unfold rne. fold f.
  destruct (Qcompare_spec (y - inject_Z f) (1 # 2)) as [Hc | Hc | Hc].
  - destruct (Z.even f).
    + split; [intros _; right; split; [lra | reflexivity] | lia].
    + split; [lia | intros [H | [_ H]]; [lra | discriminate H]].
  - split; [intros _; left; lra | lia].
  - split; [lia | intros [H | [H _]]; lra].
Qed.

(** The double nearest to one tenth, and the two conversions that decide the
    budget rule at one wei and at sixty wei below one ether. *)
Example to_double_tenth :
  to_double (1 # 10) = Fin (3602879701896397 # 36028797018963968).
Proof. vm_compute. reflexivity. Qed.

Example Number_formatEther_one_wei_short :
  Number_formatEther (10 ^ 18 - 1) = Fin 1.
Proof. vm_compute. reflexivity. Qed.

Example Number_formatEther_sixty_wei_short :
  Number_formatEther (10 ^ 18 - 60)
  = Fin (9007199254740991 # 9007199254740992).
Proof. vm_compute. reflexivity. Qed.

(** Overflow and underflow: the tie between the largest double and 2^1024 is
    an infinity, the tie between 0 and the smallest subnormal is 0. *)
Example to_double_overflow : to_double (2 ^ 1024 - 2 ^ 970) = PInf.
Proof. vm_compute. reflexivity. Qed.

Example to_double_underflow : to_double (2 ^ (-1075)) = Fin 0.
Proof. vm_compute. reflexivity. Qed.

End Binary64.

(** ** Integers and bounds under rounding *)

Section Binary64Integers.

Local Open Scope Q_scope.

Lemma is_double_int (n : Z) : (Z.abs n <= 2 ^ 53)%Z -> is_double (inject_Z n).
Proof.
  intros Hn. destruct (Z.eq_dec (Z.abs n) (2 ^ 53)) as [Hmax | Hlt].
  - (* 2^53 = 2^52 * 2^1 *)
    exists (n / 2)%Z, 1%Z. split; [| split; [lia |]].
    + assert (n = 2 ^ 53 \/ n = - 2 ^ 53)%Z as [-> | ->] by lia; vm_compute;
        reflexivity.
    + assert (n = 2 ^ 53 \/ n = - 2 ^ 53)%Z as [-> | ->] by lia; vm_compute;
        reflexivity.
  - exists n, 0%Z. split; [lia |]. split; [lia |]. cbn. ring.
Qed.

Lemma Qred_inject_Z (n : Z) : Qred (inject_Z n) = inject_Z n.
Proof. apply Qcanon.Qred_identity. cbn. apply Z.gcd_1_r. Qed.

(** The conversion of an integer of at most 53 bits is exact. *)
Lemma to_double_int (n : Z) :
  (Z.abs n <= 2 ^ 53)%Z -> to_double (inject_Z n) = Fin (inject_Z n).
Proof.
  intros Hn. pose proof (is_double_int n Hn) as Hd.
  pose proof (is_double_lt_overflow _ Hd) as Hfin.
  unfold to_double.
  destruct (Qcompare_spec 0 (inject_Z n)) as [H0 | Hpos | Hneg].
  - f_equal. destruct n; [reflexivity | discriminate H0 | discriminate H0].
  - pose proof (round_pos_double _ Hpos Hd) as Hr.
    destruct (Qle_bool (2 ^ 1024) (round_pos (inject_Z n))) eqn:Hover.
    + apply Qle_bool_iff in Hover. rewrite Hr in Hover. lra.
    + f_equal. rewrite (Qred_complete _ _ Hr). apply Qred_inject_Z.
  - assert (Hpos : 0 < - inject_Z n) by lra.
    pose proof (is_double_opp _ Hd) as Hd'.
    pose proof (is_double_lt_overflow _ Hd') as Hfin'.
    pose proof (round_pos_double _ Hpos Hd') as Hr.
    destruct (Qle_bool (2 ^ 1024) (round_pos (- inject_Z n))) eqn:Hover.
    + apply Qle_bool_iff in Hover. rewrite Hr in Hover. lra.
    + f_equal. transitivity (Qred (inject_Z n)); [| apply Qred_inject_Z].
      apply Qred_complete. rewrite Hr. ring.
Qed.

(** Rounding a value that is at least a positive double gives at least that
    double (or an infinity): it cannot compare below a smaller bound. *)
Lemma number_le_to_double_false (x m b : Q) :
  is_double m -> 0 < m -> m <= x -> b < m ->
  number_le (to_double x) (Fin b) = false.
Proof.
  intros Hm Hpos Hle Hb. unfold to_double.
  destruct (Qcompare_spec 0 x) as [H0 | Hx | Hx]; [lra | | lra].
  destruct (Qle_bool (2 ^ 1024) (round_pos x)); [reflexivity |].
  cbn. destruct (Qle_bool (Qred (round_pos x)) b) eqn:Hc; [| reflexivity].
  apply Qle_bool_iff in Hc. rewrite Qred_correct in Hc.
  pose proof (round_pos_ge x m Hx Hm Hle). lra.
Qed.

End Binary64Integers.

(** ** The payload size in binary64 *)

Section PayloadSize.

Local Open Scope Q_scope.

(** A size at or below the overhead leaves no payload, whatever the
    subtraction rounds to. *)
Lemma Math_max_to_double_nonpos (x : Q) :
  x <= 0 -> Math_max (to_double x) (Fin 0) = Fin 0.
Proof.
  intros Hx. unfold to_double.
  destruct (Qcompare_spec 0 x) as [H0 | Hpos | Hneg]; [reflexivity | lra |].
  assert (Hpos : 0 < - x) by lra.
  pose proof (round_pos_ge (- x) 0 Hpos is_double_0 ltac:(lra)) as Hr.
  destruct (Qle_bool (2 ^ 1024) (round_pos (- x))); [reflexivity |].
  cbn. destruct (Qle_bool (Qred (- round_pos (- x))) 0) eqn:Hle;
    [reflexivity |].
  assert (Hc : Qred (- round_pos (- x)) <= 0)
    by (rewrite Qred_correct; lra).
  apply Qle_bool_iff in Hc. congruence.
Qed.

Lemma mineBoostSize_overhead (d : number) :
  number_le d (Fin 160) = true ->
  Math_max (number_sub d (Fin (inject_Z overheadBytes))) (Fin 0) = Fin 0.
Proof.
  destruct d as [q | | |]; cbn [number_le number_sub]; try discriminate.
  - intros Hle. apply Qle_bool_iff in Hle.
    apply Math_max_to_double_nonpos.
    change (inject_Z overheadBytes) with 160. lra.
  - reflexivity.
Qed.

Lemma BigInt_of_number_integer (z : Z) :
  BigInt_of_number (Fin (inject_Z z)) = Ok z.
Proof.
  unfold BigInt_of_number. rewrite Qfloor_Z.
  rewrite (proj2 (Qeq_bool_iff _ _) (Qeq_refl _)). reflexivity.
Qed.

(** On an integer byte count the payload gas is exact, as long as it has
    at most 53 bits. *)
Lemma calldataGas_integer (n : Z) :
  ((n - 160) * 40 <= 2 ^ 53)%Z ->
  BigInt_of_number
    (number_mul
       (Math_max (number_sub (Fin (inject_Z n)) (Fin (inject_Z overheadBytes)))
          (Fin 0))
       (Fin 40))
  = Ok (Z.max (n - overheadBytes) 0 * 40)%Z.
Proof.
  intros Hn.
  destruct (Z_le_gt_dec n 160) as [Hle | Hgt].
  - rewrite (mineBoostSize_overhead (Fin (inject_Z n))).
    + unfold overheadBytes. rewrite Z.max_r by lia. reflexivity.
    + cbn. apply Qle_bool_iff. change 160 with (inject_Z 160).
      rewrite <- Zle_Qle. exact Hle.
  - unfold overheadBytes. rewrite Z.max_l by lia. cbn [number_sub].
    assert (Hsub : inject_Z n - inject_Z 160 = inject_Z (n - 160)).
    { unfold Qminus, Qplus, Qopp, inject_Z. cbn [Qnum Qden Pos.mul].
      f_equal. lia. }
    rewrite Hsub, to_double_int by lia.
    assert (Hmax : Math_max (Fin (inject_Z (n - 160))) (Fin 0)
                   = Fin (inject_Z (n - 160))).
    { cbn. destruct (Qle_bool (inject_Z (n - 160)) 0) eqn:Hc; [| reflexivity].
      apply Qle_bool_iff in Hc. change 0 with (inject_Z 0) in Hc.
      rewrite <- Zle_Qle in Hc. lia. }
    rewrite Hmax. cbn [number_mul].
    assert (Hmul : inject_Z (n - 160) * 40 = inject_Z ((n - 160) * 40)).
    { unfold Qmult, inject_Z. cbn [Qnum Qden Pos.mul]. reflexivity. }
    rewrite Hmul, to_double_int by lia.
    apply BigInt_of_number_integer.
Qed.

Lemma BigInt_of_number_Throw (n : number) (e : JsError) :
  BigInt_of_number n = Throw e ->
  e = RangeError "The number cannot be converted to a BigInt".
Proof.
  unfold BigInt_of_number. destruct n as [q | | |].
  - destruct (Qeq_bool q (inject_Z (Qfloor q))); [discriminate |].
    intros [= <-]. reflexivity.
  - intros [= <-]. reflexivity.
  - intros [= <-]. reflexivity.
  - intros [= <-]. reflexivity.
Qed.

End PayloadSize.

(** ** The economic calculator *)

Section Calculator.

Lemma bigint_div_nonzero a b : b <> 0 -> bigint_div a b = Ok (a ÷ b).
Proof.
  intros Hb. unfold bigint_div.
  destruct (Z.eqb_spec b 0); [contradiction | reflexivity].
Qed.

(** The calculator never throws, and its integer fields are these. *)
Lemma calculateFctOutput_spec (p : Params) :
  exists out : Output,
    calculateFctOutput p = Ok out /\
    calldataGas out
      = default (Z.max (dataSize p - 160) 0 * 40) (calldataGasOverride p) /\
    totalGas out = calldataGas out + 21000 /\
    fctMinted out = calldataGas out * baseFee p * mintRate p /\
    ethBurned out = totalGas out * default (baseFee p) (gasPrice p) /\
    costPerFct out
      = (if fctMinted out >? 0
         then (ethBurned out * 10 ^ 18) ÷ fctMinted out else 0).
Proof.
  unfold calculateFctOutput, overheadBytes, baseExecutionGas.
  set (cg := match calldataGasOverride p with Some g => g | None => _ end).
  set (gp := match gasPrice p with Some g => g | None => _ end).
  assert (Hcg : cg = default (Z.max (dataSize p - 160) 0 * 40)
                       (calldataGasOverride p))
    by (subst cg; destruct (calldataGasOverride p); reflexivity).
  assert (Hgp : gp = default (baseFee p) (gasPrice p))
    by (subst gp; destruct (gasPrice p); reflexivity).
  destruct (cg * baseFee p * mintRate p >? 0) eqn:Hpos.
  - rewrite bigint_div_nonzero by lia. cbn.
    eexists; split; [reflexivity |]. cbn. rewrite Hpos, <- Hcg, <- Hgp.
    repeat split.
  - cbn. eexists; split; [reflexivity |]. cbn. rewrite Hpos, <- Hcg, <- Hgp.
    repeat split.
Qed.

(** The scenario of the specification: 25600 bytes give 25440 * 40 =
    1017600 gas of calldata, 1038600 gas in all and an efficiency of about
    97.98 percent. *)
Example calculateFctOutput_25600 :
  exists out : Output,
    calculateFctOutput (mkParams 25600 1 1 None None) = Ok out /\
    calldataGas out = 1017600 /\
    totalGas out = 1038600 /\
    number_lt (Fin (9797 # 100)) (efficiency out) = true /\
    number_lt (efficiency out) (Fin (9798 # 100)) = true.
Proof.
  eexists. split; [vm_compute; reflexivity |]. repeat split.
Qed.

(** The calculator on any [number]: once the payload gas is known the
    function cannot throw, and the fields of the result are these. *)
Lemma AnySize_calculateFctOutput_Ok (p : AnySize.Params) (out : Output) :
  AnySize.calculateFctOutput p = Ok out ->
  totalGas out = calldataGas out + 21000 /\
  fctMinted out = calldataGas out * AnySize.baseFee p * AnySize.mintRate p /\
  ethBurned out
  = totalGas out * default (AnySize.baseFee p) (AnySize.gasPrice p) /\
  costPerFct out
  = (if fctMinted out >? 0
     then (ethBurned out * 10 ^ 18) ÷ fctMinted out else 0).
Proof.
  unfold AnySize.calculateFctOutput, baseExecutionGas.
  destruct (match AnySize.calldataGasOverride p with
            | Some g => Ok g
            | None => BigInt_of_number _
            end) as [cg | e]; [| discriminate].
  cbn [mbind result_bind].
  assert (Hgp : match AnySize.gasPrice p with
                | Some g => g
                | None => AnySize.baseFee p
                end = default (AnySize.baseFee p) (AnySize.gasPrice p))
    by (destruct (AnySize.gasPrice p); reflexivity).
  destruct (cg * AnySize.baseFee p * AnySize.mintRate p >? 0) eqn:Hpos.
  - rewrite bigint_div_nonzero by lia. cbn. intros [= <-]. cbn.
    rewrite Hpos, Hgp. repeat split.
  - cbn. intros [= <-]. cbn. rewrite Hpos, Hgp. repeat split.
Qed.

Lemma AnySize_calculateFctOutput_Throw (p : AnySize.Params) (e : JsError) :
  AnySize.calculateFctOutput p = Throw e ->
  e = RangeError "The number cannot be converted to a BigInt" /\
  AnySize.calldataGasOverride p = None /\
  number_le (AnySize.dataSize p) (Fin 160%Q) = false.
Proof.
  unfold AnySize.calculateFctOutput.
  assert (Hrest : forall cg : Z,
             (costPerFct ←
                (if cg * AnySize.baseFee p * AnySize.mintRate p >? 0
                 then bigint_div
                        ((cg + baseExecutionGas)
                         * match AnySize.gasPrice p with
                           | Some g => g
                           | None => AnySize.baseFee p
                           end * 10 ^ 18)
                        (cg * AnySize.baseFee p * AnySize.mintRate p)
                 else Ok 0);
              Ok {| calldataGas := cg;
                    fctMinted := cg * AnySize.baseFee p * AnySize.mintRate p;
                    efficiency :=
                      number_mul
                        (number_div (Number_of_bigint cg)
                           (Number_of_bigint (cg + baseExecutionGas)))
                        (Fin 100%Q);
                    totalGas := cg + baseExecutionGas;
                    ethBurned :=
                      (cg + baseExecutionGas)
                      * match AnySize.gasPrice p with
                        | Some g => g
                        | None => AnySize.baseFee p
                        end;
                    costPerFct := costPerFct |}) <> Throw e).
  { intros cg.
    destruct (cg * AnySize.baseFee p * AnySize.mintRate p >? 0) eqn:Hpos.
    - rewrite bigint_div_nonzero by lia. discriminate.
    - discriminate. }
  destruct (AnySize.calldataGasOverride p) as [g |].
  - cbn [mbind result_bind]. intros H. destruct (Hrest g H).
  - destruct (number_le (AnySize.dataSize p) (Fin 160%Q)) eqn:Hle.
    + rewrite mineBoostSize_overhead by exact Hle.
      change (BigInt_of_number (number_mul (Fin 0%Q) (Fin 40%Q)))
        with (@Ok Z 0).
      cbn [mbind result_bind]. intros H. destruct (Hrest 0 H).
    + destruct (BigInt_of_number _) as [cg | e'] eqn:Hconv.
      * cbn [mbind result_bind]. intros H. destruct (Hrest cg H).
      * cbn [mbind result_bind]. intros [= <-].
        split; [exact (BigInt_of_number_Throw _ _ Hconv) |].
        split; reflexivity.
Qed.

Lemma AnySize_calculateFctOutput_integer
    (n bf mr : Z) (override gp : option Z) :
  (n - 160) * 40 <= 2 ^ 53 ->
  AnySize.calculateFctOutput
    (AnySize.mkParams (Fin (inject_Z n)) bf mr override gp)
  = calculateFctOutput (mkParams n bf mr override gp).
Proof.
  intros Hn. unfold AnySize.calculateFctOutput, calculateFctOutput.
  cbn [AnySize.dataSize AnySize.baseFee AnySize.mintRate
       AnySize.calldataGasOverride AnySize.gasPrice
       dataSize baseFee mintRate calldataGasOverride gasPrice].
  destruct override as [g |]; [reflexivity |].
  rewrite calldataGas_integer by exact Hn. reflexivity.
Qed.

(** The source's own edge cases: a fractional size, NaN and an infinite size
    throw the RangeError of [BigInt]; a size below the overhead never
    does. *)
Example calculateFctOutput_fractional_size :
  AnySize.calculateFctOutput
    (AnySize.mkParams (to_double (1603 # 10)) 1 1 None None)
  = Throw (RangeError "The number cannot be converted to a BigInt").
Proof. vm_compute. reflexivity. Qed.

Example calculateFctOutput_NaN_size :
  AnySize.calculateFctOutput (AnySize.mkParams NaN 1 1 None None)
  = Throw (RangeError "The number cannot be converted to a BigInt").
Proof. vm_compute. reflexivity. Qed.

Example calculateFctOutput_infinite_size :
  AnySize.calculateFctOutput (AnySize.mkParams PInf 1 1 None None)
  = Throw (RangeError "The number cannot be converted to a BigInt").
Proof. vm_compute. reflexivity. Qed.

(** C3, as the specification states it, fails: with a mint rate above
    10^18 the yield is positive and the truncating division gives a cost per
    FCT of zero. *)
Lemma costPerFct_zero_iff_counterexample :
  ~ (forall (p : AnySize.Params) (out : Output),
       AnySize.calculateFctOutput p = Ok out ->
       (costPerFct out = 0 <-> fctMinted out = 0)).
Proof.
  intros H.
  destruct (H (AnySize.mkParams (Fin 1024%Q) 1 (2 * 10 ^ 18) None (Some 1))
              (mkOutput 34560 (69120 * 10 ^ 18)
                 (number_mul
                    (number_div (Number_of_bigint 34560)
                       (Number_of_bigint 55560))
                    (Fin 100%Q))
                 55560 55560 0)
              ltac:(vm_compute; reflexivity)) as [Hiff _].
  specialize (Hiff eq_refl). discriminate Hiff.
Qed.

(** C3, amended: whenever the calculator returns, the cost per FCT is zero
    when nothing is minted (the guard), and for a positive yield it is zero
    exactly when the cost scaled by 10^18 is smaller than the yield (the
    bigint division truncates).  No division by a zero yield is ever made:
    the only exception the calculator raises is the RangeError of [BigInt]
    on the payload size, without a calldata gas override and for a size
    that is not at or below the overhead; on an integer byte count whose
    payload gas has at most 53 bits it returns, with the result of the
    calculator on integers. *)
Theorem costPerFct_zero_iff (p : AnySize.Params) :
  (forall out : Output,
      AnySize.calculateFctOutput p = Ok out ->
      (fctMinted out <= 0 -> costPerFct out = 0) /\
      (costPerFct out = 0 <->
         fctMinted out <= 0 \/
         Z.abs (ethBurned out) * 10 ^ 18 < fctMinted out)) /\
  (forall e : JsError,
      AnySize.calculateFctOutput p = Throw e ->
      e = RangeError "The number cannot be converted to a BigInt" /\
      AnySize.calldataGasOverride p = None /\
      number_le (AnySize.dataSize p) (Fin 160%Q) = false) /\
  (forall n : Z,
      AnySize.dataSize p = Fin (inject_Z n) ->
      (n - 160) * 40 <= 2 ^ 53 ->
      exists out : Output,
        AnySize.calculateFctOutput p = Ok out /\
        calculateFctOutput
          (mkParams n (AnySize.baseFee p) (AnySize.mintRate p)
             (AnySize.calldataGasOverride p) (AnySize.gasPrice p))
        = Ok out).
Proof.
  split; [| split].
  - intros out Hout.
    destruct (AnySize_calculateFctOutput_Ok p out Hout) as (_ & _ & _ & Hcost).
    rewrite Hcost. destruct (Z.gtb_spec (fctMinted out) 0) as [Hpos | Hle].
    + split; [lia |].
      rewrite Z.quot_small_iff by lia.
      rewrite Z.abs_mul, (Z.abs_eq (10 ^ 18)), (Z.abs_eq (fctMinted out))
        by lia.
      split; [intros; right; assumption | intros [? | ?]; [lia | assumption]].
    + split; [reflexivity |].
      split; [intros _; left; assumption | reflexivity].
  - intros e He. exact (AnySize_calculateFctOutput_Throw p e He).
  - intros n Hsize Hn. destruct p as [d bf mr override gp].
    cbn [AnySize.dataSize] in Hsize. subst d.
    cbn [AnySize.baseFee AnySize.mintRate AnySize.calldataGasOverride
         AnySize.gasPrice].
    rewrite (AnySize_calculateFctOutput_integer n bf mr override gp Hn).
    destruct (calculateFctOutput_spec (mkParams n bf mr override gp))
      as (out & Hout & _).
    exists out. split; exact Hout.
Qed.

(** C5: with non-negative base fee, mint rate and gas price, a larger size
    costs at least as much and mints at least as much. *)
Theorem calculateFctOutput_monotone
    (s1 s2 bf mr : Z) (override gp : option Z) :
  s1 < s2 ->
  0 <= bf -> 0 <= mr -> (forall g, gp = Some g -> 0 <= g) ->
  exists o1 o2 : Output,
    calculateFctOutput (mkParams s1 bf mr override gp) = Ok o1 /\
    calculateFctOutput (mkParams s2 bf mr override gp) = Ok o2 /\
    ethBurned o1 <= ethBurned o2 /\
    fctMinted o1 <= fctMinted o2.
Proof.
  intros Hlt Hbf Hmr Hgp.
  destruct (calculateFctOutput_spec (mkParams s1 bf mr override gp))
    as (o1 & Ho1 & Hcg1 & Htg1 & Hfm1 & Heb1 & _).
  destruct (calculateFctOutput_spec (mkParams s2 bf mr override gp))
    as (o2 & Ho2 & Hcg2 & Htg2 & Hfm2 & Heb2 & _).
  exists o1, o2. cbn in *.
  assert (Hcg : calldataGas o1 <= calldataGas o2).
  { rewrite Hcg1, Hcg2. destruct override; cbn; lia. }
  assert (Hprice : 0 <= default bf gp).
  { destruct gp as [g |]; cbn; [apply Hgp; reflexivity | assumption]. }
  repeat split; try assumption.
  - rewrite Heb1, Heb2, Htg1, Htg2.
    apply Z.mul_le_mono_nonneg_r; lia.
  - rewrite Hfm1, Hfm2.
    apply Z.mul_le_mono_nonneg_r; [assumption |].
    apply Z.mul_le_mono_nonneg_r; assumption.
Qed.

Lemma calculateFctOutput_monotone_witness :
  exists o1 o2 : Output,
    calculateFctOutput (mkParams 1024 7 3 None (Some 9)) = Ok o1 /\
    calculateFctOutput (mkParams 2048 7 3 None (Some 9)) = Ok o2 /\
    ethBurned o1 <= ethBurned o2 /\
    fctMinted o1 <= fctMinted o2.
Proof.
  apply (calculateFctOutput_monotone 1024 2048 7 3 None (Some 9)).
  - lia.
  - lia.
  - lia.
  - intros g Hg. injection Hg as <-. lia.
Defined.

(** C10: at or below the 160 bytes of overhead nothing is minted, the
    efficiency and the cost per FCT are zero, and the 21000 gas of the bare
    transaction are still paid for; nothing is thrown. *)
Theorem calculateFctOutput_overhead_only (s bf mr : Z) (gp : option Z) :
  s <= 160 ->
  calculateFctOutput (mkParams s bf mr None gp)
  = Ok {| calldataGas := 0;
          fctMinted := 0;
          efficiency := Fin 0;
          totalGas := 21000;
          ethBurned := 21000 * default bf gp;
          costPerFct := 0 |}.
Proof.
  intros Hs. unfold calculateFctOutput, overheadBytes, baseExecutionGas. cbn.
  replace (Z.max (s - 160) 0) with 0 by lia. cbn.
  destruct gp; reflexivity.
Qed.

Lemma calculateFctOutput_overhead_only_witness :
  calculateFctOutput (mkParams 160 12 5 None (Some 20))
  = Ok {| calldataGas := 0;
          fctMinted := 0;
          efficiency := Fin 0;
          totalGas := 21000;
          ethBurned := 21000 * 20;
          costPerFct := 0 |}.
Proof.
  apply (calculateFctOutput_overhead_only 160 12 5 (Some 20)). lia.
Defined.

End Calculator.

(** ** The rule engine *)

Section RuleEngine.

Lemma promise_all_Ok {A : Type} (vs : list A) : promise_all (map Ok vs) = Ok vs.
Proof.
  induction vs as [| v vs IH]; cbn; [reflexivity |].
  rewrite IH. reflexivity.
Qed.

Lemma forallb_is_true (bs : list bool) :
  forallb (fun r => Bool.eqb r true) bs = fold_right andb true bs.
Proof.
  induction bs as [| b bs IH]; cbn; [reflexivity |].
  rewrite IH. destruct b; reflexivity.
Qed.

(** C6: no rule, the engine passes; otherwise, when the rules resolve to
    the booleans [bs] on the context, the engine resolves to their
    conjunction. *)
Theorem evaluateRules_conjunction :
  (forall ctx : RuntimeContext, evaluateRules [] ctx = Ok true) /\
  (forall (rules : list Rule) (ctx : RuntimeContext) (bs : list bool),
      map (fun rule => rule ctx) rules = map Ok bs ->
      evaluateRules rules ctx = Ok (fold_right andb true bs)).
Proof.
  split; [reflexivity |].
  intros rules ctx bs Hbs. unfold evaluateRules.
  rewrite Hbs, promise_all_Ok. cbn. rewrite forallb_is_true.
  destruct rules as [| r rules]; [| reflexivity].
  destruct bs; [reflexivity | discriminate Hbs].
Qed.

Lemma evaluateRules_conjunction_witness :
  evaluateRules
    [budgetRule (Fin 1); scheduleRule [2; 3]; targetRule (Fin 5)]
    (mkContext 30 20 4 None (10 ^ 17) (10 ^ 18) 7 (Fin 3500))
  = Ok (fold_right andb true [true; false; true]).
Proof.
  apply (proj2 evaluateRules_conjunction
           [budgetRule (Fin 1); scheduleRule [2; 3]; targetRule (Fin 5)]
           (mkContext 30 20 4 None (10 ^ 17) (10 ^ 18) 7 (Fin 3500))
           [true; false; true]).
  vm_compute. reflexivity.
Defined.

(** The cost estimate of the rules never throws, and it is not negative when
    the gas price is not. *)
Lemma calculateCostPerFct_spec (ctx : RuntimeContext) :
  exists cost : Z,
    calculateCostPerFct ctx = Ok cost /\
    (0 <= currentGasPrice ctx -> 0 <= cost).
Proof.
  unfold calculateCostPerFct.
  destruct (calculateFctOutput_spec
              {| dataSize := 50 * 1024;
                 baseFee := currentBaseFee ctx;
                 mintRate := currentMintRate ctx;
                 calldataGasOverride := None;
                 gasPrice := Some (currentGasPrice ctx) |})
    as (out & -> & Hcg & Htg & _ & Heb & Hcost).
  cbn in *. exists (costPerFct out). split; [reflexivity |].
  intros Hgp. rewrite Hcost.
  destruct (Z.gtb_spec (fctMinted out) 0) as [Hpos | _]; [| lia].
  apply Z.quot_pos; [| assumption].
  rewrite Heb, Htg, Hcg. apply Z.mul_nonneg_nonneg; lia.
Qed.

(** C9, as the specification states it, fails: away from mainnet the rule
    fails even though a spot price is at hand and mining is cheaper. *)
Lemma arbitrageRule_counterexample :
  ~ (forall (isMainnet : bool) (ctx : RuntimeContext),
       arbitrageRule isMainnet ctx = Ok true <->
       exists spot cost : Z,
         dexSpotPrice ctx = Some spot /\
         calculateCostPerFct ctx = Ok cost /\ cost < spot).
Proof.
  intros H.
  destruct (H false (mkContext 1 1 1 (Some (2 * 10 ^ 18)) 0 0 0 (Fin 3500)))
    as [_ Hback].
  assert (Hrule : arbitrageRule false
                    (mkContext 1 1 1 (Some (2 * 10 ^ 18)) 0 0 0 (Fin 3500))
                  = Ok true).
  { apply Hback. exists (2 * 10 ^ 18), 1010286050156739811.
    repeat split. }
  vm_compute in Hrule. discriminate Hrule.
Qed.

(** C9, amended: with a non-negative gas price the rule passes exactly on
    mainnet, with a spot price at hand and a mining cost strictly below it;
    without a spot price it fails, on every network and context. *)
Theorem arbitrageRule_passes_iff (isMainnet : bool) (ctx : RuntimeContext) :
  (0 <= currentGasPrice ctx ->
   (arbitrageRule isMainnet ctx = Ok true <->
    isMainnet = true /\
    exists spot cost : Z,
      dexSpotPrice ctx = Some spot /\
      calculateCostPerFct ctx = Ok cost /\ cost < spot)) /\
  (dexSpotPrice ctx = None -> arbitrageRule isMainnet ctx = Ok false).
Proof.
  split.
  - intros Hgp.
    destruct (calculateCostPerFct_spec ctx) as (cost & Hcost & Hnonneg).
    specialize (Hnonneg Hgp).
    unfold arbitrageRule. rewrite Hcost.
    destruct (dexSpotPrice ctx) as [spot |]; cbn.
    + destruct (Z.eqb_spec spot 0) as [-> | Hspot]; cbn.
      * split; [discriminate |].
        intros (_ & spot' & cost' & [= <-] & [= <-] & Hlt). lia.
      * destruct isMainnet; cbn.
        -- destruct (Z.ltb_spec cost spot) as [Hlt | Hge]; cbn.
           ++ rewrite bigint_div_nonzero by assumption. cbn.
              split; [| reflexivity].
              intros _. split; [reflexivity |]. exists spot, cost. auto.
           ++ split; [discriminate |].
              intros (_ & spot' & cost' & [= <-] & [= <-] & Hlt). lia.
        -- split; [discriminate | intros [[=] _]].
    + split; [discriminate |].
      intros (_ & spot' & cost' & [=] & _).
  - intros Hnone. unfold arbitrageRule. rewrite Hnone. reflexivity.
Qed.

Lemma arbitrageRule_passes_iff_witness :
  arbitrageRule true (mkContext 1 1 1 (Some (2 * 10 ^ 18)) 0 0 0 (Fin 3500))
  = Ok true.
Proof.
  apply (proj1 (arbitrageRule_passes_iff true
           (mkContext 1 1 1 (Some (2 * 10 ^ 18)) 0 0 0 (Fin 3500)))).
  - cbn. lia.
  - split; [reflexivity |].
    exists (2 * 10 ^ 18), 1010286050156739811. repeat split.
Defined.

End RuleEngine.

(** ** The budget rule *)

Section BudgetRule.

Local Open Scope Q_scope.

Lemma is_double_1 : is_double 1.
Proof. exists 1%Z, 0%Z. repeat split; try lia. Qed.

(** The double just below 1.0 is 1 - 2^-53. *)
Lemma double_below_1 : double_below (9007199254740991 # 9007199254740992) 1.
Proof.
  split; [| split].
  - exists (2 ^ 53 - 1)%Z, (-53)%Z.
    split; [vm_compute; reflexivity |]. split; [lia |].
    vm_compute. reflexivity.
  - reflexivity.
  - intros d (k & j & Hk & Hj & Hd) Hlt.
    destruct (Z_le_gt_dec (-53) j) as [Hej | Hje].
    + rewrite Hd, (double_scaled k j (-53) Hej) in *.
      set (n := (k * 2 ^ (j - -53))%Z) in *.
      assert (Hn : (n < 2 ^ 53)%Z).
      { rewrite Zlt_Qlt.
        apply (Qmult_lt_r _ _ (2 ^ (-53))); [reflexivity |].
        apply Qlt_le_trans with 1; [exact Hlt |].
        vm_compute. discriminate. }
      assert (Hn' : (n <= 2 ^ 53 - 1)%Z) by lia.
      rewrite Zle_Qle in Hn'.
      apply Qle_trans with (inject_Z (2 ^ 53 - 1) * 2 ^ (-53)).
      * apply Qmult_le_r; [reflexivity | exact Hn'].
      * vm_compute. discriminate.
    + pose proof (double_small k j (-53) Hk ltac:(lia)) as Hs.
      rewrite <- Hd in Hs.
      apply Qlt_le_weak. apply Qlt_le_trans with (2 ^ 52 * 2 ^ (-53));
        [exact Hs | vm_compute; discriminate].
Qed.

(** The comparison of an amount of wei, read in ether as a double, with a
    double. *)
Lemma Number_formatEther_lt (wei : Z) (bound : Q) :
  is_double bound ->
  (number_lt (Number_formatEther wei) (Fin bound) = true ->
   inject_Z wei < bound * inject_Z (10 ^ 18)) /\
  (forall d : Q,
      is_double d -> inject_Z wei <= d * inject_Z (10 ^ 18) -> d < bound ->
      number_lt (Number_formatEther wei) (Fin bound) = true).
Proof.
  intros Hbound. unfold Number_formatEther.
  set (amount := inject_Z wei). set (unit := inject_Z (10 ^ 18)).
  assert (Hunit : 0 < unit) by reflexivity.
  assert (Hscale : amount / unit * unit == amount) by (field; lra).
  split.
  - intros H. apply to_double_lt_sound in H; [| exact Hbound].
    rewrite <- Hscale. apply Qmult_lt_r; assumption.
  - intros d Hd Hle Hlt.
    apply (to_double_lt_complete _ d); [exact Hd | | exact Hlt].
    apply (Qmult_le_r _ _ _ Hunit). rewrite Hscale. exact Hle.
Qed.

(** The same comparison, exactly: with [lo] the largest double below the
    bound, a non-negative amount compares below the bound if and only if it
    is below the midpoint of [lo] and the bound, or is that midpoint and the
    significand of [lo] is even. *)
Lemma Number_formatEther_lt_exact (wei : Z) (bound lo : Q) :
  is_double bound -> double_below lo bound -> (0 <= wei)%Z ->
  number_lt (Number_formatEther wei) (Fin bound) = true <->
  inject_Z wei / inject_Z (10 ^ 18) < (lo + bound) / 2 \/
  (inject_Z wei / inject_Z (10 ^ 18) == (lo + bound) / 2 /\
   Z.even (Qfloor (lo / (bound - lo))) = true).
Proof.
  intros Hbound Hlo Hwei. unfold Number_formatEther.
  set (amount := inject_Z wei). set (unit := inject_Z (10 ^ 18)).
  assert (Hunit : 0 < unit) by reflexivity.
  assert (Hscale : amount / unit * unit == amount) by (field; lra).
  assert (Hx0 : 0 <= amount / unit).
  { assert (Hs : 0 <= amount)
      by (unfold amount; change 0 with (inject_Z 0); rewrite <- Zle_Qle;
          exact Hwei).
    apply (Qmult_le_r _ _ _ Hunit). rewrite Hscale. lra. }
  pose proof Hlo as (Hlod & Hlt & Hmaxlo).
  set (x := amount / unit) in *. clearbody x.
  assert (Hmid : lo < (lo + bound) / 2 /\ (lo + bound) / 2 < bound).
  { assert (E : (lo + bound) / 2 == (lo + bound) * (1 # 2)) by reflexivity.
    rewrite E. split; lra. }
  destruct Hmid as [Hmid1 Hmid2].
  destruct (Qlt_le_dec lo x) as [Habove | Hbelow].
  - destruct (Qlt_le_dec x bound) as [Hin | Hout].
    + apply to_double_between; assumption.
    + split.
      * intros H. apply to_double_lt_sound in H; [| exact Hbound]. lra.
      * intros [H | [H _]]; lra.
  - split.
    + intros _. left. lra.
    + intros _. apply (to_double_lt_complete _ lo); assumption.
Qed.

(** At a budget of 1 ETH the rule passes up to 56 wei below one ether and
    fails from 55 wei below it on: the midpoint between 1 - 2^-53 and 1 is
    10^18 / 2^54 = 55.5... wei below one ether, and no amount of wei is the
    midpoint itself. *)
Lemma budgetRule_one_ether (ctx : RuntimeContext) :
  (0 <= sessionSpent ctx)%Z ->
  budgetRule (Fin 1) ctx = Ok true <-> (sessionSpent ctx <= 10 ^ 18 - 56)%Z.
Proof.
  intros Hspent. unfold budgetRule.
  assert (Hinj : forall b : bool, @Ok bool b = Ok true <-> b = true).
  { intros b. split; [intros [= ->]; reflexivity | intros ->; reflexivity]. }
  rewrite Hinj.
  rewrite (Number_formatEther_lt_exact _ 1 (9007199254740991 # 9007199254740992)
             is_double_1 double_below_1 Hspent).
  change (10 ^ 18)%Z with 1000000000000000000%Z.
  unfold Qlt, Qeq, Qdiv, Qmult, Qplus, Qinv, inject_Z.
  cbn [Qnum Qden]. cbn.
  generalize (sessionSpent ctx). intros spent. split.
  - intros [H | [H _]]; lia.
  - intros H. left. lia.
Qed.

(** The rule at a budget of 1 ETH: the midpoint between 1 - 2^-53 and 1 is
    55.5 wei below one ether. *)
Example budgetRule_fifty_six_wei_short :
  budgetRule (Fin 1) (mkContext 1 1 1 None (10 ^ 18 - 56) 0 0 (Fin 3500))
  = Ok true.
Proof. vm_compute. reflexivity. Qed.

Example budgetRule_fifty_five_wei_short :
  budgetRule (Fin 1) (mkContext 1 1 1 None (10 ^ 18 - 55) 0 0 (Fin 3500))
  = Ok false.
Proof. vm_compute. reflexivity. Qed.

(** C8, as the specification states it, fails: one wei below a budget of
    1 ETH the spend reads as the double 1.0 and the rule fails. *)
Lemma budgetRule_counterexample :
  ~ (forall (maxEth : Q) (ctx : RuntimeContext),
       is_double maxEth -> (0 <= sessionSpent ctx)%Z ->
       (budgetRule (Fin maxEth) ctx = Ok true <->
        inject_Z (sessionSpent ctx) < maxEth * inject_Z (10 ^ 18))).
Proof.
  intros H.
  destruct (H 1 (mkContext 1 1 1 None (10 ^ 18 - 1) 0 0 (Fin 3500))
              is_double_1 ltac:(cbn; lia)) as [_ Hback].
  assert (Hlt : inject_Z (10 ^ 18 - 1) < 1 * inject_Z (10 ^ 18))
    by (vm_compute; reflexivity).
  specialize (Hback Hlt). vm_compute in Hback. discriminate Hback.
Qed.

(** C8, amended: the rule compares the spend, converted to ETH and rounded
    to the nearest double (ties to even), with the budget, and always
    resolves to a boolean.  If it passes, the spend is strictly below the
    budget; at the budget and above it fails; and it passes whenever some
    double lies between the spend in ETH and the budget.  Exactly: with [lo]
    the largest double below the budget and a non-negative spend, the rule
    passes if and only if the spend in ETH is below the midpoint of [lo] and
    the budget, or is that midpoint and the significand of [lo] is even. *)
Theorem budgetRule_passes (maxEth : Q) (ctx : RuntimeContext) :
  is_double maxEth ->
  (exists b : bool, budgetRule (Fin maxEth) ctx = Ok b) /\
  (budgetRule (Fin maxEth) ctx = Ok true ->
   inject_Z (sessionSpent ctx) < maxEth * inject_Z (10 ^ 18)) /\
  (maxEth * inject_Z (10 ^ 18) <= inject_Z (sessionSpent ctx) ->
   budgetRule (Fin maxEth) ctx = Ok false) /\
  (forall d : Q,
      is_double d ->
      inject_Z (sessionSpent ctx) <= d * inject_Z (10 ^ 18) -> d < maxEth ->
      budgetRule (Fin maxEth) ctx = Ok true) /\
  (forall lo : Q,
      double_below lo maxEth -> (0 <= sessionSpent ctx)%Z ->
      let spentEth := inject_Z (sessionSpent ctx) / inject_Z (10 ^ 18) in
      budgetRule (Fin maxEth) ctx = Ok true <->
      spentEth < (lo + maxEth) / 2 \/
      (spentEth == (lo + maxEth) / 2 /\
       Z.even (Qfloor (lo / (maxEth - lo))) = true)).
Proof.
  intros Hmax. unfold budgetRule, Number_formatEther.
  set (spent := inject_Z (sessionSpent ctx)).
  set (wei := inject_Z (10 ^ 18)).
  assert (Hwei : 0 < wei) by reflexivity.
  assert (Hscale : spent / wei * wei == spent) by (field; lra).
  assert (Hsound : number_lt (to_double (spent / wei)) (Fin maxEth) = true ->
                   spent < maxEth * wei).
  { intros H. apply to_double_lt_sound in H; [| exact Hmax].
    rewrite <- Hscale. apply Qmult_lt_r; assumption. }
  split; [| split; [| split; [| split]]].
  - eexists. reflexivity.
  - intros [= H]. exact (Hsound H).
  - intros Hover.
    destruct (number_lt (to_double (spent / wei)) (Fin maxEth));
      [| reflexivity].
    specialize (Hsound eq_refl). lra.
  - intros d Hd Hle Hlt. f_equal.
    apply (to_double_lt_complete _ d); [exact Hd | | exact Hlt].
    apply (Qmult_le_r _ _ _ Hwei). rewrite Hscale. exact Hle.
  - intros lo Hlo Hspent. cbv zeta.
    assert (Hx0 : 0 <= spent / wei).
    { assert (Hs : 0 <= spent)
        by (unfold spent; change 0 with (inject_Z 0); rewrite <- Zle_Qle;
            exact Hspent).
      apply (Qmult_le_r _ _ _ Hwei). rewrite Hscale. lra. }
    assert (Hinj : forall b : bool, @Ok bool b = Ok true <-> b = true).
    { intros b. split; [intros [= ->]; reflexivity | intros ->; reflexivity]. }
    rewrite Hinj.
    destruct Hlo as (Hlod & Hlt & Hmaxlo).
    set (x := spent / wei) in *. clearbody x.
    assert (Hmid : lo < (lo + maxEth) / 2 /\ (lo + maxEth) / 2 < maxEth).
    { assert (E : (lo + maxEth) / 2 == (lo + maxEth) * (1 # 2))
        by reflexivity.
      rewrite E. split; lra. }
    destruct Hmid as [Hmid1 Hmid2].
    destruct (Qlt_le_dec lo x) as [Habove | Hbelow].
    + destruct (Qlt_le_dec x maxEth) as [Hin | Hout].
      * apply to_double_between;
          [exact Hmax | split; [| split]; assumption | exact Hx0
          | exact Habove | exact Hin].
      * split.
        -- intros H. apply to_double_lt_sound in H; [| exact Hmax]. lra.
        -- intros [H | [H _]]; lra.
    + split.
      * intros _. left. lra.
      * intros _.
        apply (to_double_lt_complete _ lo); assumption.
Qed.

Lemma budgetRule_passes_witness :
  budgetRule (Fin 1) (mkContext 1 1 1 None (10 ^ 18 - 56) 0 0 (Fin 3500))
  = Ok true /\
  budgetRule (Fin 1) (mkContext 1 1 1 None (10 ^ 18) 0 0 (Fin 3500))
  = Ok false.
Proof.
  split.
  - apply (proj2 (proj2 (proj2 (proj2
             (budgetRule_passes 1
                (mkContext 1 1 1 None (10 ^ 18 - 56) 0 0 (Fin 3500))
                is_double_1))))
             (9007199254740991 # 9007199254740992) double_below_1).
    + cbn. lia.
    + left. vm_compute. reflexivity.
  - apply (proj1 (proj2 (proj2
             (budgetRule_passes 1
                (mkContext 1 1 1 None (10 ^ 18) 0 0 (Fin 3500))
                is_double_1)))).
    vm_compute. discriminate.
Defined.

End BudgetRule.

(** ** The size optimizer *)

Section SizeOptimizer.

Variable ctx : RuntimeContext.

(** The cost oracle of the optimizer is [projectedCost]. *)
Lemma calculateFctOutput_projectedCost (size : Z) :
  exists out : Output,
    calculateFctOutput
      {| dataSize := size;
         baseFee := currentBaseFee ctx;
         mintRate := currentMintRate ctx;
         calldataGasOverride := None;
         gasPrice := Some (currentGasPrice ctx) |} = Ok out /\
    ethBurned out = projectedCost ctx size.
Proof.
  destruct (calculateFctOutput_spec
              {| dataSize := size;
                 baseFee := currentBaseFee ctx;
                 mintRate := currentMintRate ctx;
                 calldataGasOverride := None;
                 gasPrice := Some (currentGasPrice ctx) |})
    as (out & Hout & Hcg & Htg & _ & Heb & _).
  exists out. split; [exact Hout |].
  cbn in *. unfold projectedCost. rewrite Heb, Htg, Hcg. reflexivity.
Qed.

(** One turn of the [while] loop. *)
Lemma budget_search_loop_step (n : nat) (budget low high optimal : Z) :
  budget_search_loop (S n) ctx budget low high optimal
  = if low <=? high then
      let mid := (low + high) / 2 in
      if projectedCost ctx mid <=? budget
      then budget_search_loop n ctx budget (mid + 1) high mid
      else budget_search_loop n ctx budget low (mid - 1) optimal
    else Ok optimal.
Proof.
  cbn [budget_search_loop].
  destruct (low <=? high); [| reflexivity].
  destruct (calculateFctOutput_projectedCost ((low + high) / 2))
    as (out & -> & <-).
  reflexivity.
Qed.

(** The bound on the iterations is never reached before the loop condition
    fails: [budget_search] satisfies the equation of the [while] loop. *)
Lemma budget_search_loop_enough (n m : nat) (budget : Z) :
  forall low high optimal : Z,
    (Z.to_nat (high - low + 1) <= n)%nat ->
    (Z.to_nat (high - low + 1) <= m)%nat ->
    budget_search_loop n ctx budget low high optimal
    = budget_search_loop m ctx budget low high optimal.
Proof.
  revert m. induction n as [| n IH]; intros m low high optimal Hn Hm.
  - destruct m as [| m]; [reflexivity |].
    rewrite budget_search_loop_step.
    destruct (Z.leb_spec low high); [lia | reflexivity].
  - destruct m as [| m].
    + rewrite budget_search_loop_step.
      destruct (Z.leb_spec low high); [lia | reflexivity].
    + rewrite !budget_search_loop_step.
      destruct (Z.leb_spec low high) as [Hle | Hgt]; [| reflexivity].
      cbn zeta.
      assert (Hmid : low <= (low + high) / 2 <= high).
      { split; [apply Z.div_le_lower_bound | apply Z.div_le_upper_bound]; lia. }
      destruct (projectedCost ctx ((low + high) / 2) <=? budget);
        apply IH; lia.
Qed.

Lemma budget_search_unfold (budget low high optimal : Z) :
  budget_search ctx budget low high optimal
  = if low <=? high then
      let mid := (low + high) / 2 in
      if projectedCost ctx mid <=? budget
      then budget_search ctx budget (mid + 1) high mid
      else budget_search ctx budget low (mid - 1) optimal
    else Ok optimal.
Proof.
  unfold budget_search.
  destruct (Z.leb_spec low high) as [Hle | Hgt].
  - assert (Hmid : low <= (low + high) / 2 <= high).
    { split; [apply Z.div_le_lower_bound | apply Z.div_le_upper_bound]; lia. }
    destruct (Z.to_nat (high - low + 1)) as [| n] eqn:Hn; [lia |].
    rewrite budget_search_loop_step.
    destruct (Z.leb_spec low high); [| lia]. cbn zeta.
    destruct (projectedCost ctx ((low + high) / 2) <=? budget);
      apply budget_search_loop_enough; lia.
  - destruct (Z.to_nat (high - low + 1)); [reflexivity |].
    rewrite budget_search_loop_step.
    destruct (Z.leb_spec low high); [lia | reflexivity].
Qed.

(** What the search returns: either it never found a size that fits and
    returns the initial [optimal], or it returns a size of the range that
    fits and whose successor does not (unless it is [high] itself). *)
Lemma budget_search_loop_post (n : nat) (budget : Z) :
  forall low high optimal : Z,
    (Z.to_nat (high - low + 1) <= n)%nat ->
    exists r : Z,
      budget_search_loop n ctx budget low high optimal = Ok r /\
      ((r = optimal /\ (high < low \/ budget < projectedCost ctx low)) \/
       (low <= r <= high /\ projectedCost ctx r <= budget /\
        (r = high \/ budget < projectedCost ctx (r + 1)))).
Proof.
  induction n as [| n IH]; intros low high optimal Hn.
  - exists optimal. split; [reflexivity |]. left. split; [reflexivity |]. lia.
  - rewrite budget_search_loop_step.
    destruct (Z.leb_spec low high) as [Hle | Hgt].
    2: { exists optimal. split; [reflexivity |]. left. split; [reflexivity |]. lia. }
    cbn zeta.
    assert (Hmid : low <= (low + high) / 2 <= high).
    { split; [apply Z.div_le_lower_bound | apply Z.div_le_upper_bound]; lia. }
    set (mid := (low + high) / 2) in *.
    destruct (Z.leb_spec (projectedCost ctx mid) budget) as [Hfit | Hover].
    + destruct (IH (mid + 1) high mid) as (r & Hr & Hpost); [lia |].
      exists r. split; [exact Hr |]. right.
      destruct Hpost as [(-> & Hstop) | (Hrange & Hrfit & Htight)].
      * lia.
      * lia.
    + destruct (IH low (mid - 1) optimal) as (r & Hr & Hpost); [lia |].
      exists r. split; [exact Hr |].
      destruct Hpost as [(-> & Hstop) | (Hrange & Hrfit & Htight)].
      * left. split; [reflexivity |]. right.
        destruct Hstop as [Hempty | Hlow]; [| exact Hlow].
        replace low with mid by lia. exact Hover.
      * right. split; [lia |]. split; [exact Hrfit |].
        destruct Htight as [-> | Htight]; [| right; exact Htight].
        right. replace (mid - 1 + 1) with mid by lia. exact Hover.
Qed.

(** The budget branch returns the result of the search. *)
Lemma getOptimalDataSize_budget_branch
    (strategy : MiningStrategy) (maxKb budget : Z) :
  0 < budget -> budget < projectedCost ctx (maxKb * 1024) ->
  getOptimalDataSize strategy ctx maxKb (Some budget)
  = budget_search ctx budget 1024 (maxKb * 1024) 1024.
Proof.
  intros Hpos Hover. unfold getOptimalDataSize. cbn [truthy_bigint].
  destruct (Z.eqb_spec budget 0); [lia |].
  destruct (Z.gtb_spec budget 0); [| lia]. cbn [negb andb].
  destruct (calculateFctOutput_projectedCost (maxKb * 1024))
    as (out & -> & Heb).
  cbn [mbind result_bind]. rewrite Heb.
  destruct (Z.gtb_spec (projectedCost ctx (maxKb * 1024)) budget); [| lia].
  change (1 * 1024) with 1024.
  destruct (budget_search ctx budget 1024 (maxKb * 1024) 1024); reflexivity.
Qed.

(** Without a binding budget the strategy decides. *)
Lemma getOptimalDataSize_strategy_branch
    (strategy : MiningStrategy) (maxKb : Z) (remainingBudget : option Z) :
  budgetBinds ctx maxKb remainingBudget = false ->
  getOptimalDataSize strategy ctx maxKb remainingBudget
  = match strategy with
    | AUTO => Ok (maxKb * 1024)
    | ARBITRAGE =>
        if negb (truthy_bigint (dexSpotPrice ctx)) then Ok 0
        else
          miningCost ← calculateCostPerFct ctx;
          match dexSpotPrice ctx with
          | Some spot => Ok (if miningCost <? spot then maxKb * 1024 else 0)
          | None => Ok 0
          end
    end.
Proof.
  intros Hfree. unfold getOptimalDataSize.
  destruct remainingBudget as [budget |]; [| reflexivity].
  cbn [truthy_bigint].
  destruct (Z.eqb_spec budget 0); [reflexivity |].
  destruct (Z.gtb_spec budget 0); [| reflexivity]. cbn [negb andb].
  destruct (calculateFctOutput_projectedCost (maxKb * 1024))
    as (out & -> & Heb).
  cbn [mbind result_bind]. rewrite Heb.
  destruct (Z.gtb_spec (projectedCost ctx (maxKb * 1024)) budget) as [Hover |];
    [| reflexivity].
  cbn in Hfree. apply andb_false_iff in Hfree. lia.
Qed.

(** The whole of the budget branch: the optimizer returns a size that fits
    the budget tightly, unless not even one kilobyte fits (or the maximal
    size is below one kilobyte): then it returns one kilobyte. *)
Lemma getOptimalDataSize_budget_post
    (strategy : MiningStrategy) (maxKb budget : Z) :
  0 < budget -> budget < projectedCost ctx (maxKb * 1024) ->
  exists size : Z,
    getOptimalDataSize strategy ctx maxKb (Some budget) = Ok size /\
    ((size = 1024 /\
      (maxKb * 1024 < 1024 \/ budget < projectedCost ctx 1024)) \/
     (1024 <= size < maxKb * 1024 /\
      projectedCost ctx size <= budget < projectedCost ctx (size + 1))).
Proof.
  intros Hpos Hover.
  rewrite getOptimalDataSize_budget_branch by assumption.
  destruct (budget_search_loop_post
              (Z.to_nat (maxKb * 1024 - 1024 + 1)) budget
              1024 (maxKb * 1024) 1024) as (r & Hr & Hpost); [lia |].
  exists r. split; [exact Hr |].
  destruct Hpost as [(-> & Hstop) | (Hrange & Hfit & Htight)].
  - left. split; [reflexivity | exact Hstop].
  - right. destruct Htight as [-> | Htight]; [lia |].
    assert (r <> maxKb * 1024) by (intros ->; lia). lia.
Qed.

(** When one kilobyte fits the budget, the size returned by the budget
    branch fits it too, and no size one byte larger does. *)
Lemma getOptimalDataSize_fits_when_floor_fits
    (strategy : MiningStrategy) (maxKb budget : Z) :
  0 < budget -> budget < projectedCost ctx (maxKb * 1024) ->
  projectedCost ctx 1024 <= budget ->
  exists size : Z,
    getOptimalDataSize strategy ctx maxKb (Some budget) = Ok size /\
    projectedCost ctx size <= budget < projectedCost ctx (size + 1).
Proof.
  intros Hpos Hover Hfloor.
  destruct (getOptimalDataSize_budget_post strategy maxKb budget Hpos Hover)
    as (size & Hsize & [(-> & Hstop) | (_ & Hfit)]).
  - exfalso. destruct Hstop as [Hsmall | Hno]; [| lia].
    (* a maximal size below one kilobyte costs no more than one kilobyte *)
    unfold projectedCost in *.
    assert (Hgp : 0 < currentGasPrice ctx) by nia.
    assert (Z.max (maxKb * 1024 - 160) 0 <= Z.max (1024 - 160) 0) by lia.
    nia.
  - exists size. split; assumption.
Qed.

End SizeOptimizer.

(** C1: the optimizer on a budget that one kilobyte already exceeds.  With a
    gas price of 1 gwei and 10^13 wei left of the budget, the cost at the
    maximal size (100 KB) exceeds the budget, the search finds no size that
    fits, and the optimizer returns its initial candidate of 1024 bytes,
    whose projected cost of 55560 gwei is above the budget. *)
Theorem getOptimalDataSize_exceeds_budget :
  let ctx := mkContext (10 ^ 9) (10 ^ 9) 100000 None 0 0 0 (Fin 3500) in
  let remainingBudget := 10 ^ 13 in
  budgetBinds ctx 100 (Some remainingBudget) = true /\
  getOptimalDataSize AUTO ctx 100 (Some remainingBudget) = Ok 1024 /\
  (exists out : Output,
      calculateFctOutput
        {| dataSize := 1024;
           baseFee := currentBaseFee ctx;
           mintRate := currentMintRate ctx;
           calldataGasOverride := None;
           gasPrice := Some (currentGasPrice ctx) |} = Ok out /\
      ethBurned out = 55560 * 10 ^ 9 /\
      remainingBudget < ethBurned out).
Proof.
  cbv zeta. split; [reflexivity |]. split; [reflexivity |].
  eexists. split; [vm_compute; reflexivity |]. split; reflexivity.
Qed.

(** C2, as the specification states it, fails: a binding budget is served
    before the strategy is looked at. *)
Lemma getOptimalDataSize_arbitrage_counterexample :
  ~ (forall (ctx : RuntimeContext) (maxKb : Z) (remainingBudget : option Z),
       dexSpotPrice ctx = None ->
       getOptimalDataSize ARBITRAGE ctx maxKb remainingBudget = Ok 0).
Proof.
  intros H.
  specialize (H (mkContext 1 1 1 None 0 0 0 (Fin 3500)) 100 (Some 100000)
                eq_refl).
  vm_compute in H. discriminate H.
Qed.

(** C2, amended: under the arbitrage strategy and without a spot price the
    optimizer returns 0 exactly when the budget does not bind (none is
    supplied, or it is not positive, or the cost at the maximal size stays
    within it); when the budget binds it returns the size found by the
    search, which is at least one kilobyte. *)
Theorem getOptimalDataSize_arbitrage_no_spot
    (ctx : RuntimeContext) (maxKb : Z) (remainingBudget : option Z) :
  dexSpotPrice ctx = None ->
  exists size : Z,
    getOptimalDataSize ARBITRAGE ctx maxKb remainingBudget = Ok size /\
    (size = 0 <-> budgetBinds ctx maxKb remainingBudget = false) /\
    (budgetBinds ctx maxKb remainingBudget = true -> 1024 <= size).
Proof.
  intros Hspot.
  destruct (budgetBinds ctx maxKb remainingBudget) eqn:Hbinds.
  - destruct remainingBudget as [budget |]; [| discriminate Hbinds].
    cbn in Hbinds. apply andb_true_iff in Hbinds as [Hpos Hover].
    apply Z.ltb_lt in Hpos, Hover.
    destruct (getOptimalDataSize_budget_post ctx ARBITRAGE maxKb budget
                Hpos Hover) as (size & Hsize & Hpost).
    exists size. split; [exact Hsize |].
    assert (1024 <= size) by (destruct Hpost as [[-> _] | [? _]]; lia).
    repeat split; [lia | discriminate | lia].
  - exists 0. split.
    + rewrite getOptimalDataSize_strategy_branch by exact Hbinds.
      rewrite Hspot. reflexivity.
    + repeat split; discriminate.
Qed.

Lemma getOptimalDataSize_arbitrage_no_spot_witness :
  exists size : Z,
    getOptimalDataSize ARBITRAGE (mkContext 1 1 1 None 0 0 0 (Fin 3500))
      100 (Some 5000000) = Ok size /\
    (size = 0 <->
     budgetBinds (mkContext 1 1 1 None 0 0 0 (Fin 3500)) 100 (Some 5000000)
     = false) /\
    (budgetBinds (mkContext 1 1 1 None 0 0 0 (Fin 3500)) 100 (Some 5000000)
     = true -> 1024 <= size).
Proof.
  apply (getOptimalDataSize_arbitrage_no_spot
           (mkContext 1 1 1 None 0 0 0 (Fin 3500)) 100 (Some 5000000)).
  reflexivity.
Defined.

(** ** The retry loop of the mining engine *)

Section Retry.

Variable attemptMining :
  MiningEngine.MiningConfig -> Z -> result MiningEngine.MiningResult.

(** The bound on the iterations is reached only when the loop condition
    fails: any larger bound gives the same execution. *)
Lemma mine_loop_enough (n m : nat) (config : MiningEngine.MiningConfig)
    (maxRetries : Z) :
  forall (attempt : Z) (lastError : option JsError),
    (Z.to_nat (maxRetries - attempt) <= n)%nat ->
    (Z.to_nat (maxRetries - attempt) <= m)%nat ->
    MiningEngine.mine_loop attemptMining n config maxRetries attempt lastError
    = MiningEngine.mine_loop attemptMining m config maxRetries attempt lastError.
Proof.
  revert m. induction n as [| n IH]; intros m attempt lastError Hn Hm.
  - destruct m as [| m]; [reflexivity |]. cbn.
    destruct (Z.ltb_spec attempt maxRetries); [lia | reflexivity].
  - destruct m as [| m]; cbn.
    + destruct (Z.ltb_spec attempt maxRetries); [lia | reflexivity].
    + destruct (Z.ltb_spec attempt maxRetries); [| reflexivity].
      destruct (attemptMining config attempt) as [r | e]; [reflexivity |].
      rewrite (IH m (attempt + 1) (Some e)) by lia. reflexivity.
Qed.

(** Whatever the attempts do, [mine] makes at most [maxRetries] of them. *)
Lemma mine_loop_attempts (n : nat) (config : MiningEngine.MiningConfig)
    (maxRetries : Z) :
  forall (attempt : Z) (lastError : option JsError),
    (length (List.filter isAttempt
               (fst (MiningEngine.mine_loop attemptMining n config
                       maxRetries attempt lastError))) <= n)%nat.
Proof.
  induction n as [| n IH]; intros attempt lastError; cbn; [lia |].
  destruct (attempt <? maxRetries); cbn; [| lia].
  destruct (attemptMining config attempt) as [r | e]; cbn; [lia |].
  destruct (attempt <? maxRetries - 1);
    specialize (IH (attempt + 1) (Some e));
    destruct (MiningEngine.mine_loop attemptMining n config maxRetries
                (attempt + 1) (Some e)) as [events r];
    cbn in *; lia.
Qed.

Lemma mine_attempts_bounded (config : MiningEngine.MiningConfig) :
  (length (List.filter isAttempt
             (fst (MiningEngine.mine attemptMining config)))
   <= Z.to_nat (default 3%Z (MiningEngine.maxRetries config)))%nat.
Proof. apply mine_loop_attempts. Qed.

(** C7: with the default retry count and every attempt failing, [mine]
    makes the attempts 0, 1 and 2 and no other, sleeps
    min (1000 * 2^0, 30000) = 1000 ms and min (1000 * 2^1, 30000) = 2000 ms
    between them (3000 ms in all, and no sleep after the last attempt), and
    throws the error of the last attempt. *)
Theorem mine_three_failures (config : MiningEngine.MiningConfig)
    (errors : Z -> JsError) :
  MiningEngine.maxRetries config = None ->
  (forall attempt : Z, attemptMining config attempt = Throw (errors attempt)) ->
  MiningEngine.mine attemptMining config
  = ([MiningEngine.AttemptMining 0;
      MiningEngine.Sleep (Z.min (1000 * 2 ^ 0) 30000);
      MiningEngine.AttemptMining 1;
      MiningEngine.Sleep (Z.min (1000 * 2 ^ 1) 30000);
      MiningEngine.AttemptMining 2],
     Throw (errors 2)) /\
  Z.min (1000 * 2 ^ 0) 30000 = 1000 /\
  Z.min (1000 * 2 ^ 1) 30000 = 2000 /\
  Z.min (1000 * 2 ^ 0) 30000 + Z.min (1000 * 2 ^ 1) 30000 = 3000.
Proof.
  intros Hdefault Hfail. unfold MiningEngine.mine. rewrite Hdefault.
  change (Z.to_nat (default 3 None)) with 3%nat.
  change (default 3 None) with 3.
  cbn [MiningEngine.mine_loop].
  (* attempt 0 *)
  change (0 <? 3) with true. change (0 <? 3 - 1) with true. cbv iota.
  rewrite (Hfail 0). change (0 + 1) with 1.
  (* attempt 1 *)
  change (1 <? 3) with true. change (1 <? 3 - 1) with true. cbv iota.
  rewrite (Hfail 1). change (1 + 1) with 2.
  (* attempt 2, the last one: no sleep *)
  change (2 <? 3) with true. change (2 <? 3 - 1) with false. cbv iota.
  rewrite (Hfail 2).
  repeat split.
Qed.

End Retry.

Lemma mine_three_failures_witness :
  MiningEngine.mine
    (fun _ attempt => Throw (Error (toString attempt)))
    (MiningEngine.mkConfig 51200 None None (Some true))
  = ([MiningEngine.AttemptMining 0;
      MiningEngine.Sleep (Z.min (1000 * 2 ^ 0) 30000);
      MiningEngine.AttemptMining 1;
      MiningEngine.Sleep (Z.min (1000 * 2 ^ 1) 30000);
      MiningEngine.AttemptMining 2],
     Throw (Error "2")) /\
  Z.min (1000 * 2 ^ 0) 30000 = 1000 /\
  Z.min (1000 * 2 ^ 1) 30000 = 2000 /\
  Z.min (1000 * 2 ^ 0) 30000 + Z.min (1000 * 2 ^ 1) 30000 = 3000.
Proof.
  apply (mine_three_failures
           (fun _ attempt => Throw (Error (toString attempt)))
           (MiningEngine.mkConfig 51200 None None (Some true))
           (fun attempt => Error (toString attempt))).
  - reflexivity.
  - intros attempt. reflexivity.
Defined.

(** ** The recovery state of the control loop *)

Section Recovery.

Lemma string_length_app (s t : string) :
  String.length (s +:+ t) = (String.length s + String.length t)%nat.
Proof.
  induction s as [| c s IH]; simpl; [reflexivity | f_equal; exact IH].
Qed.

Lemma string_app_inj_suffix (s1 s2 t1 t2 : string) :
  String.length t1 = String.length t2 ->
  s1 +:+ t1 = s2 +:+ t2 -> s1 = s2 /\ t1 = t2.
Proof.
  revert s2. induction s1 as [| c s1 IH]; intros [| d s2] Hlen Heq.
  - split; [reflexivity | exact Heq].
  - apply (f_equal String.length) in Heq.
    rewrite !string_length_app in Heq. simpl in Heq. lia.
  - apply (f_equal String.length) in Heq.
    rewrite !string_length_app in Heq. simpl in Heq. lia.
  - simpl in Heq. injection Heq as <- Heq. destruct (IH s2 Hlen Heq) as [<- <-].
    split; reflexivity.
Qed.

(** The keys under which the sessions save their counters are distinct. *)
Lemma spentKey_inj (a b : Z) : AutoMiner.spentKey a = AutoMiner.spentKey b -> a = b.
Proof.
  unfold AutoMiner.spentKey, toString. intros H.
  apply (inj (String.append "session_")) in H.
  apply string_app_inj_suffix in H as [H _]; [| reflexivity].
  exact (inj pretty _ _ H).
Qed.

Lemma minedKey_inj (a b : Z) : AutoMiner.minedKey a = AutoMiner.minedKey b -> a = b.
Proof.
  unfold AutoMiner.minedKey, toString. intros H.
  apply (inj (String.append "session_")) in H.
  apply string_app_inj_suffix in H as [H _]; [| reflexivity].
  exact (inj pretty _ _ H).
Qed.

Lemma spentKey_minedKey (a b : Z) : AutoMiner.spentKey a <> AutoMiner.minedKey b.
Proof.
  unfold AutoMiner.spentKey, AutoMiner.minedKey, toString. intros H.
  apply (inj (String.append "session_")) in H.
  apply string_app_inj_suffix in H as [_ H]; [| reflexivity].
  discriminate H.
Qed.

Lemma getRuntimeState_save (key key' value : string) (now : Z)
    (data : MiningDatabase.DatabaseData) :
  MiningDatabase.getRuntimeState key'
    (MiningDatabase.saveRuntimeState key value now data)
  = if decide (key = key') then Some value
    else MiningDatabase.getRuntimeState key' data.
Proof.
  unfold MiningDatabase.getRuntimeState, MiningDatabase.saveRuntimeState. cbn.
  rewrite lookup_insert. destruct (decide (key = key')); reflexivity.
Qed.

Lemma updateSessionTotals_keeps (sessionId : Z)
    (data data' : MiningDatabase.DatabaseData) :
  MiningDatabase.updateSessionTotals sessionId data = Ok data' ->
  MiningDatabase.runtimeState data' = MiningDatabase.runtimeState data /\
  MiningDatabase.nextSessionId data' = MiningDatabase.nextSessionId data.
Proof.
  unfold MiningDatabase.updateSessionTotals.
  destruct (existsb _ _).
  - destruct (MiningDatabase.sum_bigint MiningDatabase.ethBurnedWei _ 0);
      cbn; [| discriminate].
    destruct (MiningDatabase.sum_bigint MiningDatabase.fctMintedWei _ 0);
      cbn; [| discriminate].
    intros [= <-]. split; reflexivity.
  - intros [= <-]. split; reflexivity.
Qed.

Lemma saveTransaction_keeps (tx : MiningEngine.MiningResult)
    (sessionId now : Z) (data data' : MiningDatabase.DatabaseData) :
  MiningDatabase.saveTransaction tx sessionId now data = Ok data' ->
  MiningDatabase.runtimeState data' = MiningDatabase.runtimeState data /\
  MiningDatabase.nextSessionId data' = MiningDatabase.nextSessionId data.
Proof.
  unfold MiningDatabase.saveTransaction. intros H.
  apply updateSessionTotals_keeps in H. exact H.
Qed.

(** On a store whose recovery state is fresh, [start] finds nothing under the
    keys of the session it has just created: the counters keep the values
    they had, and the invariant holds for the new session. *)
Lemma start_restores_nothing (now : Z) (this : AutoMiner.AutoMiner) :
  recoveryStateFresh (AutoMiner.db this) ->
  exists m : AutoMiner.AutoMiner,
    AutoMiner.start now this = Ok m /\
    AutoMiner.sessionId m = MiningDatabase.nextSessionId (AutoMiner.db this) /\
    AutoMiner.sessionSpent m = AutoMiner.sessionSpent this /\
    AutoMiner.sessionMined m = AutoMiner.sessionMined this /\
    minerInv m.
Proof.
  intros Hfresh. unfold AutoMiner.start, MiningDatabase.createSession.
  destruct (Hfresh (MiningDatabase.nextSessionId (AutoMiner.db this)))
    as [Hspent Hmined]; [lia |].
  unfold MiningDatabase.getRuntimeState in *. cbn.
  destruct (MiningDatabase.runtimeState (AutoMiner.db this)
              !! AutoMiner.spentKey _); [discriminate |].
  destruct (MiningDatabase.runtimeState (AutoMiner.db this)
              !! AutoMiner.minedKey _); [discriminate |].
  cbn. eexists. split; [reflexivity |]. cbn.
  do 3 (split; [reflexivity |]).
  split; cbn; [lia |].
  intros n Hn. cbn in Hn. apply (Hfresh n). lia.
Qed.

Lemma recordResult_inv (r : MiningEngine.MiningResult) (now : Z)
    (m m' : AutoMiner.AutoMiner) :
  minerInv m -> AutoMiner.recordResult r now m = Ok m' -> minerInv m'.
Proof.
  intros [Hid Hfresh]. unfold AutoMiner.recordResult.
  destruct (MiningDatabase.saveTransaction r (AutoMiner.sessionId m) now
              (AutoMiner.db m)) as [data |] eqn:Hsave; cbn; [| discriminate].
  apply saveTransaction_keeps in Hsave as [Hstate Hnext].
  intros [= <-]. split; cbn; [lia |].
  intros n Hn. cbn in Hn. rewrite !getRuntimeState_save.
  assert (Hne : AutoMiner.sessionId m <> n) by lia.
  assert (Hold : MiningDatabase.getRuntimeState (AutoMiner.spentKey n) data = None /\
                 MiningDatabase.getRuntimeState (AutoMiner.minedKey n) data = None).
  { unfold MiningDatabase.getRuntimeState. rewrite Hstate.
    apply Hfresh. lia. }
  destruct Hold as [Hs Hm].
  split.
  - destruct (decide (AutoMiner.minedKey _ = AutoMiner.spentKey n)) as [E |].
    { symmetry in E. destruct (spentKey_minedKey _ _ E). }
    destruct (decide (AutoMiner.spentKey _ = AutoMiner.spentKey n)) as [E |].
    { destruct (Hne (spentKey_inj _ _ E)). }
    exact Hs.
  - destruct (decide (AutoMiner.minedKey _ = AutoMiner.minedKey n)) as [E |].
    { destruct (Hne (minedKey_inj _ _ E)). }
    destruct (decide (AutoMiner.spentKey _ = AutoMiner.minedKey n)) as [E |].
    { destruct (spentKey_minedKey _ _ E). }
    exact Hm.
Qed.

Lemma initializeEmpty_fresh : recoveryStateFresh MiningDatabase.initializeEmpty.
Proof. intros n _. split; reflexivity. Qed.

Lemma reachable_inv (m : AutoMiner.AutoMiner) : reachable m -> minerInv m.
Proof.
  induction 1 as [config now m Hstart
                 | m m' r now _ IH Hrec
                 | m m' config now _ IH Hstart].
  - destruct (start_restores_nothing now
                (AutoMiner.constructor MiningDatabase.initializeEmpty config)
                initializeEmpty_fresh) as (m0 & Hm0 & _ & _ & _ & Hinv).
    rewrite Hstart in Hm0. injection Hm0 as <-. exact Hinv.
  - exact (recordResult_inv r now m m' IH Hrec).
  - destruct (start_restores_nothing now
                (AutoMiner.constructor (AutoMiner.db m) config)
                (proj2 IH)) as (m0 & Hm0 & _ & _ & _ & Hinv).
    rewrite Hstart in Hm0. injection Hm0 as <-. exact Hinv.
Qed.

(** Whatever the previous processes saved, a new process that starts on the
    store they left counts from zero, under a new session identifier. *)
Lemma restart_counts_from_zero (m : AutoMiner.AutoMiner)
    (config : MiningConfig) (now : Z) :
  reachable m ->
  exists m' : AutoMiner.AutoMiner,
    AutoMiner.start now (AutoMiner.constructor (AutoMiner.db m) config) = Ok m' /\
    AutoMiner.sessionId m < AutoMiner.sessionId m' /\
    AutoMiner.sessionSpent m' = 0 /\
    AutoMiner.sessionMined m' = 0.
Proof.
  intros Hreach. destruct (reachable_inv m Hreach) as [Hid Hfresh].
  destruct (start_restores_nothing now
              (AutoMiner.constructor (AutoMiner.db m) config) Hfresh)
    as (m' & Hstart & Hsid & Hspent & Hmined & _).
  exists m'. cbn in *. repeat split; [exact Hstart | lia | lia | lia].
Qed.

End Recovery.

(** C4: a first process starts on the empty store (session 1), mines once
    for 5000 wei and 7000 FCT-wei, and saves its counters under
    session_1_spent and session_1_mined.  The process that starts next on
    that store creates session 2, reads session_2_spent and session_2_mined,
    finds nothing, and counts from zero: the saved counters are still in the
    store and are not restored. *)
Theorem start_does_not_restore_saved_counters :
  let config := MiningRules.mkConfig AUTO None None None None None None None in
  let mined :=
    MiningEngine.mkResult "0xaa" "0xbb" 5000 7000 (Fin 97) 1 26000 1 1 in
  exists first restarted : AutoMiner.AutoMiner,
    (m ← AutoMiner.start 100
           (AutoMiner.constructor MiningDatabase.initializeEmpty config);
     AutoMiner.recordResult mined 200 m) = Ok first /\
    AutoMiner.sessionId first = 1 /\
    AutoMiner.sessionSpent first = 5000 /\
    AutoMiner.sessionMined first = 7000 /\
    MiningDatabase.getRuntimeState "session_1_spent" (AutoMiner.db first)
    = Some "5000" /\
    MiningDatabase.getRuntimeState "session_1_mined" (AutoMiner.db first)
    = Some "7000" /\
    AutoMiner.start 300 (AutoMiner.constructor (AutoMiner.db first) config)
    = Ok restarted /\
    AutoMiner.sessionId restarted = 2 /\
    AutoMiner.sessionSpent restarted = 0 /\
    AutoMiner.sessionMined restarted = 0 /\
    MiningDatabase.getRuntimeState "session_1_spent" (AutoMiner.db restarted)
    = Some "5000".
Proof.
  cbv zeta. eexists. eexists.
  split; [vm_compute; reflexivity |].
  repeat (split; [vm_compute; reflexivity |]).
  vm_compute; reflexivity.
Qed.

(** * Further properties of the code *)

(** ** The other functions of the calculator *)

Section CalculatorMore.

Lemma to_double_ge_cases (x m : Q) :
  is_double m -> (0 < m)%Q -> (m <= x)%Q ->
  to_double x = PInf \/ exists q : Q, to_double x = Fin q /\ (m <= q)%Q.
Proof.
  intros Hm Hpos Hle. unfold to_double.
  destruct (Qcompare_spec 0 x) as [H0 | Hx | Hx]; [lra | | lra].
  destruct (Qle_bool (2 ^ 1024) (round_pos x)); [left; reflexivity |].
  right. eexists. split; [reflexivity |].
  rewrite Qred_correct. apply round_pos_ge; assumption.
Qed.

(** Reconciliation agrees with projection: fed with the total gas of a
    projection (of any size on which the calculator returns),
    [calculateFctFromActualGas] gives the projected yield.  Below the 21000
    gas of a bare transaction it gives a negative yield: it does not
    clamp. *)
Theorem calculateFctFromActualGas_projection :
  (forall (p : AnySize.Params) (out : Output),
      AnySize.calculateFctOutput p = Ok out ->
      calculateFctFromActualGas (totalGas out) (AnySize.baseFee p)
        (AnySize.mintRate p)
      = fctMinted out) /\
  (forall gasUsed baseFee mintRate : Z,
      gasUsed < 21000 -> 0 < baseFee -> 0 < mintRate ->
      calculateFctFromActualGas gasUsed baseFee mintRate < 0).
Proof.
  split.
  - intros p out Hout.
    destruct (AnySize_calculateFctOutput_Ok p out Hout) as (Htg & Hfm & _).
    unfold calculateFctFromActualGas, baseExecutionGas.
    rewrite Htg, Hfm. f_equal. f_equal. lia.
  - intros gasUsed bf mr Hgas Hbf Hmr.
    unfold calculateFctFromActualGas, baseExecutionGas. nia.
Qed.

Lemma calculateFctFromActualGas_projection_witness :
  calculateFctFromActualGas 20000 7 3 < 0.
Proof.
  apply (proj2 calculateFctFromActualGas_projection 20000 7 3); lia.
Defined.

(** [calculateArbitrage] never throws (a DEX price of zero or less gives a
    percentage of 0); the saving per FCT is max (dex - mining, 0), positive
    exactly when mining is profitable; and with a non-negative mining cost
    the percentage lies between 0 and 100. *)
Theorem calculateArbitrage_spec (miningCostPerFct dexPricePerFct : Z) :
  exists a : Arbitrage,
    calculateArbitrage miningCostPerFct dexPricePerFct = Ok a /\
    profitable a = (miningCostPerFct <? dexPricePerFct) /\
    savingsPerFct a = Z.max (dexPricePerFct - miningCostPerFct) 0 /\
    (profitable a = true <-> 0 < savingsPerFct a) /\
    (dexPricePerFct <= 0 -> savingsPercent a = Fin 0) /\
    (0 <= miningCostPerFct ->
     exists q : Q,
       savingsPercent a = Fin q /\ (0 <= q)%Q /\ (q <= 100)%Q).
Proof.
  unfold calculateArbitrage.
  set (savings := if miningCostPerFct <? dexPricePerFct
                  then dexPricePerFct - miningCostPerFct else 0).
  assert (Hsav : savings = Z.max (dexPricePerFct - miningCostPerFct) 0).
  { subst savings. destruct (Z.ltb_spec miningCostPerFct dexPricePerFct); lia. }
  destruct (Z.gtb_spec dexPricePerFct 0) as [Hdex | Hdex].
  - rewrite bigint_div_nonzero by lia. cbn.
    eexists. split; [reflexivity |]. cbn.
    split; [reflexivity |]. split; [exact Hsav |].
    split; [| split; [lia |]].
    + rewrite Hsav. destruct (Z.ltb_spec miningCostPerFct dexPricePerFct);
        split; intros; try discriminate; try reflexivity; lia.
    + intros Hmining.
      set (bp := (savings * 10000) ÷ dexPricePerFct).
      assert (Hbp : 0 <= bp <= 10000).
      { subst bp. rewrite Z.quot_div_nonneg by lia. split.
        - apply Z.div_pos; lia.
        - apply Z.div_le_upper_bound; lia. }
      unfold Number_of_bigint. rewrite to_double_int by lia.
      cbn [number_div]. change (Qeq_bool 100 0) with false. cbv iota.
      unfold to_double.
      assert (Hq : (0 <= inject_Z bp / 100 /\ inject_Z bp / 100 <= 100)%Q).
      { assert (0 <= inject_Z bp)%Q by (rewrite <- (Zle_Qle 0); lia).
        assert (inject_Z bp <= inject_Z 10000)%Q by (rewrite <- Zle_Qle; lia).
        assert (inject_Z 10000 == 10000)%Q by reflexivity.
        split.
        - apply Qle_shift_div_l; lra.
        - apply Qle_shift_div_r; lra. }
      destruct (Qcompare_spec 0 (inject_Z bp / 100)) as [H0 | Hpos | Hneg].
      * exists 0%Q. split; [reflexivity |]. lra.
      * assert (Hd : is_double 100).
        { exists 100, 0. repeat split; try lia. }
        pose proof (round_pos_le _ 100 Hpos Hd (proj2 Hq)) as Hle.
        assert (Hd0 : is_double 0).
        { exists 0, 0. repeat split; try lia. }
        pose proof (round_pos_ge _ 0 Hpos Hd0 (proj1 Hq)) as Hge.
        destruct (Qle_bool (2 ^ 1024) (round_pos (inject_Z bp / 100)))
          eqn:Hover.
        -- apply Qle_bool_iff in Hover.
           pose proof (is_double_lt_overflow 100 Hd). lra.
        -- eexists. split; [reflexivity |]. rewrite Qred_correct. lra.
      * lra.
  - cbn. eexists. split; [reflexivity |]. cbn.
    split; [reflexivity |]. split; [exact Hsav |].
    split; [| split].
    + rewrite Hsav. destruct (Z.ltb_spec miningCostPerFct dexPricePerFct);
        split; intros; try discriminate; try reflexivity; lia.
    + reflexivity.
    + intros _. exists 0%Q. split; [reflexivity |]. lra.
Qed.

Lemma calculateArbitrage_spec_witness :
  exists (a : Arbitrage) (q : Q),
    calculateArbitrage 300 400 = Ok a /\
    profitable a = true /\
    savingsPerFct a = 100 /\
    savingsPercent a = Fin q /\ (0 <= q)%Q /\ (q <= 100)%Q.
Proof.
  destruct (calculateArbitrage_spec 300 400)
    as (a & Ha & Hp & Hs & _ & _ & Hpercent).
  destruct (Hpercent ltac:(lia)) as (q & Hq & Hlow & Hhigh).
  exists a, q. repeat split; assumption.
Defined.

(** Unlike the projection, [calculateRequiredDataSize] divides without a
    guard: it throws a division by zero exactly when the base fee or the
    mint rate is zero.  Its only other exception is the RangeError of
    [BigInt] in the projection, which a maximum of NaN always raises. *)
Theorem calculateRequiredDataSize_throws
    (targetFct baseFee mintRate : Z) (maxDataSize : option number) :
  (baseFee * mintRate = 0 ->
   calculateRequiredDataSize targetFct baseFee mintRate maxDataSize
   = Throw (RangeError "Division by zero")) /\
  (baseFee * mintRate <> 0 ->
   forall e : JsError,
     calculateRequiredDataSize targetFct baseFee mintRate maxDataSize
     = Throw e ->
     e = RangeError "The number cannot be converted to a BigInt") /\
  (baseFee * mintRate <> 0 -> maxDataSize = Some NaN ->
   calculateRequiredDataSize targetFct baseFee mintRate maxDataSize
   = Throw (RangeError "The number cannot be converted to a BigInt")).
Proof.
  unfold calculateRequiredDataSize. split; [| split].
  - intros ->. reflexivity.
  - intros Hne e. rewrite bigint_div_nonzero by exact Hne.
    cbn [mbind result_bind]. rewrite bigint_div_nonzero by lia.
    cbn [mbind result_bind].
    destruct (AnySize.calculateFctOutput _) as [out | e'] eqn:Hcalc;
      [discriminate |].
    cbn [mbind result_bind]. intros [= <-].
    exact (proj1 (AnySize_calculateFctOutput_Throw _ _ Hcalc)).
  - intros Hne ->. rewrite bigint_div_nonzero by exact Hne.
    cbn [mbind result_bind]. rewrite bigint_div_nonzero by lia.
    cbn [mbind result_bind default].
    assert (Hnan : forall d : number, number_le d NaN = false)
      by (intros [q | | |]; reflexivity).
    rewrite Hnan. reflexivity.
Qed.

Lemma calculateRequiredDataSize_throws_witness :
  calculateRequiredDataSize (10 ^ 18) 0 5 None
  = Throw (RangeError "Division by zero") /\
  calculateRequiredDataSize (10 ^ 18) 7 5 (Some NaN)
  = Throw (RangeError "The number cannot be converted to a BigInt").
Proof.
  split.
  - apply (proj1 (calculateRequiredDataSize_throws (10 ^ 18) 0 5 None)).
    reflexivity.
  - apply (proj2 (proj2 (calculateRequiredDataSize_throws (10 ^ 18) 7 5
                           (Some NaN)))); [lia | reflexivity].
Defined.

(** When the size for the target fits under the maximum (an integer number
    of bytes, 102400 when none is given), the returned size is feasible, its
    estimates are the projection at that size, and it is the largest size
    whose projected yield does not exceed the target: the yield at the
    returned size is at most the target, one byte more would exceed it. *)
Theorem calculateRequiredDataSize_feasible
    (targetFct baseFee mintRate maxSize : Z) (maxDataSize : option number) :
  let size := targetFct ÷ (baseFee * mintRate) ÷ 40 + 160 in
  default (Fin 102400%Q) maxDataSize = Fin (inject_Z maxSize) ->
  0 <= targetFct -> 0 < baseFee -> 0 < mintRate ->
  size <= maxSize -> (maxSize - 160) * 40 <= 2 ^ 53 ->
  exists (r : RequiredDataSize) (out next : Output),
    calculateRequiredDataSize targetFct baseFee mintRate maxDataSize = Ok r /\
    feasible r = true /\
    actualDataSize r = Fin (inject_Z size) /\
    calculateFctOutput (mkParams size baseFee mintRate None None) = Ok out /\
    estimatedGas r = totalGas out /\
    estimatedEth r = ethBurned out /\
    calculateFctOutput (mkParams (size + 1) baseFee mintRate None None)
    = Ok next /\
    fctMinted out <= targetFct < fctMinted next.
Proof.
  intros size Hdefault Htarget Hbf Hmr Hfits Hmax.
  assert (Hrate : 0 < baseFee * mintRate) by nia.
  set (req := targetFct ÷ (baseFee * mintRate)) in *.
  set (est := req ÷ 40) in *.
  assert (Hreq : req = targetFct / (baseFee * mintRate))
    by (apply Z.quot_div_nonneg; lia).
  assert (Hreq0 : 0 <= req) by (rewrite Hreq; apply Z.div_pos; lia).
  assert (Hest : est = req / 40) by (apply Z.quot_div_nonneg; lia).
  assert (Hest0 : 0 <= est) by (rewrite Hest; apply Z.div_pos; lia).
  assert (Hsize : size = est + 160) by reflexivity.
  pose proof (Z.mul_div_le targetFct _ Hrate) as Hlow.
  pose proof (Z.mul_succ_div_gt targetFct _ Hrate) as Hhigh.
  pose proof (Z.mul_div_le req 40 eq_refl) as Hlow40.
  pose proof (Z.mul_succ_div_gt req 40 eq_refl) as Hhigh40.
  rewrite <- Hreq in Hlow, Hhigh. rewrite <- Hest in Hlow40, Hhigh40.
  unfold calculateRequiredDataSize. rewrite Hdefault. fold req.
  rewrite bigint_div_nonzero by lia. cbn [mbind result_bind].
  rewrite bigint_div_nonzero by lia. cbn [mbind result_bind].
  change (targetFct ÷ (baseFee * mintRate) ÷ 40) with est.
  unfold Number_of_bigint.
  rewrite to_double_int by (clear - Hfits Hmax Hest0 Hsize; lia).
  cbn [number_add]. rewrite <- inject_Z_plus.
  change (est + overheadBytes) with size.
  rewrite to_double_int by (clear - Hfits Hmax Hest0 Hsize; lia).
  assert (Hle : number_le (Fin (inject_Z size)) (Fin (inject_Z maxSize)) = true).
  { cbn. apply Qle_bool_iff. rewrite <- Zle_Qle. exact Hfits. }
  rewrite Hle.
  rewrite (AnySize_calculateFctOutput_integer size baseFee mintRate None None)
    by (clear - Hfits Hmax; lia).
  destruct (calculateFctOutput_spec (mkParams size baseFee mintRate None None))
    as (out & Hout & Hcg & Htg & Hfm & _).
  destruct (calculateFctOutput_spec
              (mkParams (size + 1) baseFee mintRate None None))
    as (next & Hnext & Hcg' & _ & Hfm' & _).
  rewrite Hout. cbn [mbind result_bind].
  exists {| actualDataSize := Fin (inject_Z size);
            feasible := true;
            estimatedGas := totalGas out;
            estimatedEth := ethBurned out |}, out, next.
  cbn in *. repeat (split; [reflexivity |]).
  split; [exact Hnext |].
  rewrite Hfm, Hfm', Hcg, Hcg'.
  replace (Z.max (size - 160) 0) with est
    by (clear - Hest0 Hsize; lia).
  replace (Z.max (size + 1 - 160) 0) with (est + 1)
    by (clear - Hest0 Hsize; lia).
  clear - Hlow Hhigh Hlow40 Hhigh40 Hrate Hest0 Hreq0.
  clearbody est req. split; nia.
Qed.

Lemma calculateRequiredDataSize_feasible_witness :
  exists (r : RequiredDataSize) (out next : Output),
    calculateRequiredDataSize 1000000 5 2 None = Ok r /\
    feasible r = true /\
    actualDataSize r = Fin (inject_Z 2660) /\
    calculateFctOutput (mkParams 2660 5 2 None None) = Ok out /\
    estimatedGas r = totalGas out /\
    estimatedEth r = ethBurned out /\
    calculateFctOutput (mkParams (2660 + 1) 5 2 None None) = Ok next /\
    fctMinted out <= 1000000 < fctMinted next.
Proof.
  apply (calculateRequiredDataSize_feasible 1000000 5 2 102400 None).
  - reflexivity.
  - lia.
  - lia.
  - lia.
  - vm_compute. discriminate.
  - vm_compute. discriminate.
Defined.

(** When the size for the target exceeds the maximum, the result is not
    feasible, the maximum is returned with the projection at the maximum,
    and the yield at the maximum does not exceed the target. *)
Theorem calculateRequiredDataSize_infeasible
    (targetFct baseFee mintRate maxSize : Z) (maxDataSize : option number) :
  let size := targetFct ÷ (baseFee * mintRate) ÷ 40 + 160 in
  default (Fin 102400%Q) maxDataSize = Fin (inject_Z maxSize) ->
  0 <= targetFct -> 0 < baseFee -> 0 < mintRate ->
  maxSize < size -> 0 <= maxSize -> (maxSize - 160) * 40 <= 2 ^ 53 ->
  exists (r : RequiredDataSize) (out : Output),
    calculateRequiredDataSize targetFct baseFee mintRate maxDataSize = Ok r /\
    feasible r = false /\
    actualDataSize r = Fin (inject_Z maxSize) /\
    calculateFctOutput (mkParams maxSize baseFee mintRate None None) = Ok out /\
    estimatedGas r = totalGas out /\
    estimatedEth r = ethBurned out /\
    fctMinted out <= targetFct.
Proof.
  intros size Hdefault Htarget Hbf Hmr Hover Hmax0 Hmax.
  assert (Hmax53 : maxSize < 2 ^ 53) by (clear - Hmax; lia).
  assert (Hrate : 0 < baseFee * mintRate) by nia.
  set (req := targetFct ÷ (baseFee * mintRate)) in *.
  set (est := req ÷ 40) in *.
  assert (Hreq : req = targetFct / (baseFee * mintRate))
    by (apply Z.quot_div_nonneg; lia).
  assert (Hreq0 : 0 <= req) by (rewrite Hreq; apply Z.div_pos; lia).
  assert (Hest : est = req / 40) by (apply Z.quot_div_nonneg; lia).
  assert (Hest0 : 0 <= est) by (rewrite Hest; apply Z.div_pos; lia).
  assert (Hsize : size = est + 160) by reflexivity.
  pose proof (Z.mul_div_le targetFct _ Hrate) as Hlow.
  pose proof (Z.mul_div_le req 40 eq_refl) as Hlow40.
  rewrite <- Hreq in Hlow. rewrite <- Hest in Hlow40.
  unfold calculateRequiredDataSize. rewrite Hdefault. fold req.
  rewrite bigint_div_nonzero by lia. cbn [mbind result_bind].
  rewrite bigint_div_nonzero by lia. cbn [mbind result_bind].
  change (targetFct ÷ (baseFee * mintRate) ÷ 40) with est.
  (* the size for the target, however it is rounded, stays above maxSize *)
  assert (Hbound : is_double (inject_Z (maxSize + 1)))
    by (apply is_double_int; clear - Hmax0 Hmax53; lia).
  assert (Hbound0 : (0 < inject_Z (maxSize + 1))%Q)
    by (rewrite <- (Zlt_Qlt 0); clear - Hmax0; lia).
  assert (Hbelow : (inject_Z maxSize < inject_Z (maxSize + 1))%Q)
    by (rewrite <- Zlt_Qlt; clear; lia).
  assert (Hinfeasible :
            number_le
              (number_add (Number_of_bigint est) (Fin (inject_Z overheadBytes)))
              (Fin (inject_Z maxSize)) = false).
  { unfold Number_of_bigint.
    destruct (Z_le_gt_dec est (2 ^ 53)) as [Hsmall | Hbig].
    - rewrite to_double_int by (clear - Hsmall Hest0; lia).
      cbn [number_add].
      rewrite <- inject_Z_plus.
      apply (number_le_to_double_false _ (inject_Z (maxSize + 1)));
        try assumption.
      rewrite <- Zle_Qle. unfold overheadBytes.
      clear - Hover Hsize. lia.
    - assert (Hd : is_double (inject_Z (2 ^ 53)))
        by (apply is_double_int; clear; lia).
      destruct (to_double_ge_cases (inject_Z est) (inject_Z (2 ^ 53)) Hd)
        as [-> | (q & -> & Hq)].
      + reflexivity.
      + rewrite <- Zle_Qle. clear - Hbig. lia.
      + reflexivity.
      + cbn [number_add].
        apply (number_le_to_double_false _ (inject_Z (maxSize + 1)));
          try assumption.
        assert (inject_Z (maxSize + 1) <= inject_Z (2 ^ 53))%Q
          by (rewrite <- Zle_Qle; clear - Hmax53; lia).
        assert (0 <= inject_Z overheadBytes)%Q by discriminate.
        lra. }
  rewrite Hinfeasible.
  rewrite (AnySize_calculateFctOutput_integer maxSize baseFee mintRate
             None None) by exact Hmax.
  destruct (calculateFctOutput_spec
              (mkParams maxSize baseFee mintRate None None))
    as (out & Hout & Hcg & Htg & Hfm & _).
  rewrite Hout. cbn [mbind result_bind].
  exists {| actualDataSize := Fin (inject_Z maxSize);
            feasible := false;
            estimatedGas := totalGas out;
            estimatedEth := ethBurned out |}, out.
  cbn in *. repeat (split; [reflexivity |]).
  rewrite Hfm, Hcg.
  assert (Hpayload : Z.max (maxSize - 160) 0 <= est)
    by (clear - Hover Hsize Hest0; lia).
  clear - Hpayload Hlow Hlow40 Hrate Hest0 Hreq0 Hmax0.
  clearbody est req. nia.
Qed.

Lemma calculateRequiredDataSize_infeasible_witness :
  exists (r : RequiredDataSize) (out : Output),
    calculateRequiredDataSize (10 ^ 18) 5 2 (Some (Fin 51200%Q)) = Ok r /\
    feasible r = false /\
    actualDataSize r = Fin (inject_Z 51200) /\
    calculateFctOutput (mkParams 51200 5 2 None None) = Ok out /\
    estimatedGas r = totalGas out /\
    estimatedEth r = ethBurned out /\
    fctMinted out <= 10 ^ 18.
Proof.
  apply (calculateRequiredDataSize_infeasible (10 ^ 18) 5 2 51200
           (Some (Fin 51200%Q))).
  - reflexivity.
  - lia.
  - lia.
  - lia.
  - vm_compute. reflexivity.
  - lia.
  - vm_compute. discriminate.
Defined.

End CalculatorMore.

(** ** The other rules and the rules of a configuration *)

Section RulesMore.

Local Open Scope Q_scope.

(** The target rule compares the yield of the session, converted to FCT and
    rounded to the nearest double, with the target, and always resolves to
    a boolean.  If it passes, the yield is strictly below the target; at the
    target and above it fails; and it passes as soon as a double separates
    the yield (in FCT) from the target.  Exactly: with [lo] the largest
    double below the target and a non-negative yield, the rule passes if and
    only if the yield in FCT is below the midpoint of [lo] and the target,
    or is that midpoint and the significand of [lo] is even. *)
Theorem targetRule_passes (targetFct : Q) (ctx : RuntimeContext) :
  is_double targetFct ->
  (exists b : bool, targetRule (Fin targetFct) ctx = Ok b) /\
  (targetRule (Fin targetFct) ctx = Ok true ->
   inject_Z (sessionMined ctx) < targetFct * inject_Z (10 ^ 18)) /\
  (targetFct * inject_Z (10 ^ 18) <= inject_Z (sessionMined ctx) ->
   targetRule (Fin targetFct) ctx = Ok false) /\
  (forall d : Q,
      is_double d ->
      inject_Z (sessionMined ctx) <= d * inject_Z (10 ^ 18) ->
      d < targetFct ->
      targetRule (Fin targetFct) ctx = Ok true) /\
  (forall lo : Q,
      double_below lo targetFct -> (0 <= sessionMined ctx)%Z ->
      targetRule (Fin targetFct) ctx = Ok true <->
      inject_Z (sessionMined ctx) / inject_Z (10 ^ 18) < (lo + targetFct) / 2 \/
      (inject_Z (sessionMined ctx) / inject_Z (10 ^ 18) == (lo + targetFct) / 2 /\
       Z.even (Qfloor (lo / (targetFct - lo))) = true)).
Proof.
  intros Htarget. unfold targetRule.
  destruct (Number_formatEther_lt (sessionMined ctx) targetFct Htarget)
    as [Hsound Hcomplete].
  split; [| split; [| split; [| split]]].
  - eexists. reflexivity.
  - intros [= H]. exact (Hsound H).
  - intros Hover.
    destruct (number_lt (Number_formatEther (sessionMined ctx)) (Fin targetFct));
      [| reflexivity].
    specialize (Hsound eq_refl). lra.
  - intros d Hd Hle Hlt. f_equal. exact (Hcomplete d Hd Hle Hlt).
  - intros lo Hlo Hmined.
    rewrite <- (Number_formatEther_lt_exact _ _ lo Htarget Hlo Hmined).
    split; [intros [= ->]; reflexivity | intros ->; reflexivity].
Qed.

Lemma targetRule_passes_witness :
  targetRule (Fin 5) (mkContext 1 1 1 None 0 (3 * 10 ^ 18) 0 (Fin 3500))
  = Ok true /\
  targetRule (Fin 1) (mkContext 1 1 1 None 0 (10 ^ 18 - 56) 0 (Fin 3500))
  = Ok true.
Proof.
  split.
  - apply (proj1 (proj2 (proj2 (proj2 (targetRule_passes 5
             (mkContext 1 1 1 None 0 (3 * 10 ^ 18) 0 (Fin 3500))
             ltac:(exists 5%Z, 0%Z; repeat split; lia))))) 3).
    + exists 3%Z, 0%Z. repeat split; lia.
    + vm_compute. discriminate.
    + reflexivity.
  - apply (proj2 (proj2 (proj2 (proj2 (targetRule_passes 1
             (mkContext 1 1 1 None 0 (10 ^ 18 - 56) 0 (Fin 3500))
             is_double_1))))
             (9007199254740991 # 9007199254740992) double_below_1).
    + cbn. lia.
    + left. vm_compute. reflexivity.
Defined.

(** The efficiency rule looks at a transaction of 50 KB whatever the
    context: it is the same test on every context, it passes exactly when
    the minimum is at most the double 98.98186754581596..., and it never
    throws. *)
Theorem efficiencyRule_constant (minEfficiency : number) (ctx : RuntimeContext) :
  efficiencyRule minEfficiency ctx
  = Ok (number_le minEfficiency (Fin (3482614857779473 # 35184372088832))) /\
  98.98 < 3482614857779473 # 35184372088832 /\
  3482614857779473 # 35184372088832 < 98.99.
Proof.
  split; [| split; reflexivity].
  unfold efficiencyRule, calculateEfficiency, calculateFctOutput,
    overheadBytes, baseExecutionGas.
  cbn [dataSize baseFee mintRate calldataGasOverride gasPrice].
  change (Z.max (50 * 1024 - 160) 0 * 40)%Z with 2041600%Z.
  destruct (Z.gtb_spec
              (2041600 * currentBaseFee ctx * currentMintRate ctx) 0)
    as [Hpos | Hle].
  - rewrite bigint_div_nonzero by lia.
    cbn [mbind result_bind efficiency]. do 2 f_equal.
  - cbn [mbind result_bind efficiency]. do 2 f_equal.
Qed.

(** The cost rule and the arbitrage rule never throw either. *)
Lemma costRule_resolves (maxCostUsd : number) (ctx : RuntimeContext) :
  exists b : bool, costRule maxCostUsd ctx = Ok b.
Proof.
  unfold costRule.
  destruct (calculateCostPerFct_spec ctx) as (cost & -> & _).
  eexists. reflexivity.
Qed.

Lemma arbitrageRule_spec (isMainnet : bool) (ctx : RuntimeContext) :
  exists cost : Z,
    calculateCostPerFct ctx = Ok cost /\
    arbitrageRule isMainnet ctx
    = Ok (truthy_bigint (dexSpotPrice ctx) && isMainnet &&
          match dexSpotPrice ctx with
          | Some spot => (cost <? spot)%Z
          | None => false
          end).
Proof.
  destruct (calculateCostPerFct_spec ctx) as (cost & Hcost & _).
  exists cost. split; [exact Hcost |].
  unfold arbitrageRule. rewrite Hcost.
  destruct (dexSpotPrice ctx) as [spot |]; cbn; [| reflexivity].
  destruct (Z.eqb_spec spot 0) as [-> | Hspot]; cbn; [reflexivity |].
  destruct isMainnet; cbn; [| reflexivity].
  destruct (cost <? spot)%Z; cbn; [| reflexivity].
  rewrite bigint_div_nonzero by assumption. reflexivity.
Qed.

Lemma built_rules_resolve (isMainnet : bool) (config : MiningConfig)
    (ctx : RuntimeContext) :
  Forall (fun rule : Rule => exists b : bool, rule ctx = Ok b)
    (buildRulesFromConfig isMainnet config).
Proof.
  unfold buildRulesFromConfig.
  repeat apply Forall_app_2.
  - destruct (maxCostPerFct config); constructor; [| constructor].
    apply costRule_resolves.
  - destruct (minEfficiency config); constructor; [| constructor].
    unfold efficiencyRule, calculateEfficiency.
    match goal with
    | |- context [calculateFctOutput ?p] =>
        destruct (calculateFctOutput_spec p) as (out & -> & _)
    end.
    eexists. reflexivity.
  - destruct (scheduleHours config) as [hs |]; [| constructor].
    destruct (0 <? Z.of_nat (length hs))%Z; constructor; [| constructor].
    eexists. reflexivity.
  - destruct (dailyBudgetEth config); constructor; [| constructor].
    eexists. reflexivity.
  - destruct (targetFctAmount config); constructor; [| constructor].
    eexists. reflexivity.
  - destruct (strategy config); constructor; [| constructor].
    destruct (arbitrageRule_spec isMainnet ctx) as (cost & _ & ->).
    eexists. reflexivity.
Qed.

Lemma rules_resolve_values (rules : list Rule) (ctx : RuntimeContext) :
  Forall (fun rule : Rule => exists b : bool, rule ctx = Ok b) rules ->
  exists bs : list bool, map (fun rule => rule ctx) rules = map Ok bs.
Proof.
  induction 1 as [| rule rules [b Hb] _ [bs Hbs]].
  - exists []. reflexivity.
  - exists (b :: bs). cbn. rewrite Hb, Hbs. reflexivity.
Qed.

Lemma evaluateRules_resolved (rules : list Rule) (ctx : RuntimeContext)
    (bs : list bool) :
  map (fun rule => rule ctx) rules = map Ok bs ->
  evaluateRules rules ctx = Ok (fold_right andb true bs).
Proof.
  intros Hbs. unfold evaluateRules.
  rewrite Hbs, promise_all_Ok. cbn. rewrite forallb_is_true.
  destruct rules as [| r rules]; [| reflexivity].
  destruct bs; [reflexivity | discriminate Hbs].
Qed.

Lemma evaluateRules_fails (rules : list Rule) (ctx : RuntimeContext)
    (rule : Rule) :
  Forall (fun rule : Rule => exists b : bool, rule ctx = Ok b) rules ->
  In rule rules -> rule ctx = Ok false ->
  evaluateRules rules ctx = Ok false.
Proof.
  intros Hall Hin Hfalse.
  destruct (rules_resolve_values rules ctx Hall) as (bs & Hbs).
  rewrite (evaluateRules_resolved rules ctx bs Hbs). f_equal.
  clear Hall. revert bs Hbs.
  induction rules as [| r rules IH]; intros bs Hbs; [destruct Hin |].
  destruct bs as [| b bs]; [discriminate Hbs |].
  cbn in Hbs. injection Hbs as Hb Hbs.
  destruct Hin as [-> | Hin].
  - rewrite Hfalse in Hb. injection Hb as <-. reflexivity.
  - cbn. rewrite (IH Hin bs Hbs). apply andb_false_r.
Qed.

(** The engine over the rules of a configuration never rejects; with no
    threshold configured (an empty schedule counts as none) and the auto
    strategy it passes on every context. *)
Theorem evaluateRules_built (isMainnet : bool) (config : MiningConfig)
    (ctx : RuntimeContext) :
  (exists b : bool,
      evaluateRules (buildRulesFromConfig isMainnet config) ctx = Ok b) /\
  (maxCostPerFct config = None -> minEfficiency config = None ->
   scheduleHours config = None \/ scheduleHours config = Some [] ->
   dailyBudgetEth config = None -> targetFctAmount config = None ->
   strategy config = AUTO ->
   evaluateRules (buildRulesFromConfig isMainnet config) ctx = Ok true).
Proof.
  split.
  - destruct (rules_resolve_values _ ctx
                (built_rules_resolve isMainnet config ctx)) as (bs & Hbs).
    eexists. apply (evaluateRules_resolved _ ctx bs Hbs).
  - intros Hcost Heff Hsched Hbudget Htarget Hstrategy.
    unfold buildRulesFromConfig.
    rewrite Hcost, Heff, Hbudget, Htarget, Hstrategy.
    destruct Hsched as [-> | ->]; reflexivity.
Qed.

Lemma evaluateRules_built_witness :
  evaluateRules
    (buildRulesFromConfig true
       (MiningRules.mkConfig AUTO None None (Some []) None None (Some 30000%Z)
          (Some 100%Z)))
    (mkContext 30 20 4 None 0 0 7 (Fin 3500))
  = Ok true.
Proof.
  apply (proj2 (evaluateRules_built true
           (MiningRules.mkConfig AUTO None None (Some []) None None
              (Some 30000%Z) (Some 100%Z))
           (mkContext 30 20 4 None 0 0 7 (Fin 3500))));
    try reflexivity.
  right. reflexivity.
Defined.

(** Under the arbitrage strategy the engine fails closed: without a spot
    price, with a spot price of zero, or away from mainnet it does not pass,
    whatever else is configured. *)
Theorem evaluateRules_arbitrage_fails_closed (isMainnet : bool)
    (config : MiningConfig) (ctx : RuntimeContext) :
  strategy config = ARBITRAGE ->
  dexSpotPrice ctx = None \/ dexSpotPrice ctx = Some 0%Z \/ isMainnet = false ->
  evaluateRules (buildRulesFromConfig isMainnet config) ctx = Ok false.
Proof.
  intros Hstrategy Hclosed.
  apply (evaluateRules_fails _ ctx (arbitrageRule isMainnet)).
  - apply built_rules_resolve.
  - unfold buildRulesFromConfig. rewrite Hstrategy.
    repeat (apply in_or_app; right). left. reflexivity.
  - destruct (arbitrageRule_spec isMainnet ctx) as (cost & _ & ->).
    destruct Hclosed as [-> | [-> | ->]]; [reflexivity | reflexivity |].
    rewrite andb_false_r. reflexivity.
Qed.

Lemma evaluateRules_arbitrage_fails_closed_witness :
  evaluateRules
    (buildRulesFromConfig true
       (MiningRules.mkConfig ARBITRAGE (Some (Fin 1)) None None None None
          None None))
    (mkContext 30 20 4 None 0 0 7 (Fin 3500))
  = Ok false.
Proof.
  apply (evaluateRules_arbitrage_fails_closed true
           (MiningRules.mkConfig ARBITRAGE (Some (Fin 1)) None None None None
              None None)
           (mkContext 30 20 4 None 0 0 7 (Fin 3500))).
  - reflexivity.
  - left. reflexivity.
Defined.

(** With a budget configured, the engine does not pass once the spend of the
    session has reached the budget. *)
Lemma evaluateRules_budget_reached (isMainnet : bool)
    (config : MiningConfig) (ctx : RuntimeContext) (maxEth : Q) :
  dailyBudgetEth config = Some (Fin maxEth) -> is_double maxEth ->
  maxEth * inject_Z (10 ^ 18) <= inject_Z (sessionSpent ctx) ->
  evaluateRules (buildRulesFromConfig isMainnet config) ctx = Ok false.
Proof.
  intros Hbudget Hmax Hreached.
  apply (evaluateRules_fails _ ctx (budgetRule (Fin maxEth))).
  - apply built_rules_resolve.
  - unfold buildRulesFromConfig. rewrite Hbudget.
    do 3 (apply in_or_app; right). apply in_or_app. left. left. reflexivity.
  - unfold budgetRule. f_equal.
    destruct (number_lt (Number_formatEther (sessionSpent ctx)) (Fin maxEth))
      eqn:Hlt; [| reflexivity].
    apply (proj1 (Number_formatEther_lt _ _ Hmax)) in Hlt. lra.
Qed.

End RulesMore.

(** ** The context of a cycle and the size optimizer *)

Section OptimizerMore.

(** On a context that [collectRuntimeContext] has built, a spot price is
    present on mainnet only, and the arbitrage rule passes exactly when a
    spot price is at hand and mining is strictly cheaper. *)
Theorem arbitrageRule_on_collected_context
    (isMainnet : bool) (getSwapQuote : result (option Z))
    (spent mined gasPrice baseFee mintRate : Z) (ethPrice : number)
    (hours : Z) (ctx : RuntimeContext) :
  collectRuntimeContext isMainnet getSwapQuote spent mined
    gasPrice baseFee mintRate ethPrice hours = Ok ctx ->
  0 <= gasPrice ->
  (isMainnet = false -> dexSpotPrice ctx = None) /\
  (arbitrageRule isMainnet ctx = Ok true <->
   exists spot cost : Z,
     dexSpotPrice ctx = Some spot /\
     calculateCostPerFct ctx = Ok cost /\ cost < spot).
Proof.
  intros Hctx Hgas. unfold collectRuntimeContext in Hctx.
  destruct (calculateCostPerFct_spec ctx) as (cost0 & Hcost0 & Hnonneg).
  destruct (arbitrageRule_spec isMainnet ctx) as (cost & Hcost & Hrule).
  rewrite Hcost0 in Hcost. injection Hcost as <-.
  rewrite Hrule. clear Hrule.
  destruct isMainnet.
  - destruct getSwapQuote as [quote | e]; [| discriminate Hctx].
    cbn in Hctx. injection Hctx as <-. cbn in *.
    specialize (Hnonneg Hgas).
    split; [discriminate |].
    destruct quote as [spot |]; cbn.
    + destruct (Z.eqb_spec spot 0) as [-> | Hspot]; cbn.
      * split; [discriminate |].
        intros (spot' & cost' & [= <-] & Hc & Hlt).
        rewrite Hcost0 in Hc. injection Hc as <-. lia.
      * destruct (Z.ltb_spec cost0 spot) as [Hlt | Hge].
        -- split; [| reflexivity]. intros _. exists spot, cost0. auto.
        -- split; [discriminate |].
           intros (spot' & cost' & [= <-] & Hc & Hlt).
           rewrite Hcost0 in Hc. injection Hc as <-. lia.
    + split; [discriminate |]. intros (spot' & cost' & [=] & _).
  - cbn in Hctx. injection Hctx as <-. cbn.
    split; [reflexivity |].
    split; [discriminate |]. intros (spot' & cost' & [=] & _).
Qed.

Lemma arbitrageRule_on_collected_context_witness :
  arbitrageRule true (mkContext 1 1 1 (Some (2 * 10 ^ 18)) 0 0 9 (Fin 3500))
  = Ok true.
Proof.
  apply (proj2 (arbitrageRule_on_collected_context true
           (Ok (Some (2 * 10 ^ 18))) 0 0 1 1 1 (Fin 3500) 9
           (mkContext 1 1 1 (Some (2 * 10 ^ 18)) 0 0 9 (Fin 3500))
           eq_refl ltac:(lia))).
  exists (2 * 10 ^ 18), 1010286050156739811. repeat split.
Defined.

Variable ctx : RuntimeContext.

Lemma projectedCost_mono (s1 s2 : Z) :
  0 <= currentGasPrice ctx -> s1 <= s2 ->
  projectedCost ctx s1 <= projectedCost ctx s2.
Proof.
  intros Hgas Hle. unfold projectedCost.
  apply Z.mul_le_mono_nonneg_r; [exact Hgas | lia].
Qed.

(** When one kilobyte fits the remaining budget and the maximal size does
    not, the optimizer returns the largest size that fits: it fits, and
    every larger size costs more than the budget. *)
Theorem getOptimalDataSize_largest_fit
    (strategy : MiningStrategy) (maxKb budget : Z) :
  0 < budget -> budget < projectedCost ctx (maxKb * 1024) ->
  projectedCost ctx 1024 <= budget ->
  exists size : Z,
    getOptimalDataSize strategy ctx maxKb (Some budget) = Ok size /\
    1024 <= size < maxKb * 1024 /\
    projectedCost ctx size <= budget /\
    (forall s : Z, size < s -> budget < projectedCost ctx s).
Proof.
  intros Hpos Hover Hfloor.
  assert (Hgas : 0 < currentGasPrice ctx).
  { unfold projectedCost in Hover. nia. }
  destruct (getOptimalDataSize_budget_post ctx strategy maxKb budget Hpos Hover)
    as (size & Hsize & [(-> & Hstop) | (Hrange & Hfit)]).
  - exfalso. destruct Hstop as [Hsmall | Hno]; [| lia].
    pose proof (projectedCost_mono (maxKb * 1024) 1024 ltac:(lia) ltac:(lia)).
    lia.
  - exists size. split; [exact Hsize |].
    split; [exact Hrange |]. split; [lia |].
    intros s Hs.
    pose proof (projectedCost_mono (size + 1) s ltac:(lia) ltac:(lia)). lia.
Qed.

(** When the budget does not bind, the auto strategy returns the maximal
    size, and the arbitrage strategy returns the maximal size when a non-zero
    spot price is strictly above the mining cost and 0 otherwise; a spot price
    of 0 counts as none. *)
Theorem getOptimalDataSize_strategy (maxKb : Z) (remainingBudget : option Z) :
  budgetBinds ctx maxKb remainingBudget = false ->
  getOptimalDataSize AUTO ctx maxKb remainingBudget = Ok (maxKb * 1024) /\
  exists cost : Z,
    calculateCostPerFct ctx = Ok cost /\
    getOptimalDataSize ARBITRAGE ctx maxKb remainingBudget
    = Ok (match dexSpotPrice ctx with
          | Some spot =>
              if negb (spot =? 0) && (cost <? spot) then maxKb * 1024 else 0
          | None => 0
          end).
Proof.
  intros Hfree.
  rewrite !getOptimalDataSize_strategy_branch by exact Hfree.
  split; [reflexivity |].
  destruct (calculateCostPerFct_spec ctx) as (cost & Hcost & _).
  exists cost. split; [exact Hcost |]. rewrite Hcost.
  destruct (dexSpotPrice ctx) as [spot |]; cbn; [| reflexivity].
  destruct (spot =? 0); reflexivity.
Qed.

(** The optimizer agrees with the arbitrage rule: when the rule passes and
    the budget does not bind, the size is the maximal size, never the 0 that
    skips the cycle. *)
Theorem getOptimalDataSize_after_arbitrageRule
    (isMainnet : bool) (maxKb : Z) (remainingBudget : option Z) :
  arbitrageRule isMainnet ctx = Ok true ->
  budgetBinds ctx maxKb remainingBudget = false ->
  getOptimalDataSize ARBITRAGE ctx maxKb remainingBudget = Ok (maxKb * 1024).
Proof.
  intros Hrule Hfree.
  rewrite (getOptimalDataSize_strategy_branch ctx ARBITRAGE) by exact Hfree.
  destruct (arbitrageRule_spec isMainnet ctx) as (cost & Hcost & Hspec).
  rewrite Hspec in Hrule. injection Hrule as Hrule.
  apply andb_true_iff in Hrule as [Hrule Hlt].
  apply andb_true_iff in Hrule as [Htruthy _].
  rewrite Htruthy, Hcost. cbn [negb mbind result_bind].
  destruct (dexSpotPrice ctx) as [spot |]; [| discriminate Hlt].
  rewrite Hlt. reflexivity.
Qed.

End OptimizerMore.

Lemma getOptimalDataSize_largest_fit_witness :
  exists size : Z,
    getOptimalDataSize AUTO (mkContext 1 1 1 None 0 0 0 (Fin 3500)) 100
      (Some 100000) = Ok size /\
    1024 <= size < 100 * 1024 /\
    projectedCost (mkContext 1 1 1 None 0 0 0 (Fin 3500)) size <= 100000 /\
    (forall s : Z,
        size < s ->
        100000 < projectedCost (mkContext 1 1 1 None 0 0 0 (Fin 3500)) s).
Proof.
  apply (getOptimalDataSize_largest_fit
           (mkContext 1 1 1 None 0 0 0 (Fin 3500)) AUTO 100 100000).
  - lia.
  - vm_compute. reflexivity.
  - vm_compute. discriminate.
Defined.

Lemma getOptimalDataSize_strategy_witness :
  getOptimalDataSize AUTO (mkContext 1 1 1 None 0 0 0 (Fin 3500)) 100
    (Some 5000000) = Ok (100 * 1024) /\
  exists cost : Z,
    calculateCostPerFct (mkContext 1 1 1 None 0 0 0 (Fin 3500)) = Ok cost /\
    getOptimalDataSize ARBITRAGE (mkContext 1 1 1 None 0 0 0 (Fin 3500)) 100
      (Some 5000000)
    = Ok 0.
Proof.
  apply (getOptimalDataSize_strategy
           (mkContext 1 1 1 None 0 0 0 (Fin 3500)) 100 (Some 5000000)).
  reflexivity.
Defined.

Lemma getOptimalDataSize_after_arbitrageRule_witness :
  getOptimalDataSize ARBITRAGE
    (mkContext 1 1 1 (Some (2 * 10 ^ 18)) 0 0 0 (Fin 3500)) 100 None
  = Ok (100 * 1024).
Proof.
  apply (getOptimalDataSize_after_arbitrageRule
           (mkContext 1 1 1 (Some (2 * 10 ^ 18)) 0 0 0 (Fin 3500))
           true 100 None).
  - vm_compute. reflexivity.
  - reflexivity.
Defined.

(** ** The retry loop in general, and the payload *)

Section RetryMore.

Variable attemptMining :
  MiningEngine.MiningConfig -> Z -> result MiningEngine.MiningResult.






End RetryMore.



Section Payload.

Lemma pattern_nonzero :
  Forall (fun b => Byte.eqb b Byte.x00 = false) MiningEngine.pattern.
Proof. repeat constructor. Qed.

Lemma fill_pattern_spec (size : nat) :
  length (MiningEngine.fill_pattern size) = size /\
  Forall (fun b => In b MiningEngine.pattern) (MiningEngine.fill_pattern size).
Proof.
  unfold MiningEngine.fill_pattern. split.
  - rewrite length_map, length_seq. reflexivity.
  - apply List.Forall_forall. intros b Hb.
    apply in_map_iff in Hb as (i & <- & _).
    apply nth_In. apply Nat.mod_upper_bound. discriminate.
Qed.

Lemma countBytes_nonzero (data : list Byte.byte) :
  Forall (fun b => Byte.eqb b Byte.x00 = false) data ->
  forall zeroBytes nonZeroBytes : Z,
    MiningEngine.countBytes data zeroBytes nonZeroBytes
    = (zeroBytes, nonZeroBytes + Z.of_nat (length data)).
Proof.
  induction 1 as [| b data Hb _ IH]; intros z nz; cbn [MiningEngine.countBytes].
  - f_equal. cbn. lia.
  - rewrite Hb, IH. f_equal. cbn [length]. lia.
Qed.

Lemma fill_pattern_gas (size : nat) :
  MiningEngine.calculateDataGas (MiningEngine.fill_pattern size)
  = 40 * Z.of_nat size.
Proof.
  unfold MiningEngine.calculateDataGas.
  destruct (fill_pattern_spec size) as [Hlen Hin].
  rewrite countBytes_nonzero.
  - rewrite Hlen. lia.
  - apply List.Forall_forall. intros b Hb.
    rewrite List.Forall_forall in Hin. specialize (Hin b Hb).
    pose proof pattern_nonzero as Hnz. rewrite List.Forall_forall in Hnz.
    exact (Hnz b Hin).
Qed.

(** The payload that [buildMineBoost] builds for a size that the engine
    can allocate is made of the bytes of "FACETMINE" only, none of them
    zero; it has max (size - 160, 0) bytes, and its calldata gas, counted
    byte by byte, is the calldata gas that the calculator projects for that
    size. *)
Theorem buildMineBoost_gas (maxByteLength size baseFee mintRate : Z)
    (gasPrice : option Z) :
  Z.max (size - 160) 0 <= maxByteLength ->
  exists (data : list Byte.byte) (out : Output),
    MiningEngine.buildMineBoost maxByteLength size = Ok data /\
    Z.of_nat (length data) = Z.max (size - 160) 0 /\
    Forall (fun b => In b MiningEngine.pattern /\ b <> Byte.x00) data /\
    calculateFctOutput (mkParams size baseFee mintRate None gasPrice) = Ok out /\
    MiningEngine.calculateDataGas data = calldataGas out.
Proof.
  intros Hfits. unfold MiningEngine.buildMineBoost, MiningEngine.new_Uint8Array.
  destruct (Z.ltb_spec (Z.max (size - 160) 0) 0) as [Hneg | _]; [lia |].
  destruct (Z.ltb_spec maxByteLength (Z.max (size - 160) 0)) as [Hbig | _];
    [lia |].
  cbn [orb mbind result_bind].
  destruct (fill_pattern_spec (Z.to_nat (Z.max (size - 160) 0)))
    as [Hlen Hin].
  destruct (calculateFctOutput_spec
              (mkParams size baseFee mintRate None gasPrice))
    as (out & Hout & Hcg & _).
  eexists _, out. split; [reflexivity |].
  split; [rewrite Hlen; lia |]. split; [| split; [exact Hout |]].
  - apply List.Forall_forall. intros b Hb.
    rewrite List.Forall_forall in Hin. specialize (Hin b Hb).
    split; [exact Hin |].
    pose proof pattern_nonzero as Hnz. rewrite List.Forall_forall in Hnz.
    specialize (Hnz b Hin). intros ->. discriminate Hnz.
  - rewrite fill_pattern_gas, Hcg. cbn. lia.
Qed.

Lemma buildMineBoost_gas_witness :
  exists (data : list Byte.byte) (out : Output),
    MiningEngine.buildMineBoost (2 ^ 32) 1024 = Ok data /\
    Z.of_nat (length data) = Z.max (1024 - 160) 0 /\
    Forall (fun b => In b MiningEngine.pattern /\ b <> Byte.x00) data /\
    calculateFctOutput (mkParams 1024 7 3 None None) = Ok out /\
    MiningEngine.calculateDataGas data = calldataGas out.
Proof.
  apply (buildMineBoost_gas (2 ^ 32) 1024 7 3 None). vm_compute. discriminate.
Defined.

(** [createMineBoostData] throws a RangeError on a negative size and on a
    size that the engine does not allocate; otherwise it returns that many
    bytes, and [calculateDataGas] charges 40 gas for each of them: the
    zero-byte rate of 10 is never applied to a payload of this miner. *)
Theorem createMineBoostData_gas (maxByteLength sizeInBytes : Z) :
  (sizeInBytes < 0 \/ maxByteLength < sizeInBytes ->
   exists msg : string,
     MiningEngine.createMineBoostData maxByteLength sizeInBytes
     = Throw (RangeError msg)) /\
  (0 <= sizeInBytes <= maxByteLength ->
   exists data : list Byte.byte,
     MiningEngine.createMineBoostData maxByteLength sizeInBytes = Ok data /\
     Z.of_nat (length data) = sizeInBytes /\
     MiningEngine.calculateDataGas data = 40 * sizeInBytes).
Proof.
  unfold MiningEngine.createMineBoostData, MiningEngine.new_Uint8Array.
  destruct (Z.ltb_spec sizeInBytes 0), (Z.ltb_spec maxByteLength sizeInBytes);
    cbn [orb mbind result_bind]; split; intros; try lia;
    try (eexists; reflexivity).
  eexists. split; [reflexivity |].
  destruct (fill_pattern_spec (Z.to_nat sizeInBytes)) as [-> _].
  rewrite fill_pattern_gas. lia.
Qed.

Lemma createMineBoostData_gas_witness :
  exists data : list Byte.byte,
    MiningEngine.createMineBoostData (2 ^ 32) 20 = Ok data /\
    Z.of_nat (length data) = 20 /\
    MiningEngine.calculateDataGas data = 40 * 20.
Proof.
  apply (proj2 (createMineBoostData_gas (2 ^ 32) 20)).
  split; [lia | vm_compute; discriminate].
Defined.

End Payload.

(** ** The session store *)

Section Store.

Lemma digit_of_pretty_N_char (d : N) :
  (d < 10)%N -> digit_of_ascii (pretty_N_char d) = Some (Z.of_N d).
Proof.
  intros Hd.
  assert (d = 0 \/ d = 1 \/ d = 2 \/ d = 3 \/ d = 4 \/ d = 5 \/ d = 6 \/
          d = 7 \/ d = 8 \/ d = 9)%N as Hcases by lia.
  repeat (destruct Hcases as [-> | Hcases]; [reflexivity |]).
  subst d. reflexivity.
Qed.

Lemma parse_digits_pretty_N_go (x : N) :
  forall s : string,
    parse_digits (pretty_N_go x s) 0 = parse_digits s (Z.of_N x).
Proof.
  induction (N.lt_wf_0 x) as [x _ IH]. intros s.
  destruct (N.eq_dec x 0) as [-> | Hx].
  - rewrite pretty_N_go_0. reflexivity.
  - rewrite pretty_N_go_step by lia.
    rewrite IH by (apply N.div_lt; lia).
    cbn [parse_digits].
    rewrite digit_of_pretty_N_char by (apply N.mod_lt; lia).
    f_equal.
    replace (Z.of_N x) with (Z.of_N (10 * (x / 10) + x mod 10))
      by (f_equal; symmetry; apply N.div_mod; lia).
    rewrite N2Z.inj_add, N2Z.inj_mul.
    generalize (Z.of_N (x / 10)) (Z.of_N (x mod 10)). intros q r.
    clear. cbn [Z.of_N]. lia.
Qed.

(** The first character that is printed for a positive number is a digit. *)
Lemma pretty_N_go_head (x : N) :
  forall s : string,
    (0 < x)%N ->
    exists (c : ascii) (rest : string) (d : Z),
      pretty_N_go x s = String c rest /\ digit_of_ascii c = Some d.
Proof.
  induction (N.lt_wf_0 x) as [x _ IH]. intros s Hx.
  rewrite pretty_N_go_step by exact Hx.
  destruct (N.eq_dec (x / 10) 0) as [-> | Hdiv].
  - rewrite pretty_N_go_0. eexists _, _, _. split; [reflexivity |].
    apply digit_of_pretty_N_char. apply N.mod_lt. lia.
  - apply IH.
    + apply N.div_lt; [exact Hx | reflexivity].
    + apply N.neq_0_lt_0. exact Hdiv.
Qed.

Lemma BigInt_of_string_positive (p : positive) :
  BigInt_of_string (pretty (N.pos p)) = Ok (Z.pos p).
Proof.
  unfold pretty, pretty_N. destruct (decide (N.pos p = 0%N)); [discriminate |].
  destruct (pretty_N_go_head (N.pos p) "" ltac:(lia))
    as (c & rest & d & Hs & Hd).
  pose proof (parse_digits_pretty_N_go (N.pos p) "") as Hparse.
  rewrite Hs in *. unfold BigInt_of_string.
  destruct (Ascii.eqb_spec c "-"%char) as [-> | _]; [discriminate Hd |].
  destruct (Ascii.eqb_spec c "+"%char) as [-> | _]; [discriminate Hd |].
  rewrite Hparse. reflexivity.
Qed.

(** What [toString] writes for a bigint, [BigInt] reads back. *)
Lemma BigInt_of_string_toString (z : Z) :
  BigInt_of_string (toString z) = Ok z.
Proof.
  unfold toString, pretty, pretty_Z. destruct z as [| p | p].
  - reflexivity.
  - apply BigInt_of_string_positive.
  - change (BigInt_of_string ("-" +:+ pretty (N.pos p)) = Ok (Z.neg p)).
    unfold pretty, pretty_N.
    destruct (decide (N.pos p = 0%N)); [discriminate |].
    destruct (pretty_N_go_head (N.pos p) "" ltac:(lia))
      as (c & rest & d & Hs & Hd).
    pose proof (parse_digits_pretty_N_go (N.pos p) "") as Hparse.
    rewrite Hs in *.
    change (BigInt_of_string (String "-" (String c rest)) = Ok (Z.neg p)).
    unfold BigInt_of_string.
    change (Ascii.eqb "-" "-") with true. cbv iota.
    rewrite Hparse. reflexivity.
Qed.

Lemma weiOf_toString (z : Z) : weiOf (toString z) = z.
Proof. unfold weiOf. rewrite BigInt_of_string_toString. reflexivity. Qed.

End Store.

Section StoreInvariant.

Lemma update_first_ids {B : Type} (key : MiningDatabase.SessionRow -> B)
    (p : MiningDatabase.SessionRow -> bool)
    (f : MiningDatabase.SessionRow -> MiningDatabase.SessionRow)
    (l : list MiningDatabase.SessionRow) :
  (forall x, key (f x) = key x) ->
  map key (MiningDatabase.update_first p f l) = map key l.
Proof.
  intros Hkey. induction l as [| x l IH]; cbn; [reflexivity |].
  destruct (p x); cbn; [rewrite Hkey | rewrite IH]; reflexivity.
Qed.

Lemma update_first_Forall {A : Type} (P : A -> Prop) (p : A -> bool)
    (f : A -> A) (l : list A) :
  (forall x, P x -> P (f x)) -> Forall P l ->
  Forall P (MiningDatabase.update_first p f l).
Proof.
  intros Hf. induction 1 as [| x l Hx Hl IH]; cbn; [constructor |].
  destruct (p x); constructor; auto.
Qed.

Lemma update_first_absent {A : Type} (p : A -> bool) (f : A -> A)
    (l : list A) :
  List.find p l = None -> MiningDatabase.update_first p f l = l.
Proof.
  induction l as [| x l IH]; cbn; [reflexivity |].
  destruct (p x); [discriminate |]. intros H. rewrite (IH H). reflexivity.
Qed.

Lemma find_update_first {A : Type} (p : A -> bool) (f : A -> A) (l : list A) :
  (forall x, p x = true -> p (f x) = true) ->
  List.find p (MiningDatabase.update_first p f l)
  = option_map f (List.find p l).
Proof.
  intros Hp. induction l as [| x l IH]; cbn; [reflexivity |].
  destruct (p x) eqn:Hx; cbn.
  - rewrite (Hp x Hx). reflexivity.
  - rewrite Hx. exact IH.
Qed.

Lemma find_update_first_other {A : Type} (p q : A -> bool) (f : A -> A)
    (l : list A) :
  (forall x, p x = true -> q x = false /\ q (f x) = false) ->
  List.find q (MiningDatabase.update_first p f l) = List.find q l.
Proof.
  intros Hq. induction l as [| x l IH]; cbn; [reflexivity |].
  destruct (p x) eqn:Hx; cbn.
  - destruct (Hq x Hx) as [-> ->]. reflexivity.
  - rewrite IH. reflexivity.
Qed.

Lemma find_session_In (sessionId : Z) (l : list MiningDatabase.SessionRow) :
  In sessionId (map MiningDatabase.id l) <->
  exists s, List.find (fun s => MiningDatabase.id s =? sessionId) l = Some s.
Proof.
  induction l as [| x l IH]; cbn.
  - split; [intros [] | intros [s [=]]].
  - destruct (Z.eqb_spec (MiningDatabase.id x) sessionId) as [Heq | Hne].
    + split; [intros _; eexists; reflexivity | intros _; left; exact Heq].
    + rewrite <- IH. split; [intros [? | ?]; [contradiction | assumption] |].
      intros H. right. exact H.
Qed.

Lemma sum_bigint_decimal (field : MiningDatabase.TransactionRecord -> string)
    (txs : list MiningDatabase.TransactionRecord) :
  Forall (fun tx => decimal (field tx)) txs ->
  forall sum : Z,
    MiningDatabase.sum_bigint field txs sum
    = Ok (sum + fold_right (fun tx s => weiOf (field tx) + s) 0 txs).
Proof.
  induction 1 as [| tx txs [z Hz] _ IH]; intros sum; cbn.
  - f_equal. lia.
  - rewrite Hz, BigInt_of_string_toString. cbn. rewrite IH.
    rewrite weiOf_toString. f_equal. lia.
Qed.

Lemma Forall_filter_keep {A : Type} (P : A -> Prop) (Q : A -> Prop)
    `{forall x, Decision (Q x)} (l : list A) :
  Forall P l -> Forall P (filter Q l).
Proof.
  induction 1 as [| x l Hx _ IH]; [constructor |].
  rewrite filter_cons. destruct (decide (Q x)); [constructor |]; assumption.
Qed.

(** On a well-formed store the totals of a session are recomputed without
    an exception. *)
Lemma updateSessionTotals_Ok (sessionId : Z)
    (data : MiningDatabase.DatabaseData) :
  Forall (fun tx => decimal (MiningDatabase.ethBurnedWei tx) /\
                    decimal (MiningDatabase.fctMintedWei tx))
    (MiningDatabase.transactions data) ->
  exists data' : MiningDatabase.DatabaseData,
    MiningDatabase.updateSessionTotals sessionId data = Ok data' /\
    MiningDatabase.transactions data' = MiningDatabase.transactions data /\
    MiningDatabase.runtimeState data' = MiningDatabase.runtimeState data /\
    MiningDatabase.nextSessionId data' = MiningDatabase.nextSessionId data /\
    MiningDatabase.nextTransactionId data'
    = MiningDatabase.nextTransactionId data /\
    MiningDatabase.sessions data'
    = (if existsb (fun s => MiningDatabase.id s =? sessionId)
            (MiningDatabase.sessions data)
       then
         MiningDatabase.update_first
           (fun s => MiningDatabase.id s =? sessionId)
           (fun s =>
              {| MiningDatabase.id := MiningDatabase.id s;
                 MiningDatabase.startedAt := MiningDatabase.startedAt s;
                 MiningDatabase.endedAt := MiningDatabase.endedAt s;
                 MiningDatabase.totalEthSpentWei :=
                   toString (sessionTotal MiningDatabase.ethBurnedWei
                               sessionId data);
                 MiningDatabase.totalEthSpentEth :=
                   MiningDatabase.sum_number MiningDatabase.ethBurnedEth
                     (filter (fun tx => MiningDatabase.sessionId tx = sessionId)
                        (MiningDatabase.transactions data));
                 MiningDatabase.totalFctMinedWei :=
                   toString (sessionTotal MiningDatabase.fctMintedWei
                               sessionId data);
                 MiningDatabase.totalFctMinedFct :=
                   MiningDatabase.sum_number MiningDatabase.fctMintedFct
                     (filter (fun tx => MiningDatabase.sessionId tx = sessionId)
                        (MiningDatabase.transactions data));
                 MiningDatabase.strategy := MiningDatabase.strategy s;
                 MiningDatabase.status := MiningDatabase.status s |})
           (MiningDatabase.sessions data)
       else MiningDatabase.sessions data).
Proof.
  intros Hdec. unfold MiningDatabase.updateSessionTotals.
  destruct (existsb _ _).
  - rewrite (sum_bigint_decimal MiningDatabase.ethBurnedWei).
    2: { apply Forall_filter_keep.
         eapply Forall_impl; [exact Hdec | intros tx [H _]; exact H]. }
    cbn [mbind result_bind].
    rewrite (sum_bigint_decimal MiningDatabase.fctMintedWei).
    2: { apply Forall_filter_keep.
         eapply Forall_impl; [exact Hdec | intros tx [_ H]; exact H]. }
    cbn [mbind result_bind].
    eexists. split; [reflexivity |]. cbn. repeat split.
  - eexists. split; [reflexivity |]. repeat split.
Qed.

Lemma dbInv_empty : dbInv MiningDatabase.initializeEmpty.
Proof. repeat split; constructor. Qed.

Lemma dbInv_createSession (strategy : string) (now : Z)
    (data : MiningDatabase.DatabaseData) :
  dbInv data -> dbInv (snd (MiningDatabase.createSession strategy now data)).
Proof.
  intros (Hids & Hnodup & Htxs & Htxnodup). repeat split; cbn.
  - apply Forall_app. split.
    + eapply Forall_impl; [exact Hids | cbn; intros; lia].
    + repeat constructor. cbn. lia.
  - rewrite map_app. cbn. apply NoDup_app. repeat split.
    + exact Hnodup.
    + intros sid Hin Hnew. apply list_elem_of_In in Hin, Hnew.
      destruct Hnew as [<- | []].
      apply in_map_iff in Hin as (s & Hs & Hin).
      rewrite List.Forall_forall in Hids. specialize (Hids s Hin). lia.
    + apply NoDup_singleton.
  - exact Htxs.
  - exact Htxnodup.
Qed.

Lemma dbInv_endSession (sessionId now : Z)
    (data : MiningDatabase.DatabaseData) :
  dbInv data -> dbInv (MiningDatabase.endSession sessionId now data).
Proof.
  intros (Hids & Hnodup & Htxs & Htxnodup). repeat split; cbn.
  - apply update_first_Forall; [intros x Hx; exact Hx | exact Hids].
  - rewrite update_first_ids by reflexivity. exact Hnodup.
  - exact Htxs.
  - exact Htxnodup.
Qed.


Lemma saveTransaction_Ok (tx : MiningEngine.MiningResult)
    (sessionId now : Z) (data : MiningDatabase.DatabaseData) :
  dbInv data ->
  exists data' : MiningDatabase.DatabaseData,
    MiningDatabase.saveTransaction tx sessionId now data = Ok data' /\
    dbInv data' /\
    MiningDatabase.runtimeState data' = MiningDatabase.runtimeState data /\
    MiningDatabase.nextSessionId data' = MiningDatabase.nextSessionId data /\
    map MiningDatabase.id (MiningDatabase.sessions data')
    = map MiningDatabase.id (MiningDatabase.sessions data) /\
    exists record : MiningDatabase.TransactionRecord,
      MiningDatabase.transactions data'
      = MiningDatabase.transactions data ++ [record] /\
      MiningDatabase.tx_id record = MiningDatabase.nextTransactionId data /\
      MiningDatabase.sessionId record = sessionId /\
      MiningDatabase.ethBurnedWei record
      = toString (MiningEngine.ethBurned tx) /\
      MiningDatabase.fctMintedWei record
      = toString (MiningEngine.fctMinted tx) /\
      MiningDatabase.timestamp record = now.
Proof.
  intros (Hids & Hnodup & Htxs & Htxnodup).
  unfold MiningDatabase.saveTransaction.
  match goal with
  | |- context [MiningDatabase.updateSessionTotals _ ?d] =>
      destruct (updateSessionTotals_Ok sessionId d)
        as (data' & Hupd & Htx' & Hrs & Hns & Hnt & Hsess)
  end.
  { cbn. apply Forall_app. split.
    - eapply Forall_impl; [exact Htxs | cbn; intros tx0 (_ & H1 & H2); auto].
    - repeat constructor; cbn; eexists; reflexivity. }
  exists data'. split; [exact Hupd |]. cbn in *.
  assert (Hmapid : map MiningDatabase.id (MiningDatabase.sessions data')
                   = map MiningDatabase.id (MiningDatabase.sessions data)).
  { rewrite Hsess. destruct (existsb _ _); [| reflexivity].
    apply update_first_ids. reflexivity. }
  split; [| split; [exact Hrs | split; [exact Hns | split; [exact Hmapid |]]]].
  - repeat split.
    + rewrite Hns, Hsess. destruct (existsb _ _); [| exact Hids].
      apply update_first_Forall; [intros x Hx; exact Hx | exact Hids].
    + rewrite Hmapid. exact Hnodup.
    + rewrite Htx', Hnt. apply Forall_app. split.
      * eapply Forall_impl; [exact Htxs |].
        cbn. intros tx0 (Hlt & H1 & H2). repeat split; auto. lia.
      * repeat constructor; cbn; try lia; eexists; reflexivity.
    + rewrite Htx', map_app. cbn. apply NoDup_app. repeat split.
      * exact Htxnodup.
      * intros i Hin Hnew. apply list_elem_of_In in Hin, Hnew.
        destruct Hnew as [<- | []].
        apply in_map_iff in Hin as (t & Ht & Hin).
        rewrite List.Forall_forall in Htxs. destruct (Htxs t Hin). lia.
      * apply NoDup_singleton.
  - eexists. split; [exact Htx' |]. repeat split.
Qed.

(** The operations of the store keep it well formed, starting from the
    empty store; on a well-formed store [saveTransaction] never throws, and
    [createSession] hands out an identifier that no session has. *)
Theorem store_invariant :
  dbInv MiningDatabase.initializeEmpty /\
  forall data : MiningDatabase.DatabaseData,
    dbInv data ->
    (forall (strategy : string) (now : Z),
        dbInv (snd (MiningDatabase.createSession strategy now data)) /\
        ~ In (fst (MiningDatabase.createSession strategy now data))
            (map MiningDatabase.id (MiningDatabase.sessions data))) /\
    (forall sessionId now : Z,
        dbInv (MiningDatabase.endSession sessionId now data)) /\
    (forall (key value : string) (now : Z),
        dbInv (MiningDatabase.saveRuntimeState key value now data)) /\
    (forall (tx : MiningEngine.MiningResult) (sessionId now : Z),
        exists data' : MiningDatabase.DatabaseData,
          MiningDatabase.saveTransaction tx sessionId now data = Ok data' /\
          dbInv data').
Proof.
  split; [exact dbInv_empty |]. intros data Hinv.
  split; [| split; [| split]].
  - intros strategy now. split.
    + apply dbInv_createSession. exact Hinv.
    + cbn. intros Hin. destruct Hinv as (Hids & _).
      apply in_map_iff in Hin as (s & Hs & Hin).
      rewrite List.Forall_forall in Hids. specialize (Hids s Hin). lia.
  - intros sessionId now. apply dbInv_endSession. exact Hinv.
  - intros key value now. exact Hinv.
  - intros tx sessionId now.
    destruct (saveTransaction_Ok tx sessionId now data Hinv)
      as (data' & Hsave & Hinv' & _).
    exists data'. split; assumption.
Qed.

End StoreInvariant.

Section StoreOperations.

Lemma data_eta (data : MiningDatabase.DatabaseData) :
  {| MiningDatabase.sessions := MiningDatabase.sessions data;
     MiningDatabase.transactions := MiningDatabase.transactions data;
     MiningDatabase.runtimeState := MiningDatabase.runtimeState data;
     MiningDatabase.nextSessionId := MiningDatabase.nextSessionId data;
     MiningDatabase.nextTransactionId := MiningDatabase.nextTransactionId data |}
  = data.
Proof. destruct data. reflexivity. Qed.

Lemma update_first_twice {A : Type} (p : A -> bool) (f g : A -> A)
    (l : list A) :
  (forall x, p x = true -> p (f x) = true) ->
  MiningDatabase.update_first p g (MiningDatabase.update_first p f l)
  = MiningDatabase.update_first p (fun x => g (f x)) l.
Proof.
  intros Hp. induction l as [| x l IH]; cbn; [reflexivity |].
  destruct (p x) eqn:Hx; cbn.
  - rewrite (Hp x Hx). reflexivity.
  - rewrite Hx, IH. reflexivity.
Qed.

Lemma update_first_ext {A : Type} (p : A -> bool) (f g : A -> A)
    (l : list A) :
  (forall x, f x = g x) ->
  MiningDatabase.update_first p f l = MiningDatabase.update_first p g l.
Proof.
  intros Hfg. induction l as [| x l IH]; cbn; [reflexivity |].
  rewrite Hfg, IH. reflexivity.
Qed.

(** [endSession] on an identifier that no session has changes nothing; on a
    known identifier it marks that session as completed at the given time and
    leaves every other session, the transactions and the recovery state as
    they are; ending a session again replaces the end time. *)
Theorem endSession_spec (sessionId now : Z)
    (data : MiningDatabase.DatabaseData) :
  (findSession sessionId data = None ->
   MiningDatabase.endSession sessionId now data = data) /\
  findSession sessionId (MiningDatabase.endSession sessionId now data)
  = option_map (completed now) (findSession sessionId data) /\
  (forall other : Z,
      other <> sessionId ->
      findSession other (MiningDatabase.endSession sessionId now data)
      = findSession other data) /\
  MiningDatabase.transactions (MiningDatabase.endSession sessionId now data)
  = MiningDatabase.transactions data /\
  MiningDatabase.runtimeState (MiningDatabase.endSession sessionId now data)
  = MiningDatabase.runtimeState data /\
  (forall later : Z,
      MiningDatabase.endSession sessionId later
        (MiningDatabase.endSession sessionId now data)
      = MiningDatabase.endSession sessionId later data).
Proof.
  unfold findSession. split; [| split; [| split; [| split; [| split]]]].
  - intros Hnone. unfold MiningDatabase.endSession.
    rewrite update_first_absent by exact Hnone. apply data_eta.
  - cbn. apply find_update_first. intros x Hx. exact Hx.
  - intros other Hother. cbn. apply find_update_first_other.
    intros x Hx. cbn. apply Z.eqb_eq in Hx.
    split; apply Z.eqb_neq; lia.
  - reflexivity.
  - reflexivity.
  - intros later. unfold MiningDatabase.endSession. cbn. f_equal.
    rewrite update_first_twice by (intros x Hx; exact Hx).
    apply update_first_ext. intros x. reflexivity.
Qed.

Lemma fold_wei_shift (field : MiningDatabase.TransactionRecord -> string)
    (l : list MiningDatabase.TransactionRecord) (c : Z) :
  fold_right (fun tx sum => weiOf (field tx) + sum) c l
  = fold_right (fun tx sum => weiOf (field tx) + sum) 0 l + c.
Proof.
  induction l as [| x l IH]; simpl; [reflexivity | rewrite IH; lia].
Qed.

Lemma sessionTotal_app (field : MiningDatabase.TransactionRecord -> string)
    (sessionId : Z) (l : list MiningDatabase.TransactionRecord)
    (record : MiningDatabase.TransactionRecord) :
  fold_right (fun tx sum => weiOf (field tx) + sum) 0
    (filter (fun tx => MiningDatabase.sessionId tx = sessionId)
       (l ++ [record]))
  = fold_right (fun tx sum => weiOf (field tx) + sum) 0
      (filter (fun tx => MiningDatabase.sessionId tx = sessionId) l)
    + (if decide (MiningDatabase.sessionId record = sessionId)
       then weiOf (field record) else 0).
Proof.
  rewrite filter_app, fold_right_app, fold_wei_shift. f_equal.
  rewrite filter_cons, filter_nil.
  destruct (decide (MiningDatabase.sessionId record = sessionId)); simpl; lia.
Qed.

Lemma saveTransaction_session (tx : MiningEngine.MiningResult)
    (sessionId now : Z) (data : MiningDatabase.DatabaseData)
    (session : MiningDatabase.SessionRow) :
  dbInv data -> findSession sessionId data = Some session ->
  exists (data' : MiningDatabase.DatabaseData)
         (session' : MiningDatabase.SessionRow),
    MiningDatabase.saveTransaction tx sessionId now data = Ok data' /\
    findSession sessionId data' = Some session' /\
    sessionTotal MiningDatabase.ethBurnedWei sessionId data'
    = sessionTotal MiningDatabase.ethBurnedWei sessionId data
      + MiningEngine.ethBurned tx /\
    sessionTotal MiningDatabase.fctMintedWei sessionId data'
    = sessionTotal MiningDatabase.fctMintedWei sessionId data
      + MiningEngine.fctMinted tx /\
    MiningDatabase.totalEthSpentWei session'
    = toString (sessionTotal MiningDatabase.ethBurnedWei sessionId data') /\
    MiningDatabase.totalFctMinedWei session'
    = toString (sessionTotal MiningDatabase.fctMintedWei sessionId data') /\
    (forall other : Z,
        other <> sessionId ->
        findSession other data' = findSession other data /\
        sessionTotal MiningDatabase.ethBurnedWei other data'
        = sessionTotal MiningDatabase.ethBurnedWei other data /\
        sessionTotal MiningDatabase.fctMintedWei other data'
        = sessionTotal MiningDatabase.fctMintedWei other data).
Proof.
  intros Hinv Hfind. pose proof Hinv as (Hids & Hnodup & Htxs & Htxnodup).
  unfold MiningDatabase.saveTransaction.
  match goal with
  | |- context [MiningDatabase.updateSessionTotals _ ?d] =>
      set (pushed := d);
      destruct (updateSessionTotals_Ok sessionId pushed)
        as (data' & Hupd & Htx' & _ & _ & _ & Hsess)
  end.
  { subst pushed. cbn. apply Forall_app. split.
    - eapply Forall_impl; [exact Htxs | cbn; intros tx0 (_ & H1 & H2); auto].
    - repeat constructor; cbn; eexists; reflexivity. }
  assert (Hexists : existsb (fun s => MiningDatabase.id s =? sessionId)
                      (MiningDatabase.sessions pushed) = true).
  { subst pushed. cbn. apply existsb_exists.
    unfold findSession in Hfind. apply find_some in Hfind.
    exists session. exact Hfind. }
  rewrite Hexists in Hsess.
  assert (Heth : sessionTotal MiningDatabase.ethBurnedWei sessionId pushed
                 = sessionTotal MiningDatabase.ethBurnedWei sessionId data
                   + MiningEngine.ethBurned tx).
  { unfold sessionTotal. subst pushed. cbn [MiningDatabase.transactions].
    rewrite sessionTotal_app. cbn.
    destruct (decide (sessionId = sessionId)); [| congruence].
    rewrite weiOf_toString. reflexivity. }
  assert (Hfct : sessionTotal MiningDatabase.fctMintedWei sessionId pushed
                 = sessionTotal MiningDatabase.fctMintedWei sessionId data
                   + MiningEngine.fctMinted tx).
  { unfold sessionTotal. subst pushed. cbn [MiningDatabase.transactions].
    rewrite sessionTotal_app. cbn.
    destruct (decide (sessionId = sessionId)); [| congruence].
    rewrite weiOf_toString. reflexivity. }
  assert (Hsame : forall field other,
             sessionTotal field other data' = sessionTotal field other pushed).
  { intros field other. unfold sessionTotal. rewrite Htx'. reflexivity. }
  exists data'. eexists. split; [exact Hupd |].
  split; [| split; [| split; [| split; [| split]]]].
  - unfold findSession. rewrite Hsess.
    rewrite find_update_first by (intros x Hx; exact Hx).
    subst pushed. cbn [MiningDatabase.sessions].
    unfold findSession in Hfind. rewrite Hfind. reflexivity.
  - rewrite Hsame. exact Heth.
  - rewrite Hsame. exact Hfct.
  - cbn. rewrite Hsame. reflexivity.
  - cbn. rewrite Hsame. reflexivity.
  - intros other Hother. split; [| split].
    + unfold findSession. rewrite Hsess.
      rewrite find_update_first_other; [reflexivity |].
      intros x Hx. cbn. apply Z.eqb_eq in Hx. split; apply Z.eqb_neq; lia.
    + rewrite Hsame. unfold sessionTotal. subst pushed.
      cbn [MiningDatabase.transactions]. rewrite sessionTotal_app. cbn.
      destruct (decide (sessionId = other)); [congruence | lia].
    + rewrite Hsame. unfold sessionTotal. subst pushed.
      cbn [MiningDatabase.transactions]. rewrite sessionTotal_app. cbn.
      destruct (decide (sessionId = other)); [congruence | lia].
Qed.

(** The totals of a session are the sums over its transactions:
    [saveTransaction] for an existing session of a well-formed store appends
    the record and leaves in the session the decimal strings of the sums of
    the cost and of the yield of all its transactions, the new one
    included; the other sessions keep their totals. *)
Theorem saveTransaction_totals (tx : MiningEngine.MiningResult)
    (sessionId now : Z) (data : MiningDatabase.DatabaseData)
    (session : MiningDatabase.SessionRow) :
  dbInv data -> findSession sessionId data = Some session ->
  exists (data' : MiningDatabase.DatabaseData)
         (session' : MiningDatabase.SessionRow)
         (record : MiningDatabase.TransactionRecord),
    MiningDatabase.saveTransaction tx sessionId now data = Ok data' /\
    dbInv data' /\
    MiningDatabase.transactions data'
    = MiningDatabase.transactions data ++ [record] /\
    MiningDatabase.tx_id record = MiningDatabase.nextTransactionId data /\
    MiningDatabase.sessionId record = sessionId /\
    findSession sessionId data' = Some session' /\
    sessionTotal MiningDatabase.ethBurnedWei sessionId data'
    = sessionTotal MiningDatabase.ethBurnedWei sessionId data
      + MiningEngine.ethBurned tx /\
    sessionTotal MiningDatabase.fctMintedWei sessionId data'
    = sessionTotal MiningDatabase.fctMintedWei sessionId data
      + MiningEngine.fctMinted tx /\
    MiningDatabase.totalEthSpentWei session'
    = toString (sessionTotal MiningDatabase.ethBurnedWei sessionId data') /\
    MiningDatabase.totalFctMinedWei session'
    = toString (sessionTotal MiningDatabase.fctMintedWei sessionId data') /\
    (forall other : Z,
        other <> sessionId ->
        findSession other data' = findSession other data /\
        sessionTotal MiningDatabase.ethBurnedWei other data'
        = sessionTotal MiningDatabase.ethBurnedWei other data /\
        sessionTotal MiningDatabase.fctMintedWei other data'
        = sessionTotal MiningDatabase.fctMintedWei other data).
Proof.
  intros Hinv Hfind.
  destruct (saveTransaction_session tx sessionId now data session Hinv Hfind)
    as (data' & session' & Hsave & Hfind' & Heth & Hfct & Hs1 & Hs2 & Hother).
  destruct (saveTransaction_Ok tx sessionId now data Hinv)
    as (data'' & Hsave' & Hinv' & _ & _ & _ & record & Htxs & Hid & Hsid & _).
  rewrite Hsave in Hsave'. injection Hsave' as <-.
  exists data', session', record.
  split; [exact Hsave |]. split; [exact Hinv' |]. split; [exact Htxs |].
  split; [exact Hid |]. split; [exact Hsid |]. split; [exact Hfind' |].
  split; [exact Heth |]. split; [exact Hfct |]. split; [exact Hs1 |].
  split; [exact Hs2 | exact Hother].
Qed.

End StoreOperations.

Section StoreQueries.

Lemma saveTransaction_totals_witness :
  exists (data' : MiningDatabase.DatabaseData)
         (session' : MiningDatabase.SessionRow),
    MiningDatabase.saveTransaction
      (MiningEngine.mkResult "0xaa" "0xbb" 5000 7000 (Fin 97) 1 26000 1 1)
      1 200
      (snd (MiningDatabase.createSession "auto" 100
              MiningDatabase.initializeEmpty)) = Ok data' /\
    findSession 1 data' = Some session' /\
    MiningDatabase.totalEthSpentWei session' = "5000" /\
    MiningDatabase.totalFctMinedWei session' = "7000".
Proof.
  destruct (saveTransaction_totals
              (MiningEngine.mkResult "0xaa" "0xbb" 5000 7000 (Fin 97) 1 26000 1 1)
              1 200
              (snd (MiningDatabase.createSession "auto" 100
                      MiningDatabase.initializeEmpty))
              _
              (dbInv_createSession "auto" 100 _ dbInv_empty) eq_refl)
    as (data' & session' & record & Hsave & _ & _ & _ & _ & Hfind & Heth
        & Hfct & Hs1 & Hs2 & _).
  exists data', session'. split; [exact Hsave |]. split; [exact Hfind |].
  rewrite Hs1, Hs2, Heth, Hfct. split; reflexivity.
Defined.

(** [getRecentTransactions] with a positive limit returns the last [limit]
    transactions of the store, the last one first; with a limit of 0 it
    returns all of them ([slice(-0)] is [slice(0)]); with a negative limit it
    drops the first [-limit] ones; without a limit it returns at most 10. *)
Theorem getRecentTransactions_spec (data : MiningDatabase.DatabaseData) :
  (forall limit : Z,
      0 < limit ->
      MiningDatabase.getRecentTransactions (Some limit) data
      = take (Z.to_nat limit) (rev (MiningDatabase.transactions data))) /\
  MiningDatabase.getRecentTransactions (Some 0) data
  = rev (MiningDatabase.transactions data) /\
  (forall limit : Z,
      limit < 0 ->
      MiningDatabase.getRecentTransactions (Some limit) data
      = rev (drop (Z.to_nat (- limit)) (MiningDatabase.transactions data))) /\
  MiningDatabase.getRecentTransactions None data
  = take 10 (rev (MiningDatabase.transactions data)).
Proof.
  assert (Hpos : forall limit : Z,
             0 < limit ->
             MiningDatabase.getRecentTransactions (Some limit) data
             = take (Z.to_nat limit) (rev (MiningDatabase.transactions data))).
  { intros limit Hlimit.
    unfold MiningDatabase.getRecentTransactions, slice_from.
    cbn [default from_option id].
    destruct (Z.ltb_spec (- limit) 0); [| lia].
    rewrite firstn_rev. do 2 f_equal. lia. }
  split; [exact Hpos |]. split; [| split].
  - unfold MiningDatabase.getRecentTransactions, slice_from.
    cbn [default from_option id].
    change (- 0 <? 0) with false. cbv iota.
    replace (Z.to_nat (Z.min (- 0) _)) with 0%nat by lia. reflexivity.
  - intros limit Hlimit.
    unfold MiningDatabase.getRecentTransactions, slice_from.
    cbn [default from_option id].
    destruct (Z.ltb_spec (- limit) 0); [lia |].
    f_equal.
    destruct (Z.le_ge_cases (- limit)
                (Z.of_nat (length (MiningDatabase.transactions data))))
      as [Hin | Hout].
    + rewrite Z.min_l by exact Hin. reflexivity.
    + rewrite Z.min_r by lia. rewrite Nat2Z.id.
      rewrite !skipn_all2 by lia. reflexivity.
  - apply (Hpos 10). lia.
Qed.

(** [getSessionStats] returns null exactly for an identifier that no session
    has; otherwise the statistics carry that identifier, the number of
    transactions of the session and the totals stored in the session; and
    the two averages are guarded: without a transaction the average
    efficiency is 0, and with a yield total of 0 the average cost is 0. *)
Theorem getSessionStats_spec (sessionId : Z)
    (data : MiningDatabase.DatabaseData) :
  (MiningDatabase.getSessionStats sessionId data = None <->
   ~ In sessionId (map MiningDatabase.id (MiningDatabase.sessions data))) /\
  (forall stats : MiningDatabase.Stats.SessionStats,
      MiningDatabase.getSessionStats sessionId data = Some stats ->
      exists session : MiningDatabase.SessionRow,
        findSession sessionId data = Some session /\
        MiningDatabase.Stats.sessionId stats = sessionId /\
        MiningDatabase.Stats.txCount stats
        = Z.of_nat
            (length (filter (fun tx => MiningDatabase.sessionId tx = sessionId)
                       (MiningDatabase.transactions data))) /\
        MiningDatabase.Stats.totalEthWei stats
        = MiningDatabase.totalEthSpentWei session /\
        MiningDatabase.Stats.totalFctWei stats
        = MiningDatabase.totalFctMinedWei session /\
        (MiningDatabase.Stats.txCount stats = 0 ->
         MiningDatabase.Stats.avgEfficiency stats = Fin 0) /\
        (MiningDatabase.totalFctMinedFct session = Fin 0 ->
         MiningDatabase.Stats.avgCostPerFct stats = Fin 0)).
Proof.
  unfold MiningDatabase.getSessionStats, findSession. split.
  - rewrite find_session_In.
    destruct (List.find _ (MiningDatabase.sessions data)) as [s |].
    + split; [discriminate |]. intros H. destruct H. eexists. reflexivity.
    + split; [| reflexivity]. intros _ [s [=]].
  - intros stats.
    destruct (List.find _ (MiningDatabase.sessions data)) as [s |] eqn:Hfind;
      [| discriminate].
    intros [= <-]. exists s. split; [reflexivity |]. cbn.
    apply find_some in Hfind as [_ Hid]. apply Z.eqb_eq in Hid.
    repeat split; try assumption.
    + intros Hcount.
      destruct (Z.ltb_spec 0
                  (Z.of_nat
                     (length
                        (filter (fun tx => MiningDatabase.sessionId tx = sessionId)
                           (MiningDatabase.transactions data)))));
        [lia | reflexivity].
    + intros ->. reflexivity.
Qed.

Lemma insert_by_timestamp_perm (tx : MiningDatabase.TransactionRecord)
    (sorted : list MiningDatabase.TransactionRecord) :
  Permutation (MiningDatabase.insert_by_timestamp tx sorted) (tx :: sorted).
Proof.
  induction sorted as [| y sorted IH]; cbn; [reflexivity |].
  destruct (MiningDatabase.timestamp y <? MiningDatabase.timestamp tx);
    [reflexivity |].
  rewrite IH. apply perm_swap.
Qed.

Lemma insert_by_timestamp_sorted (tx : MiningDatabase.TransactionRecord)
    (sorted : list MiningDatabase.TransactionRecord) :
  StronglySorted newerFirst sorted ->
  StronglySorted newerFirst (MiningDatabase.insert_by_timestamp tx sorted).
Proof.
  induction 1 as [| y sorted Hsorted IH Hall]; cbn.
  - repeat constructor.
  - destruct (Z.ltb_spec (MiningDatabase.timestamp y)
                (MiningDatabase.timestamp tx)) as [Hlt | Hge].
    + constructor; [constructor; assumption |].
      constructor; [unfold newerFirst; lia |].
      eapply Forall_impl; [exact Hall |].
      unfold newerFirst. intros z Hz. lia.
    + constructor; [exact IH |].
      rewrite (insert_by_timestamp_perm tx sorted).
      constructor; [exact Hge | exact Hall].
Qed.

Lemma sort_newest_first_spec (txs : list MiningDatabase.TransactionRecord) :
  StronglySorted newerFirst (MiningDatabase.sort_newest_first txs) /\
  Permutation (MiningDatabase.sort_newest_first txs) txs.
Proof.
  unfold MiningDatabase.sort_newest_first.
  assert (Hgen : forall acc,
             StronglySorted newerFirst acc ->
             StronglySorted newerFirst
               (fold_left (fun sorted tx =>
                             MiningDatabase.insert_by_timestamp tx sorted)
                  txs acc) /\
             Permutation
               (fold_left (fun sorted tx =>
                             MiningDatabase.insert_by_timestamp tx sorted)
                  txs acc) (acc ++ txs)).
  { induction txs as [| tx txs IH]; intros acc Hacc; cbn.
    - rewrite app_nil_r. split; [exact Hacc | reflexivity].
    - destruct (IH _ (insert_by_timestamp_sorted tx acc Hacc)) as [Hs Hp].
      split; [exact Hs |]. rewrite Hp, insert_by_timestamp_perm.
      cbn [app]. apply Permutation_middle. }
  destruct (Hgen [] ltac:(constructor)) as [Hs Hp].
  split; assumption.
Qed.

(** [getTransactionsForAnalysis] returns the selected transactions ordered
    newest first: those of the session when a session identifier is given,
    else those newer than the cutoff when a number of days is given, else
    all of them; an identifier or a number of days of 0 counts as absent.
    With a selection the store stays as it is; without one the stored array
    itself is sorted, so the store ends up newest first as well. *)
Theorem getTransactionsForAnalysis_spec (now : Z)
    (data : MiningDatabase.DatabaseData) :
  (forall (sid : Z) (days : option Z),
      sid <> 0 ->
      let r := MiningDatabase.getTransactionsForAnalysis
                 (Some (MiningDatabase.mkOptions (Some sid) days)) now data in
      snd r = data /\
      StronglySorted newerFirst (fst r) /\
      Permutation (fst r)
        (filter (fun tx => MiningDatabase.sessionId tx = sid)
           (MiningDatabase.transactions data))) /\
  (forall (sid : option Z) (days : Z),
      sid = None \/ sid = Some 0 -> days <> 0 ->
      let r := MiningDatabase.getTransactionsForAnalysis
                 (Some (MiningDatabase.mkOptions sid (Some days))) now data in
      snd r = data /\
      StronglySorted newerFirst (fst r) /\
      Permutation (fst r)
        (filter (fun tx => now - days * 86400000 < MiningDatabase.timestamp tx)
           (MiningDatabase.transactions data))) /\
  (forall opts : option MiningDatabase.AnalysisOptions,
      opts = None \/
      (exists sid days : option Z,
          opts = Some (MiningDatabase.mkOptions sid days) /\
          (sid = None \/ sid = Some 0) /\ (days = None \/ days = Some 0)) ->
      let r := MiningDatabase.getTransactionsForAnalysis opts now data in
      StronglySorted newerFirst (fst r) /\
      Permutation (fst r) (MiningDatabase.transactions data) /\
      MiningDatabase.transactions (snd r) = fst r /\
      MiningDatabase.sessions (snd r) = MiningDatabase.sessions data /\
      MiningDatabase.runtimeState (snd r) = MiningDatabase.runtimeState data /\
      MiningDatabase.nextSessionId (snd r)
      = MiningDatabase.nextSessionId data /\
      MiningDatabase.nextTransactionId (snd r)
      = MiningDatabase.nextTransactionId data).
Proof.
  split; [| split].
  - intros sid days Hsid. unfold MiningDatabase.getTransactionsForAnalysis.
    cbn [MiningDatabase.opt_sessionId MiningDatabase.opt_days].
    destruct (Z.eqb_spec sid 0) as [| _]; [contradiction |].
    cbn [fst snd]. split; [reflexivity |]. apply sort_newest_first_spec.
  - intros sid days Hsid Hdays.
    unfold MiningDatabase.getTransactionsForAnalysis.
    cbn [MiningDatabase.opt_sessionId MiningDatabase.opt_days].
    destruct (Z.eqb_spec days 0) as [| _]; [contradiction |].
    destruct Hsid as [-> | ->]; cbn [fst snd Z.eqb];
      (split; [reflexivity |]); apply sort_newest_first_spec.
  - intros opts Hopts. unfold MiningDatabase.getTransactionsForAnalysis.
    destruct Hopts as [-> | (sid & days & -> & Hsid & Hdays)].
    + cbn [fst snd MiningDatabase.transactions MiningDatabase.sessions
           MiningDatabase.runtimeState MiningDatabase.nextSessionId
           MiningDatabase.nextTransactionId].
      destruct (sort_newest_first_spec (MiningDatabase.transactions data)).
      repeat split; assumption.
    + cbn [MiningDatabase.opt_sessionId MiningDatabase.opt_days].
      destruct Hsid as [-> | ->], Hdays as [-> | ->];
        cbn [fst snd Z.eqb MiningDatabase.transactions MiningDatabase.sessions
             MiningDatabase.runtimeState MiningDatabase.nextSessionId
             MiningDatabase.nextTransactionId];
        destruct (sort_newest_first_spec (MiningDatabase.transactions data));
        repeat split; assumption.
Qed.

Lemma StronglySorted_app_inv {A : Type} (R : A -> A -> Prop)
    (l1 l2 : list A) :
  StronglySorted R (l1 ++ l2) ->
  forall a b : A, In a l1 -> In b l2 -> R a b.
Proof.
  induction l1 as [| x l1 IH]; intros Hsorted a b Ha Hb; [destruct Ha |].
  cbn in Hsorted. inversion Hsorted as [| ? ? Htail Hall]; subst.
  destruct Ha as [<- | Ha].
  - rewrite List.Forall_forall in Hall. apply Hall.
    apply in_or_app. right. exact Hb.
  - exact (IH Htail a b Ha Hb).
Qed.

(** After an analysis over all transactions the store is ordered newest
    first, and [getRecentTransactions], which takes the end of the stored
    array, returns the oldest transactions instead of the most recent ones:
    every transaction that it leaves out is at least as new as every
    transaction that it returns. *)
Theorem getRecentTransactions_after_analysis (now : Z) (limit : option Z)
    (data : MiningDatabase.DatabaseData) :
  let data' :=
    snd (MiningDatabase.getTransactionsForAnalysis None now data) in
  let recent := MiningDatabase.getRecentTransactions limit data' in
  Permutation (MiningDatabase.transactions data')
    (MiningDatabase.transactions data) /\
  exists left_out : list MiningDatabase.TransactionRecord,
    MiningDatabase.transactions data' = left_out ++ rev recent /\
    (forall a b : MiningDatabase.TransactionRecord,
        In a left_out -> In b recent ->
        MiningDatabase.timestamp b <= MiningDatabase.timestamp a) /\
    (0 < default 10 limit ->
     length recent
     = Nat.min (Z.to_nat (default 10 limit))
         (length (MiningDatabase.transactions data))).
Proof.
  cbn zeta. unfold MiningDatabase.getTransactionsForAnalysis.
  cbn [snd MiningDatabase.transactions].
  destruct (sort_newest_first_spec (MiningDatabase.transactions data))
    as [Hsorted Hperm].
  split; [exact Hperm |].
  unfold MiningDatabase.getRecentTransactions, slice_from.
  cbn [MiningDatabase.transactions].
  set (sorted := MiningDatabase.sort_newest_first
                   (MiningDatabase.transactions data)) in *.
  set (k := Z.to_nat _).
  exists (take k sorted). rewrite rev_involutive.
  split; [symmetry; apply take_drop |]. split.
  - intros a b Ha Hb. apply in_rev in Hb.
    rewrite <- (take_drop k sorted) in Hsorted.
    exact (StronglySorted_app_inv newerFirst _ _ Hsorted a b Ha Hb).
  - intros Hlimit.
    rewrite length_rev, length_drop.
    rewrite <- (Permutation_length Hperm).
    subst k. destruct (Z.ltb_spec (- default 10 limit) 0); lia.
Qed.

End StoreQueries.

(** ** The counters of the control loop and the store *)

Section Counters.








End Counters.


(** ** The keys of the recovery state *)

Section RecoveryKeys.

(** The recovery state of a session is kept under two keys of its own: what
    is saved under one of them is read back under it, and saving it changes
    neither the other counter of the session nor any counter of another
    session. *)
Theorem recoveryState_keys (a b : Z) (value : string) (now : Z)
    (data : MiningDatabase.DatabaseData) :
  let savedSpent :=
    MiningDatabase.saveRuntimeState (AutoMiner.spentKey a) value now data in
  let savedMined :=
    MiningDatabase.saveRuntimeState (AutoMiner.minedKey a) value now data in
  MiningDatabase.getRuntimeState (AutoMiner.spentKey a) savedSpent
  = Some value /\
  MiningDatabase.getRuntimeState (AutoMiner.minedKey a) savedMined
  = Some value /\
  MiningDatabase.getRuntimeState (AutoMiner.minedKey b) savedSpent
  = MiningDatabase.getRuntimeState (AutoMiner.minedKey b) data /\
  MiningDatabase.getRuntimeState (AutoMiner.spentKey b) savedMined
  = MiningDatabase.getRuntimeState (AutoMiner.spentKey b) data /\
  (a <> b ->
   MiningDatabase.getRuntimeState (AutoMiner.spentKey b) savedSpent
   = MiningDatabase.getRuntimeState (AutoMiner.spentKey b) data /\
   MiningDatabase.getRuntimeState (AutoMiner.minedKey b) savedMined
   = MiningDatabase.getRuntimeState (AutoMiner.minedKey b) data).
Proof.
  cbv zeta. rewrite !getRuntimeState_save.
  split; [| split; [| split; [| split]]].
  - destruct (decide (AutoMiner.spentKey a = AutoMiner.spentKey a));
      [reflexivity | congruence].
  - destruct (decide (AutoMiner.minedKey a = AutoMiner.minedKey a));
      [reflexivity | congruence].
  - destruct (decide (AutoMiner.spentKey a = AutoMiner.minedKey b)) as [E |];
      [destruct (spentKey_minedKey _ _ E) | reflexivity].
  - destruct (decide (AutoMiner.minedKey a = AutoMiner.spentKey b)) as [E |];
      [symmetry in E; destruct (spentKey_minedKey _ _ E) | reflexivity].
  - intros Hne. split.
    + destruct (decide (AutoMiner.spentKey a = AutoMiner.spentKey b))
        as [E |]; [destruct (Hne (spentKey_inj _ _ E)) | reflexivity].
    + destruct (decide (AutoMiner.minedKey a = AutoMiner.minedKey b))
        as [E |]; [destruct (Hne (minedKey_inj _ _ E)) | reflexivity].
Qed.

End RecoveryKeys.

(** ** One cycle of the control loop *)

Section Cycle.

Local Open Scope Q_scope.

Variable env : AutoMiner.Environment.

(** On a context that was collected, the counters are those of the miner. *)
Lemma collectContext_counters (this : AutoMiner.AutoMiner)
    (ctx : RuntimeContext) :
  AutoMiner.collectContext env this = Ok ctx ->
  sessionSpent ctx = AutoMiner.sessionSpent this /\
  sessionMined ctx = AutoMiner.sessionMined this /\
  (AutoMiner.isMainnet env = false -> dexSpotPrice ctx = None) /\
  (AutoMiner.getSwapQuote env = Ok None -> dexSpotPrice ctx = None) /\
  (AutoMiner.getSwapQuote env = Ok (Some 0%Z) ->
   dexSpotPrice ctx = None \/ dexSpotPrice ctx = Some 0%Z).
Proof.
  unfold AutoMiner.collectContext.
  destruct (AutoMiner.getNetworkConditions env) as [c |];
    cbn [mbind result_bind]; [| discriminate].
  destruct (AutoMiner.isMainnet env).
  - destruct (AutoMiner.getSwapQuote env) as [quote |];
      cbn [mbind result_bind]; [| discriminate].
    intros [= <-]. cbn. repeat split; try discriminate.
    + intros [= ->]. reflexivity.
    + intros [= ->]. right. reflexivity.
  - cbn [mbind result_bind]. intros [= <-]. cbn.
    repeat split; try reflexivity. intros _. left. reflexivity.
Qed.

(** A cycle whose rules do not pass does nothing. *)
Lemma miningCycle_rules_fail (this : AutoMiner.AutoMiner)
    (ctx : RuntimeContext) :
  AutoMiner.collectContext env this = Ok ctx ->
  evaluateRules
    (buildRulesFromConfig (AutoMiner.isMainnet env) (AutoMiner.config this))
    ctx = Ok false ->
  AutoMiner.miningCycle env this = ([], Ok (this, false)).
Proof.
  intros Hctx Hrules. unfold AutoMiner.miningCycle, AutoMiner.setupRules.
  rewrite Hctx. cbn [mbind result_bind]. rewrite Hrules. reflexivity.
Qed.

Lemma miningCycle_no_context (this : AutoMiner.AutoMiner) (e : JsError) :
  AutoMiner.collectContext env this = Throw e ->
  AutoMiner.miningCycle env this = ([], Throw e).
Proof.
  intros Hctx. unfold AutoMiner.miningCycle. rewrite Hctx. reflexivity.
Qed.

(** Once the spend of the session has reached the budget, a cycle submits
    nothing and changes nothing, whatever the network, the price feed, the
    exchange and the engine answer: it ends before the engine is called,
    either with the miner as it was or, when the network conditions or the
    quote cannot be fetched, with their exception. *)
Theorem miningCycle_budget_reached (this : AutoMiner.AutoMiner) (maxEth : Q) :
  dailyBudgetEth (AutoMiner.config this) = Some (Fin maxEth) ->
  is_double maxEth ->
  maxEth * inject_Z (10 ^ 18) <= inject_Z (AutoMiner.sessionSpent this) ->
  AutoMiner.miningCycle env this = ([], Ok (this, false)) \/
  exists e : JsError,
    AutoMiner.collectContext env this = Throw e /\
    AutoMiner.miningCycle env this = ([], Throw e).
Proof.
  intros Hbudget Hmax Hreached.
  destruct (AutoMiner.collectContext env this) as [ctx | e] eqn:Hctx.
  - left. apply (miningCycle_rules_fail this ctx Hctx).
    destruct (collectContext_counters this ctx Hctx) as (Hspent & _).
    apply (evaluateRules_fails _ ctx (budgetRule (Fin maxEth))).
    + apply built_rules_resolve.
    + unfold buildRulesFromConfig. rewrite Hbudget.
      do 3 (apply in_or_app; right). apply in_or_app. left. left. reflexivity.
    + unfold budgetRule. f_equal. rewrite Hspent.
      destruct (number_lt (Number_formatEther (AutoMiner.sessionSpent this))
                  (Fin maxEth)) eqn:Hlt; [| reflexivity].
      apply (proj1 (Number_formatEther_lt _ _ Hmax)) in Hlt. lra.
  - right. exists e. split; [reflexivity |].
    apply miningCycle_no_context. exact Hctx.
Qed.

(** Under the arbitrage strategy a cycle fails closed: away from mainnet,
    without a quote or with a spot price of zero it submits nothing and
    changes nothing. *)
Theorem miningCycle_arbitrage_closed (this : AutoMiner.AutoMiner) :
  strategy (AutoMiner.config this) = ARBITRAGE ->
  AutoMiner.isMainnet env = false \/
  AutoMiner.getSwapQuote env = Ok None \/
  AutoMiner.getSwapQuote env = Ok (Some 0%Z) ->
  AutoMiner.miningCycle env this = ([], Ok (this, false)) \/
  exists e : JsError,
    AutoMiner.collectContext env this = Throw e /\
    AutoMiner.miningCycle env this = ([], Throw e).
Proof.
  intros Hstrategy Hclosed.
  destruct (AutoMiner.collectContext env this) as [ctx | e] eqn:Hctx.
  - left. apply (miningCycle_rules_fail this ctx Hctx).
    destruct (collectContext_counters this ctx Hctx)
      as (_ & _ & Hoff & Hnone & Hzero).
    apply (evaluateRules_fails _ ctx (arbitrageRule (AutoMiner.isMainnet env))).
    + apply built_rules_resolve.
    + unfold buildRulesFromConfig. rewrite Hstrategy.
      repeat (apply in_or_app; right). left. reflexivity.
    + destruct (arbitrageRule_spec (AutoMiner.isMainnet env) ctx)
        as (cost & _ & ->).
      destruct Hclosed as [Hnet | [Hq | Hq]].
      * rewrite (Hoff Hnet). reflexivity.
      * rewrite (Hnone Hq). reflexivity.
      * destruct (Hzero Hq) as [-> | ->]; reflexivity.
  - right. exists e. split; [reflexivity |].
    apply miningCycle_no_context. exact Hctx.
Qed.

End Cycle.

Lemma miningCycle_budget_reached_witness :
  AutoMiner.miningCycle
    (AutoMiner.mkEnvironment
       (Ok (MiningEngine.mkConditions 20 30 4 1 7)) (Fin 3500) false (Ok None)
       (fun _ _ => Throw (Error "no network")) 100)
    (AutoMiner.mkMiner
       (MiningRules.mkConfig AUTO None None None (Some (Fin 1)) None None None)
       true 1 (10 ^ 18) 0 MiningDatabase.initializeEmpty)
  = ([], Ok (AutoMiner.mkMiner
               (MiningRules.mkConfig AUTO None None None (Some (Fin 1)) None
                  None None)
               true 1 (10 ^ 18) 0 MiningDatabase.initializeEmpty, false)).
Proof.
  destruct (miningCycle_budget_reached
              (AutoMiner.mkEnvironment
                 (Ok (MiningEngine.mkConditions 20 30 4 1 7)) (Fin 3500) false
                 (Ok None) (fun _ _ => Throw (Error "no network")) 100)
              (AutoMiner.mkMiner
                 (MiningRules.mkConfig AUTO None None None (Some (Fin 1)) None
                    None None)
                 true 1 (10 ^ 18) 0 MiningDatabase.initializeEmpty)
              1%Q eq_refl)
    as [H | (e & He & _)].
  - exists 1%Z, 0%Z. split; [lia |]. split; [lia | reflexivity].
  - vm_compute. discriminate.
  - exact H.
  - vm_compute in He. discriminate He.
Defined.

Lemma miningCycle_arbitrage_closed_witness :
  AutoMiner.miningCycle
    (AutoMiner.mkEnvironment
       (Ok (MiningEngine.mkConditions 20 30 4 1 7)) (Fin 3500) true (Ok None)
       (fun _ _ => Throw (Error "no network")) 100)
    (AutoMiner.mkMiner
       (MiningRules.mkConfig ARBITRAGE None None None None None None None)
       true 1 0 0 MiningDatabase.initializeEmpty)
  = ([], Ok (AutoMiner.mkMiner
               (MiningRules.mkConfig ARBITRAGE None None None None None None
                  None)
               true 1 0 0 MiningDatabase.initializeEmpty, false)).
Proof.
  destruct (miningCycle_arbitrage_closed
              (AutoMiner.mkEnvironment
                 (Ok (MiningEngine.mkConditions 20 30 4 1 7)) (Fin 3500) true
                 (Ok None) (fun _ _ => Throw (Error "no network")) 100)
              (AutoMiner.mkMiner
                 (MiningRules.mkConfig ARBITRAGE None None None None None None
                    None)
                 true 1 0 0 MiningDatabase.initializeEmpty)
              eq_refl (or_intror (or_introl eq_refl)))
    as [H | (e & He & _)].
  - exact H.
  - vm_compute in He. discriminate He.
Defined.

(** ** What a cycle can do *)

Section CycleOutcome.

Variable env : AutoMiner.Environment.



End CycleOutcome.


(** ** Stopping *)

Section Stop.

(** [stop] on a miner that is not running does nothing and does not end the
    process.  On a running miner it ends the process, clears the running
    flag, keeps the counters and marks the session of the miner as completed
    in the store, leaving the other sessions, the transactions and the
    recovery state as they are; a miner that never started (session
    identifier 0) leaves the store untouched. *)
Theorem stop_spec (now : Z) (this : AutoMiner.AutoMiner) :
  (AutoMiner.running this = false ->
   AutoMiner.stop now this = (this, false)) /\
  (AutoMiner.running this = true ->
   let m := fst (AutoMiner.stop now this) in
   snd (AutoMiner.stop now this) = true /\
   AutoMiner.running m = false /\
   AutoMiner.sessionId m = AutoMiner.sessionId this /\
   AutoMiner.sessionSpent m = AutoMiner.sessionSpent this /\
   AutoMiner.sessionMined m = AutoMiner.sessionMined this /\
   AutoMiner.stop now m = (m, false) /\
   (AutoMiner.sessionId this = 0 -> AutoMiner.db m = AutoMiner.db this) /\
   (AutoMiner.sessionId this <> 0 ->
    findSession (AutoMiner.sessionId this) (AutoMiner.db m)
    = option_map (completed now)
        (findSession (AutoMiner.sessionId this) (AutoMiner.db this)) /\
    (forall other : Z,
        other <> AutoMiner.sessionId this ->
        findSession other (AutoMiner.db m)
        = findSession other (AutoMiner.db this)) /\
    MiningDatabase.transactions (AutoMiner.db m)
    = MiningDatabase.transactions (AutoMiner.db this) /\
    MiningDatabase.runtimeState (AutoMiner.db m)
    = MiningDatabase.runtimeState (AutoMiner.db this))).
Proof.
  unfold AutoMiner.stop. split.
  - intros ->. reflexivity.
  - intros ->. cbn.
    repeat (split; [reflexivity |]). split.
    + intros ->. reflexivity.
    + intros Hid. destruct (Z.eqb_spec (AutoMiner.sessionId this) 0) as [| _];
        [contradiction |].
      unfold findSession. cbn. split; [| split; [| split; reflexivity]].
      * apply find_update_first. intros x Hx. exact Hx.
      * intros other Hother. apply find_update_first_other.
        intros x Hx. cbn. apply Z.eqb_eq in Hx.
        split; apply Z.eqb_neq; lia.
Qed.

End Stop.
